(** * Locale formatting engine: a shallow embedding of the Go sources

    The repository vendors nine locale packages of go-playground/locales
    (bs, ca_IT, chr, en_NU, es_US, ksf_CM, kw, rwk, saq_KE).  Each package
    declares a descriptor struct, a constructor [New] and the methods of the
    [locales.Translator] interface.  This development embeds the descriptor
    data and the plural-rule, number, percent, currency, short-date and time
    methods of those packages, and states the properties of the
    specification over them.

    Conventions.
    - A Go [string] is a [string] (a sequence of bytes; non-ASCII text is
      its UTF-8 encoding), a [[]byte] buffer is a [list ascii].
    - A run-time panic (index or slice bound out of range) is the outcome
      [Panic]; a method that returns normally yields [Ok].
    - [uint64] precisions are [N]; [int], [int64] values are [Z].
    - A finite [float64] is a dyadic number [(-1)^neg * mant * 2^exp].
      NaN and the infinities are not represented: the specification speaks
      of finite values only. *)

From Stdlib Require Import ZArith NArith List Ascii String Lia Bool.
From Stdlib Require Import DecimalString DecimalN.
From stdpp Require Import gmap strings.
Import ListNotations.

#[local] Open Scope string_scope.
#[local] Open Scope list_scope.

(** ** Outcomes of Go code that may panic *)

Inductive panic : Type :=
| IndexOutOfRange
| SliceBoundsOutOfRange.

Inductive result (A : Type) : Type :=
| Ok (a : A)
| Panic (p : panic).

Arguments Ok {A} a.
Arguments Panic {A} p.

Definition bind {A B : Type} (m : result A) (k : A -> result B) : result B :=
  match m with
  | Ok a => k a
  | Panic p => Panic p
  end.

Notation "'let*' x ':=' m 'in' k" := (bind m (fun x => k))
  (at level 10, x name, m at level 100, k at level 200).

Definition returns {A : Type} (m : result A) : Prop := exists a, m = Ok a.

(** ** Strings, bytes and integers *)

(** [s[i]] on a string. *)
Definition index (s : string) (i : nat) : result ascii :=
  match String.get i s with
  | Some c => Ok c
  | None => Panic IndexOutOfRange
  end.

(** [l[i]] on a slice. *)
Definition index_list {A : Type} (l : list A) (i : nat) : result A :=
  match l !! i with
  | Some x => Ok x
  | None => Panic IndexOutOfRange
  end.

(** [s[k:]]: the bound is an [int]. *)
Definition slice_from (s : string) (k : Z) : result string :=
  if ((0 <=? k) && (k <=? Z.of_nat (String.length s)))%Z
  then Ok (string_of_list_ascii (skipn (Z.to_nat k) (list_ascii_of_string s)))
  else Panic SliceBoundsOutOfRange.

(** [s[:k]]. *)
Definition slice_to (s : string) (k : Z) : result string :=
  if ((0 <=? k) && (k <=? Z.of_nat (String.length s)))%Z
  then Ok (string_of_list_ascii (firstn (Z.to_nat k) (list_ascii_of_string s)))
  else Panic SliceBoundsOutOfRange.

Definition bytes (s : string) : list ascii := list_ascii_of_string s.

(** [int(v)] for [v : uint64]: the two's-complement reinterpretation. *)
Definition int_of_uint64 (v : N) : Z :=
  if (v <? 2 ^ 63)%N then Z.of_N v else (Z.of_N v - 2 ^ 64)%Z.

(** [int] arithmetic wraps around. *)
Definition wrap_int (z : Z) : Z := ((z + 2 ^ 63) mod 2 ^ 64 - 2 ^ 63)%Z.

Definition is_digit (c : ascii) : bool :=
  ((48 <=? N_of_ascii c) && (N_of_ascii c <=? 57))%N.

(** Decimal digits of a natural number, most significant first, without
    leading zeros; the digits of 0 are the single digit 0. *)
Definition decimal_digits (n : N) : list ascii :=
  list_ascii_of_string (NilEmpty.string_of_uint (N.to_uint n)).

(** [strconv.Itoa] and [strconv.AppendInt(b, n, 10)]. *)
Definition Itoa (n : Z) : string :=
  string_of_list_ascii
    (if (n <? 0)%Z then "-"%char :: decimal_digits (Z.to_N (- n))
     else decimal_digits (Z.to_N n)).

Definition AppendInt (b : list ascii) (n : Z) : list ascii :=
  b ++ bytes (Itoa n).

(** ** Finite floating-point values *)

Record float64 : Type := mkFloat { f_neg : bool; f_mant : N; f_exp : Z }.

Definition float_of_Z (z : Z) : float64 :=
  mkFloat (z <? 0)%Z (Z.abs_N z) 0.

(** [math.Abs]. *)
Definition Abs (x : float64) : float64 := mkFloat false (f_mant x) (f_exp x).

(** [x < 0]: a negative zero is not below zero. *)
Definition ltb0 (x : float64) : bool := f_neg x && negb (f_mant x =? 0)%N.

(** [x == k] for a non-negative [x] and an integer constant [k]. *)
Definition eqb_int (x : float64) (k : N) : bool :=
  if (0 <=? f_exp x)%Z then (f_mant x * 2 ^ Z.to_N (f_exp x) =? k)%N
  else (f_mant x =? k * 2 ^ Z.to_N (- f_exp x))%N.

(** [int64(x)] for a non-negative [x]: truncation toward zero.  Outside the
    range of [int64] the Go conversion is implementation-defined; the amd64
    result, the least [int64], is used. *)
Definition int64_of_float (x : float64) : Z :=
  let t := if (0 <=? f_exp x)%Z then (f_mant x * 2 ^ Z.to_N (f_exp x))%N
           else (f_mant x / 2 ^ Z.to_N (- f_exp x))%N in
  let z := if f_neg x then (- Z.of_N t)%Z else Z.of_N t in
  if ((- 2 ^ 63 <=? z) && (z <? 2 ^ 63))%Z then z else (- 2 ^ 63)%Z.

Definition round_half_even (num den : N) : N :=
  let q := (num / den)%N in
  let r := (num mod den)%N in
  if (2 * r <? den)%N then q
  else if (den <? 2 * r)%N then (q + 1)%N
  else if N.even q then q else (q + 1)%N.

(** [|x| * 10^p] rounded to the nearest integer, ties to even. *)
Definition scaled (x : float64) (p : N) : N :=
  let m := (f_mant x * 10 ^ p)%N in
  if (0 <=? f_exp x)%Z then (m * 2 ^ Z.to_N (f_exp x))%N
  else round_half_even m (2 ^ Z.to_N (- f_exp x)).

(** The digits of the ['f'] format: at least one whole digit, then, when
    [p > 0], a point and exactly [p] fraction digits. *)
Definition fmtF (x : float64) (p : N) : list ascii :=
  let ds := decimal_digits (scaled x p) in
  let ds := repeat "0"%char (S (N.to_nat p) - length ds) ++ ds in
  let k := (length ds - N.to_nat p)%nat in
  firstn k ds ++ (if (p =? 0)%N then [] else "."%char :: skipn k ds).

(** [strconv.FormatFloat(x, 'f', prec, 64)] of the Go standard library for a
    precision [prec >= 0]: the exact value of [x] correctly rounded to
    [prec] fraction digits.  A negative precision asks Go for the shortest
    representation that reads back as [x]; that mode is not modelled (the
    precision is read as 0), and the properties below are stated for
    precisions [v < 2^63], for which [int(v) = v]. *)
Definition FormatFloat (x : float64) (prec : Z) : string :=
  string_of_list_ascii
    ((if f_neg x then ["-"%char] else []) ++ fmtF x (Z.to_N prec)).

(** ** Timestamps *)

(** The fields of a [time.Time] that the formatters read: [t.Year()],
    [t.Month()], [t.Day()], [t.Hour()], [t.Minute()], [t.Second()] and the
    abbreviation returned by [t.Zone()]. *)
Record Time : Type := mkTime {
  Year : Z; Month : Z; Day : Z;
  Hour : Z; Minute : Z; Second : Z;
  Zone : string
}.

(** ** Package [locales]: plural categories and the translator interface *)

Module locales.

(** Modelled from the spec: the plural-category enumeration
    [locales.PluralRule], whose declaration is not among the sources.  The
    categories are unknown, zero, one, two, few, many and other, numbered
    from 0 in this order; the descriptors below list categories by number
    ([{2, 4, 6}] in bs is one, few, other, the three categories its cardinal
    rule returns). *)
Inductive PluralRule : Type :=
| PluralRuleUnknown
| PluralRuleZero
| PluralRuleOne
| PluralRuleTwo
| PluralRuleFew
| PluralRuleMany
| PluralRuleOther.

Definition PluralRule_of_code (n : N) : PluralRule :=
  match n with
  | 1 => PluralRuleZero
  | 2 => PluralRuleOne
  | 3 => PluralRuleTwo
  | 4 => PluralRuleFew
  | 5 => PluralRuleMany
  | 6 => PluralRuleOther
  | _ => PluralRuleUnknown
  end%N.

Definition PluralRule_eqb (a b : PluralRule) : bool :=
  match a, b with
  | PluralRuleUnknown, PluralRuleUnknown
  | PluralRuleZero, PluralRuleZero
  | PluralRuleOne, PluralRuleOne
  | PluralRuleTwo, PluralRuleTwo
  | PluralRuleFew, PluralRuleFew
  | PluralRuleMany, PluralRuleMany
  | PluralRuleOther, PluralRuleOther => true
  | _, _ => false
  end.

End locales.

Export locales.

(** [[]locales.PluralRule{...}] literals. *)
Definition rules (codes : list N) : list PluralRule :=
  map PluralRule_of_code codes.

(** ** Locale descriptors *)

(** One record stands for the nine descriptor structs.  They declare the
    same fields except for the affix fields [percentSuffix],
    [currencyPositiveSuffix], [currencyNegativePrefix] and
    [currencyNegativeSuffix], which a struct declares only when its methods
    read them; a field that [New] leaves out has the zero value of its type.
    The name tables for months, weekdays and eras, [perMille] and
    [inifinity] are read by none of the methods embedded here and are left
    out. *)
Record locale_struct : Type := mkLocale {
  locale : string;
  pluralsCardinal : list PluralRule;
  pluralsOrdinal : list PluralRule;
  pluralsRange : list PluralRule;
  decimal : string;
  group : string;
  minus : string;
  percent : string;
  percentSuffix : string;
  timeSeparator : string;
  currencies : list string;
  currencyPositiveSuffix : string;
  currencyNegativePrefix : string;
  currencyNegativeSuffix : string;
  periodsAbbreviated : list string;
  timezones : gmap string string
}.

(** The interface [locales.Translator], with the methods that the
    properties below concern.  A translator is a descriptor ([self], the
    receiver) together with its methods closed over it, as the interface
    value that [New] returns. *)
Record Translator : Type := mkTranslator {
  self : locale_struct;
  PluralsCardinal : list PluralRule;
  CardinalPluralRule : float64 -> N -> PluralRule;
  FmtNumber : float64 -> N -> result string;
  FmtPercent : float64 -> N -> result string;
  FmtCurrency : float64 -> N -> nat -> result string;
  FmtAccounting : float64 -> N -> nat -> result string;
  FmtTimeFull : Time -> result string
}.

(** ** Code shared verbatim by the formatters *)

Section Shared.

Variable l : locale_struct.

(** The capacity hint [len(s[:len(s)-int(v)-1])] slices [s]; only its bounds
    check can be observed. *)
Definition capacity_slice (s : string) (v : N) : result string :=
  slice_to s (Z.of_nat (String.length s) - int_of_uint64 v - 1).

(** The digit loop of [FmtNumber], [FmtCurrency] and [FmtAccounting],
    [for i := len(s) - 1; i >= 0; i--]: [cs] lists the bytes still to visit,
    the last byte of [s] first.  The group symbol is appended as its first
    byte, [group[0]]. *)
Fixpoint whole_loop (cs : list ascii) (inWhole : bool) (count : nat)
    (b : list ascii) : result (list ascii) :=
  match cs with
  | [] => Ok b
  | c :: cs' =>
      if Ascii.eqb c "."%char then
        let* d := index (decimal l) 0 in
        whole_loop cs' true count (b ++ [d])
      else if inWhole then
        if (count =? 3)%nat then
          let* g := index (group l) 0 in
          whole_loop cs' inWhole 1 ((b ++ [g]) ++ [c])
        else whole_loop cs' inWhole (S count) (b ++ [c])
      else whole_loop cs' inWhole count (b ++ [c])
  end.

(** The same loop in locales whose group symbol has several bytes (ksf_CM):
    the bytes of the group symbol are appended last byte first,
    [for j := len(group) - 1; j >= 0; j--]. *)
Fixpoint whole_loop_bytes (cs : list ascii) (inWhole : bool) (count : nat)
    (b : list ascii) : result (list ascii) :=
  match cs with
  | [] => Ok b
  | c :: cs' =>
      if Ascii.eqb c "."%char then
        let* d := index (decimal l) 0 in
        whole_loop_bytes cs' true count (b ++ [d])
      else if inWhole then
        if (count =? 3)%nat then
          whole_loop_bytes cs' inWhole 1 ((b ++ rev (bytes (group l))) ++ [c])
        else whole_loop_bytes cs' inWhole (S count) (b ++ [c])
      else whole_loop_bytes cs' inWhole count (b ++ [c])
  end.

(** The loop of [FmtPercent]: no whole-part state, no group symbol. *)
Fixpoint percent_loop (cs : list ascii) (b : list ascii)
    : result (list ascii) :=
  match cs with
  | [] => Ok b
  | c :: cs' =>
      if Ascii.eqb c "."%char then
        let* d := index (decimal l) 0 in
        percent_loop cs' (b ++ [d])
      else percent_loop cs' (b ++ [c])
  end.

(** [if num < 0 { b = append(b, sign[0]) }]. *)
Definition append_sign (num : float64) (sign : string) (b : list ascii)
    : result (list ascii) :=
  if ltb0 num then let* m := index sign 0 in Ok (b ++ [m]) else Ok b.

(** The padding of the currency formatters:
    [if int(v) < 2 { if v == 0 { b = append(b, decimal...) }
                     for i := 0; i < 2-int(v); i++ { b = append(b, '0') } }]. *)
Definition pad_fraction (v : N) (b : list ascii) : list ascii :=
  if (int_of_uint64 v <? 2)%Z then
    (if (v =? 0)%N then b ++ bytes (decimal l) else b)
      ++ repeat "0"%char (Z.to_nat (wrap_int (2 - int_of_uint64 v)))
  else b.

(** The clock fields with their zero padding,
    [if t.Minute() < 10 { b = append(b, '0') }; b = AppendInt(b, t.Minute())]. *)
Definition append_padded (b : list ascii) (n : Z) : list ascii :=
  AppendInt (if (n <? 10)%Z then b ++ ["0"%char] else b) n.

End Shared.

(** The no-break space U+00A0, bytes C2 A0 in UTF-8. *)
Definition nbsp : string :=
  String (ascii_of_N 194) (String (ascii_of_N 160) EmptyString).

(** ** Package [bs] *)

Module bs.

Definition New : locale_struct := {|
  locale := "bs";
  pluralsCardinal := rules [2; 4; 6]%N;
  pluralsOrdinal := rules [6]%N;
  pluralsRange := rules [2; 4; 6]%N;
  decimal := ",";
  group := ".";
  minus := "-";
  percent := "%";
  percentSuffix := nbsp;
  timeSeparator := ":";
  currencies :=
    ["ADP"; "AED"; "AFA"; "AFN"; "ALK"; "ALL"; "AMD"; "ANG"; "AOA"; "AOK";
     "AON"; "AOR"; "ARA"; "ARL"; "ARM"; "ARP"; "ARS"; "ATS"; "AUD"; "AWG";
     "AZM"; "AZN"; "BAD"; "KM"; "BAN"; "BBD"; "BDT"; "BEC"; "BEF"; "BEL";
     "BGL"; "BGM"; "BGN"; "BGO"; "BHD"; "BIF"; "BMD"; "BND"; "BOB"; "BOL";
     "BOP"; "BOV"; "BRB"; "BRC"; "BRE"; "BRL"; "BRN"; "BRR"; "BRZ"; "BSD";
     "BTN"; "BUK"; "BWP"; "BYB"; "BYN"; "BYR"; "BZD"; "CAD"; "CDF"; "CHE";
     "CHF"; "CHW"; "CLE"; "CLF"; "CLP"; "CNX"; "CNY"; "COP"; "COU"; "CRC";
     "CSD"; "CSK"; "CUC"; "CUP"; "CVE"; "CYP"; "CZK"; "DDM"; "DEM"; "DJF";
     "DKK"; "DOP"; "DZD"; "ECS"; "ECV"; "EEK"; "EGP"; "ERN"; "ESA"; "ESB";
     "ESP"; "ETB"; "€"; "FIM"; "FJD"; "FKP"; "FRF"; "GBP"; "GEK"; "GEL";
     "GHC"; "GHS"; "GIP"; "GMD"; "GNF"; "GNS"; "GQE"; "GRD"; "GTQ"; "GWE";
     "GWP"; "GYD"; "HKD"; "HNL"; "HRD"; "kn"; "HTG"; "HUF"; "IDR"; "IEP";
     "ILP"; "ILR"; "ILS"; "₹"; "IQD"; "IRR"; "ISJ"; "ISK"; "ITL"; "JMD";
     "JOD"; "¥"; "KES"; "KGS"; "KHR"; "KMF"; "KPW"; "KRH"; "KRO"; "₩"; "KWD";
     "KYD"; "KZT"; "LAK"; "LBP"; "LKR"; "LRD"; "LSL"; "LTL"; "LTT"; "LUC";
     "LUF"; "LUL"; "LVL"; "LVR"; "LYD"; "MAD"; "MAF"; "MCF"; "MDC"; "MDL";
     "MGA"; "MGF"; "MKD"; "MKN"; "MLF"; "MMK"; "MNT"; "MOP"; "MRO"; "MTL";
     "MTP"; "MUR"; "MVP"; "MVR"; "MWK"; "MXN"; "MXP"; "MXV"; "MYR"; "MZE";
     "MZM"; "MZN"; "NAD"; "NGN"; "NIC"; "NIO"; "NLG"; "NOK"; "NPR"; "NZD";
     "OMR"; "PAB"; "PEI"; "PEN"; "PES"; "PGK"; "PHP"; "PKR"; "PLN"; "PLZ";
     "PTE"; "PYG"; "QAR"; "RHD"; "ROL"; "RON"; "din."; "RUB"; "RUR"; "RWF";
     "SAR"; "SBD"; "SCR"; "SDD"; "SDG"; "SDP"; "SEK"; "SGD"; "SHP"; "SIT";
     "SKK"; "SLL"; "SOS"; "SRD"; "SRG"; "SSP"; "STD"; "SUR"; "SVC"; "SYP";
     "SZL"; "฿"; "TJR"; "TJS"; "TMM"; "TMT"; "TND"; "TOP"; "TPE"; "TRL";
     "TRY"; "TTD"; "NT$"; "TZS"; "UAH"; "UAK"; "UGS"; "UGX"; "USD"; "USN";
     "USS"; "UYI"; "UYP"; "UYU"; "UZS"; "VEB"; "VEF"; "₫"; "VNN"; "VUV";
     "WST"; "FCFA"; "XAG"; "XAU"; "XBA"; "XBB"; "XBC"; "XBD"; "XCD"; "XDR";
     "XEU"; "XFO"; "XFU"; "CFA"; "XPD"; "XPF"; "XPT"; "XRE"; "XSU"; "XTS";
     "XUA"; "XXX"; "YDD"; "YER"; "YUD"; "YUM"; "YUN"; "YUR"; "ZAL"; "ZAR";
     "ZMK"; "ZMW"; "ZRN"; "ZRZ"; "ZWD"; "ZWL"; "ZWR"];
  currencyPositiveSuffix := nbsp;
  currencyNegativePrefix := EmptyString;
  currencyNegativeSuffix := nbsp;
  periodsAbbreviated := ["prijepodne"; "popodne"];
  timezones :=
    list_to_map
      [("MDT", "Makao letnje računanje vremena");
       ("PDT", "Sjevernoameričko pacifičko ljetno vrijeme");
       ("OEZ", "Istočnoevropsko standardno vrijeme");
       ("WEZ", "Zapadnoevropsko standardno vrijeme");
       ("HKT", "Hongkonško standardno vrijeme");
       ("COT", "Kolumbijsko standardno vrijeme");
       ("CDT", "Sjevernoameričko centralno ljetno vrijeme");
       ("JST", "Japansko standardno vrijeme");
       ("AST", "Sjevernoameričko atlantsko standardno vrijeme");
       ("MST", "Makao standardno vreme");
       ("AEDT", "Istočnoaustralijsko ljetno vrijeme");
       ("WIT", "Istočnoindonezijsko vrijeme"); ("ECT", "Ekvadorsko vrijeme");
       ("HEEG", "Istočnogrenlandsko ljetno vrijeme");
       ("CST", "Sjevernoameričko centralno standardno vrijeme");
       ("TMT", "Turkmenistansko standardno vrijeme");
       ("HKST", "Hongkonško ljetno vrijeme");
       ("ACST", "Centralnoaustralijsko standardno vrijeme");
       ("HEPMX", "Meksičko pacifičko ljetno vrijeme");
       ("AWST", "Zapadnoaustralijsko standardno vrijeme");
       ("CLST", "Čileansko ljetno vrijeme");
       ("ARST", "Argentinsko ljetno vrijeme");
       ("COST", "Kolumbijsko ljetno vrijeme");
       ("HNPM", "Standardno vrijeme na Ostrvima Sen Pjer i Mikelon");
       ("LHDT", "Ljetno vrijeme na Ostrvu Lord Hau");
       ("SRT", "Surinamsko vrijeme"); ("BOT", "Bolivijsko vrijeme");
       ("MESZ", "Centralnoevropsko ljetno vrijeme");
       ("ART", "Argentinsko standardno vrijeme");
       ("HNNOMX", "Sjeverozapadno meksičko standardno vrijeme");
       ("∅∅∅", "Peruansko ljetno vrijeme");
       ("WITA", "Centralnoindonezijsko vrijeme");
       ("HNPMX", "Meksičko pacifičko standardno vrijeme");
       ("VET", "Venecuelansko vrijeme");
       ("ADT", "Sjevernoameričko atlantsko ljetno vrijeme");
       ("EAT", "Istočnoafričko vrijeme");
       ("CAT", "Centralnoafričko vrijeme");
       ("CHAST", "Čatamsko standardno vrijeme");
       ("CHADT", "Čatamsko ljetno vrijeme");
       ("SGT", "Singapursko standardno vrijeme");
       ("HENOMX", "Sjeverozapadno meksičko ljetno vrijeme");
       ("HNEG", "Istočnogrenlandsko standardno vrijeme");
       ("AKDT", "Aljaskansko ljetno vrijeme");
       ("ChST", "Čamorsko standardno vrijeme");
       ("HECU", "Kubansko ljetno vrijeme");
       ("ACWDT", "Australijsko centralnozapadno ljetno vrijeme");
       ("SAST", "Južnoafričko standardno vrijeme");
       ("GMT", "Griničko vrijeme");
       ("WAST", "Zapadnoafričko ljetno vrijeme");
       ("EST", "Sjevernoameričko istočno standardno vrijeme");
       ("AKST", "Aljaskansko standardno vrijeme");
       ("HEPM", "Ljetno vrijeme na Ostrvima Sen Pjer i Mikelon");
       ("JDT", "Japansko ljetno vrijeme");
       ("HNOG", "Zapadnogrenlandsko standardno vrijeme");
       ("MYT", "Malezijsko vrijeme"); ("BT", "Butansko vrijeme");
       ("GYT", "Gvajansko vrijeme");
       ("NZST", "Novozelandsko standardno vrijeme");
       ("IST", "Indijsko standardno vrijeme");
       ("WART", "Zapadnoargentinsko standardno vrijeme");
       ("WESZ", "Zapadnoevropsko ljetno vrijeme");
       ("LHST", "Standardno vrijeme na Ostrvu Lord Hau");
       ("AWDT", "Zapadnoaustralijsko ljetno vrijeme");
       ("HADT", "Havajsko-aleućansko ljetno vrijeme");
       ("HNT", "Njufaundlendsko standardno vrijeme");
       ("MEZ", "Centralnoevropsko standardno vrijeme");
       ("CLT", "Čileansko standardno vrijeme");
       ("ACDT", "Centralnoaustralijsko ljetno vrijeme");
       ("HNCU", "Kubansko standardno vrijeme");
       ("WIB", "Zapadnoindonezijsko vrijeme");
       ("PST", "Sjevernoameričko pacifičko standardno vrijeme");
       ("HAST", "Havajsko-aleućansko standardno vrijeme");
       ("ACWST", "Australijsko centralnozapadno standardno vrijeme");
       ("NZDT", "Novozelandsko ljetno vrijeme");
       ("HEOG", "Zapadnogrenlandsko ljetno vrijeme");
       ("OESZ", "Istočnoevropsko ljetno vrijeme");
       ("WAT", "Zapadnoafričko standardno vrijeme");
       ("HAT", "Njufaundlendsko ljetno vrijeme");
       ("UYST", "Urugvajsko ljetno vrijeme");
       ("UYT", "Urugvajsko standardno vrijeme");
       ("WARST", "Zapadnoargentinsko ljetno vrijeme");
       ("TMST", "Turkmenistansko ljetno vrijeme");
       ("EDT", "Sjevernoameričko istočno ljetno vrijeme");
       ("GFT", "Francuskogvajansko vrijeme");
       ("AEST", "Istočnoaustralijsko standardno vrijeme")]
|}.

Definition PluralsCardinal (bs : locale_struct) : list PluralRule :=
  pluralsCardinal bs.

Definition PluralsOrdinal (bs : locale_struct) : list PluralRule :=
  pluralsOrdinal bs.

Section Rules.

(** [locales.F(n, v)], the visible fraction digits of [n] as an integer.
    The helper belongs to the locales package and its body is not among the
    sources; the rules are embedded over an arbitrary such function. *)
Variable F : float64 -> N -> Z.

Definition CardinalPluralRule (bs : locale_struct) (num : float64) (v : N)
    : PluralRule :=
  let n := Abs num in
  let i := int64_of_float n in
  let f := F n v in
  let iMod10 := Z.rem i 10 in
  let iMod100 := Z.rem i 100 in
  let fMod10 := Z.rem f 10 in
  let fMod100 := Z.rem f 100 in
  if ((v =? 0)%N && (iMod10 =? 1)%Z && negb (iMod100 =? 11)%Z)
     || ((fMod10 =? 1)%Z && negb (fMod100 =? 11)%Z) then PluralRuleOne
  else if ((v =? 0)%N && (2 <=? iMod10)%Z && (iMod10 <=? 4)%Z
           && ((iMod100 <? 12)%Z || (14 <? iMod100)%Z))
          || ((2 <=? fMod10)%Z && (fMod10 <=? 4)%Z
              && ((fMod100 <? 12)%Z || (14 <? fMod100)%Z)) then PluralRuleFew
  else PluralRuleOther.

Definition OrdinalPluralRule (bs : locale_struct) (num : float64) (v : N)
    : PluralRule :=
  PluralRuleOther.

Definition RangePluralRule (bs : locale_struct) (num1 : float64) (v1 : N)
    (num2 : float64) (v2 : N) : PluralRule :=
  let start := CardinalPluralRule bs num1 v1 in
  let end_ := CardinalPluralRule bs num2 v2 in
  if PluralRule_eqb start PluralRuleOne && PluralRule_eqb end_ PluralRuleOne
  then PluralRuleOne
  else if PluralRule_eqb start PluralRuleOne && PluralRule_eqb end_ PluralRuleFew
  then PluralRuleFew
  else if PluralRule_eqb start PluralRuleOne && PluralRule_eqb end_ PluralRuleOther
  then PluralRuleOther
  else if PluralRule_eqb start PluralRuleFew && PluralRule_eqb end_ PluralRuleOne
  then PluralRuleOne
  else if PluralRule_eqb start PluralRuleFew && PluralRule_eqb end_ PluralRuleFew
  then PluralRuleFew
  else if PluralRule_eqb start PluralRuleFew && PluralRule_eqb end_ PluralRuleOther
  then PluralRuleOther
  else if PluralRule_eqb start PluralRuleOther && PluralRule_eqb end_ PluralRuleOne
  then PluralRuleOne
  else if PluralRule_eqb start PluralRuleOther && PluralRule_eqb end_ PluralRuleFew
  then PluralRuleFew
  else PluralRuleOther.

End Rules.

Definition FmtNumber (bs : locale_struct) (num : float64) (v : N)
    : result string :=
  let s := FormatFloat (Abs num) (int_of_uint64 v) in
  let* _ := capacity_slice s v in
  let* b := whole_loop bs (rev (bytes s)) (v =? 0)%N 0 [] in
  let* b := append_sign num (minus bs) b in
  let b := rev b in
  Ok (string_of_list_ascii b).

Definition FmtPercent (bs : locale_struct) (num : float64) (v : N)
    : result string :=
  let s := FormatFloat (Abs num) (int_of_uint64 v) in
  let* b := percent_loop bs (rev (bytes s)) [] in
  let* b := append_sign num (minus bs) b in
  let b := rev b in
  let b := b ++ bytes (percentSuffix bs) in
  let b := b ++ bytes (percent bs) in
  Ok (string_of_list_ascii b).

Definition FmtCurrency (bs : locale_struct) (num : float64) (v : N)
    (currency : nat) : result string :=
  let s := FormatFloat (Abs num) (int_of_uint64 v) in
  let* symbol := index_list (currencies bs) currency in
  let* _ := capacity_slice s v in
  let* b := whole_loop bs (rev (bytes s)) (v =? 0)%N 0 [] in
  let* b := append_sign num (minus bs) b in
  let b := rev b in
  let b := pad_fraction bs v b in
  let b := b ++ bytes (currencyPositiveSuffix bs) in
  let b := b ++ bytes symbol in
  Ok (string_of_list_ascii b).

Definition FmtAccounting (bs : locale_struct) (num : float64) (v : N)
    (currency : nat) : result string :=
  let s := FormatFloat (Abs num) (int_of_uint64 v) in
  let* symbol := index_list (currencies bs) currency in
  let* _ := capacity_slice s v in
  let* b := whole_loop bs (rev (bytes s)) (v =? 0)%N 0 [] in
  let* b := append_sign num (minus bs) b in
  let b := rev b in
  let b := pad_fraction bs v b in
  let b := if ltb0 num
           then (b ++ bytes (currencyNegativeSuffix bs)) ++ bytes symbol
           else (b ++ bytes (currencyPositiveSuffix bs)) ++ bytes symbol in
  Ok (string_of_list_ascii b).

Definition FmtDateShort (bs : locale_struct) (t : Time) : result string :=
  let b := [] in
  let b := AppendInt b (Day t) in
  let b := b ++ ["."%char] in
  let b := AppendInt b (Month t) in
  let b := b ++ ["."%char] in
  let* b := (if (9 <? Year t)%Z
           then let* y := slice_from (Itoa (Year t)) 2 in Ok (b ++ bytes y)
           else let* y := slice_from (Itoa (Year t)) 1 in Ok (b ++ bytes y)) in
  let b := b ++ ["."%char] in
  Ok (string_of_list_ascii b).

Definition FmtTimeFull (bs : locale_struct) (t : Time) : result string :=
  let b := [] in
  let b := append_padded b (Hour t) in
  let b := b ++ bytes (timeSeparator bs) in
  let b := append_padded b (Minute t) in
  let b := b ++ bytes (timeSeparator bs) in
  let b := append_padded b (Second t) in
  let b := b ++ [" "%char] in
  let tz := Zone t in
  let b := match timezones bs !! tz with
           | Some btz => b ++ bytes btz
           | None => b ++ bytes tz
           end in
  Ok (string_of_list_ascii b).

Definition translator (F : float64 -> N -> Z) : Translator :=
  mkTranslator New (PluralsCardinal New) (CardinalPluralRule F New)
    (FmtNumber New) (FmtPercent New) (FmtCurrency New) (FmtAccounting New)
    (FmtTimeFull New).

End bs.

(** ** Package [ksf_CM] *)

Module ksf_CM.

Definition New : locale_struct := {|
  locale := "ksf_CM";
  pluralsCardinal := [];
  pluralsOrdinal := [];
  pluralsRange := [];
  decimal := ",";
  group := nbsp;
  minus := EmptyString;
  percent := EmptyString;
  percentSuffix := EmptyString;
  timeSeparator := ":";
  currencies :=
    ["ADP"; "AED"; "AFA"; "AFN"; "ALK"; "ALL"; "AMD"; "ANG"; "AOA"; "AOK";
     "AON"; "AOR"; "ARA"; "ARL"; "ARM"; "ARP"; "ARS"; "ATS"; "AUD"; "AWG";
     "AZM"; "AZN"; "BAD"; "BAM"; "BAN"; "BBD"; "BDT"; "BEC"; "BEF"; "BEL";
     "BGL"; "BGM"; "BGN"; "BGO"; "BHD"; "BIF"; "BMD"; "BND"; "BOB"; "BOL";
     "BOP"; "BOV"; "BRB"; "BRC"; "BRE"; "BRL"; "BRN"; "BRR"; "BRZ"; "BSD";
     "BTN"; "BUK"; "BWP"; "BYB"; "BYN"; "BYR"; "BZD"; "CAD"; "CDF"; "CHE";
     "CHF"; "CHW"; "CLE"; "CLF"; "CLP"; "CNX"; "CNY"; "COP"; "COU"; "CRC";
     "CSD"; "CSK"; "CUC"; "CUP"; "CVE"; "CYP"; "CZK"; "DDM"; "DEM"; "DJF";
     "DKK"; "DOP"; "DZD"; "ECS"; "ECV"; "EEK"; "EGP"; "ERN"; "ESA"; "ESB";
     "ESP"; "ETB"; "EUR"; "FIM"; "FJD"; "FKP"; "FRF"; "GBP"; "GEK"; "GEL";
     "GHC"; "GHS"; "GIP"; "GMD"; "GNF"; "GNS"; "GQE"; "GRD"; "GTQ"; "GWE";
     "GWP"; "GYD"; "HKD"; "HNL"; "HRD"; "HRK"; "HTG"; "HUF"; "IDR"; "IEP";
     "ILP"; "ILR"; "ILS"; "INR"; "IQD"; "IRR"; "ISJ"; "ISK"; "ITL"; "JMD";
     "JOD"; "JPY"; "KES"; "KGS"; "KHR"; "KMF"; "KPW"; "KRH"; "KRO"; "KRW";
     "KWD"; "KYD"; "KZT"; "LAK"; "LBP"; "LKR"; "LRD"; "LSL"; "LTL"; "LTT";
     "LUC"; "LUF"; "LUL"; "LVL"; "LVR"; "LYD"; "MAD"; "MAF"; "MCF"; "MDC";
     "MDL"; "MGA"; "MGF"; "MKD"; "MKN"; "MLF"; "MMK"; "MNT"; "MOP"; "MRO";
     "MTL"; "MTP"; "MUR"; "MVP"; "MVR"; "MWK"; "MXN"; "MXP"; "MXV"; "MYR";
     "MZE"; "MZM"; "MZN"; "NAD"; "NGN"; "NIC"; "NIO"; "NLG"; "NOK"; "NPR";
     "NZD"; "OMR"; "PAB"; "PEI"; "PEN"; "PES"; "PGK"; "PHP"; "PKR"; "PLN";
     "PLZ"; "PTE"; "PYG"; "QAR"; "RHD"; "ROL"; "RON"; "RSD"; "RUB"; "RUR";
     "RWF"; "SAR"; "SBD"; "SCR"; "SDD"; "SDG"; "SDP"; "SEK"; "SGD"; "SHP";
     "SIT"; "SKK"; "SLL"; "SOS"; "SRD"; "SRG"; "SSP"; "STD"; "SUR"; "SVC";
     "SYP"; "SZL"; "THB"; "TJR"; "TJS"; "TMM"; "TMT"; "TND"; "TOP"; "TPE";
     "TRL"; "TRY"; "TTD"; "TWD"; "TZS"; "UAH"; "UAK"; "UGS"; "UGX"; "USD";
     "USN"; "USS"; "UYI"; "UYP"; "UYU"; "UZS"; "VEB"; "VEF"; "VND"; "VNN";
     "VUV"; "WST"; "XAF"; "XAG"; "XAU"; "XBA"; "XBB"; "XBC"; "XBD"; "XCD";
     "XDR"; "XEU"; "XFO"; "XFU"; "XOF"; "XPD"; "XPF"; "XPT"; "XRE"; "XSU";
     "XTS"; "XUA"; "XXX"; "YDD"; "YER"; "YUD"; "YUM"; "YUN"; "YUR"; "ZAL";
     "ZAR"; "ZMK"; "ZMW"; "ZRN"; "ZRZ"; "ZWD"; "ZWL"; "ZWR"];
  currencyPositiveSuffix := nbsp;
  currencyNegativePrefix := EmptyString;
  currencyNegativeSuffix := nbsp;
  periodsAbbreviated := ["sárúwá"; "cɛɛ́nko"];
  timezones :=
    list_to_map
      [("HEPMX", "HEPMX"); ("IST", "IST"); ("ACST", "ACST"); ("∅∅∅", "∅∅∅");
       ("WIB", "WIB"); ("NZDT", "NZDT"); ("MEZ", "MEZ"); ("ADT", "ADT");
       ("HNCU", "HNCU"); ("MESZ", "MESZ"); ("AST", "AST"); ("WEZ", "WEZ");
       ("EDT", "EDT"); ("BT", "BT"); ("LHST", "LHST"); ("PDT", "PDT");
       ("HNOG", "HNOG"); ("GMT", "GMT"); ("TMT", "TMT"); ("HEPM", "HEPM");
       ("OESZ", "OESZ"); ("MYT", "MYT"); ("TMST", "TMST");
       ("HNNOMX", "HNNOMX"); ("WITA", "WITA"); ("ECT", "ECT");
       ("ACWDT", "ACWDT"); ("NZST", "NZST"); ("MDT", "MDT");
       ("HNEG", "HNEG"); ("UYST", "UYST"); ("VET", "VET"); ("OEZ", "OEZ");
       ("EST", "EST"); ("HAT", "HAT"); ("ChST", "ChST"); ("HAST", "HAST");
       ("HADT", "HADT"); ("WARST", "WARST"); ("ACDT", "ACDT");
       ("AKST", "AKST"); ("LHDT", "LHDT"); ("WIT", "WIT");
       ("CHAST", "CHAST"); ("WART", "WART"); ("CLST", "CLST");
       ("WAT", "WAT"); ("COT", "COT"); ("EAT", "EAT"); ("HECU", "HECU");
       ("CHADT", "CHADT"); ("CAT", "CAT"); ("HENOMX", "HENOMX");
       ("SAST", "SAST"); ("AWST", "AWST"); ("JST", "JST"); ("COST", "COST");
       ("AKDT", "AKDT"); ("HNPMX", "HNPMX"); ("BOT", "BOT"); ("CLT", "CLT");
       ("HNT", "HNT"); ("AEST", "AEST"); ("HNPM", "HNPM"); ("ART", "ART");
       ("GYT", "GYT"); ("CST", "CST"); ("CDT", "CDT"); ("PST", "PST");
       ("ACWST", "ACWST"); ("JDT", "JDT"); ("MST", "MST"); ("WAST", "WAST");
       ("UYT", "UYT"); ("AWDT", "AWDT"); ("SGT", "SGT"); ("ARST", "ARST");
       ("HKT", "HKT"); ("AEDT", "AEDT"); ("GFT", "GFT"); ("SRT", "SRT");
       ("HEOG", "HEOG"); ("WESZ", "WESZ"); ("HKST", "HKST");
       ("HEEG", "HEEG")]
|}.

Definition PluralsCardinal (ksf : locale_struct) : list PluralRule :=
  pluralsCardinal ksf.

Definition CardinalPluralRule (ksf : locale_struct) (num : float64) (v : N)
    : PluralRule :=
  PluralRuleUnknown.

Definition FmtNumber (ksf : locale_struct) (num : float64) (v : N)
    : result string :=
  let s := FormatFloat (Abs num) (int_of_uint64 v) in
  let* _ := capacity_slice s v in
  let* b := whole_loop_bytes ksf (rev (bytes s)) (v =? 0)%N 0 [] in
  let* b := append_sign num (minus ksf) b in
  let b := rev b in
  Ok (string_of_list_ascii b).

Definition FmtPercent (ksf : locale_struct) (num : float64) (v : N)
    : result string :=
  Ok (FormatFloat (Abs num) (int_of_uint64 v)).

Definition FmtCurrency (ksf : locale_struct) (num : float64) (v : N)
    (currency : nat) : result string :=
  let s := FormatFloat (Abs num) (int_of_uint64 v) in
  let* symbol := index_list (currencies ksf) currency in
  let* _ := capacity_slice s v in
  let* b := whole_loop_bytes ksf (rev (bytes s)) (v =? 0)%N 0 [] in
  let* b := append_sign num (minus ksf) b in
  let b := rev b in
  let b := pad_fraction ksf v b in
  let b := b ++ bytes (currencyPositiveSuffix ksf) in
  let b := b ++ bytes symbol in
  Ok (string_of_list_ascii b).

Definition FmtAccounting (ksf : locale_struct) (num : float64) (v : N)
    (currency : nat) : result string :=
  let s := FormatFloat (Abs num) (int_of_uint64 v) in
  let* symbol := index_list (currencies ksf) currency in
  let* _ := capacity_slice s v in
  let* b := whole_loop_bytes ksf (rev (bytes s)) (v =? 0)%N 0 [] in
  let* b := append_sign num (minus ksf) b in
  let b := rev b in
  let b := pad_fraction ksf v b in
  let b := if ltb0 num
           then (b ++ bytes (currencyNegativeSuffix ksf)) ++ bytes symbol
           else (b ++ bytes (currencyPositiveSuffix ksf)) ++ bytes symbol in
  Ok (string_of_list_ascii b).

Definition FmtTimeFull (ksf : locale_struct) (t : Time) : result string :=
  let b := [] in
  let b := append_padded b (Hour t) in
  let b := b ++ bytes (timeSeparator ksf) in
  let b := append_padded b (Minute t) in
  let b := b ++ bytes (timeSeparator ksf) in
  let b := append_padded b (Second t) in
  let b := b ++ [" "%char] in
  let tz := Zone t in
  let b := match timezones ksf !! tz with
           | Some btz => b ++ bytes btz
           | None => b ++ bytes tz
           end in
  Ok (string_of_list_ascii b).

Definition translator : Translator :=
  mkTranslator New (PluralsCardinal New) (CardinalPluralRule New)
    (FmtNumber New) (FmtPercent New) (FmtCurrency New) (FmtAccounting New)
    (FmtTimeFull New).

End ksf_CM.

(** ** Package [ca_IT] *)

Module ca_IT.

Definition New : locale_struct := {|
  locale := "ca_IT";
  pluralsCardinal := rules [2; 6]%N;
  pluralsOrdinal := rules [2; 3; 4; 6]%N;
  pluralsRange := rules [6]%N;
  decimal := ",";
  group := ".";
  minus := "-";
  percent := "%";
  percentSuffix := EmptyString;
  timeSeparator := ":";
  currencies :=
    ["ADP"; "AED"; "AFA"; "AFN"; "ALK"; "ALL"; "AMD"; "ANG"; "AOA"; "AOK";
     "AON"; "AOR"; "ARA"; "ARL"; "ARM"; "ARP"; "ARS"; "ATS"; "AUD"; "AWG";
     "AZM"; "AZN"; "BAD"; "BAM"; "BAN"; "BBD"; "BDT"; "BEC"; "BEF"; "BEL";
     "BGL"; "BGM"; "BGN"; "BGO"; "BHD"; "BIF"; "BMD"; "BND"; "BOB"; "BOL";
     "BOP"; "BOV"; "BRB"; "BRC"; "BRE"; "BRL"; "BRN"; "BRR"; "BRZ"; "BSD";
     "BTN"; "BUK"; "BWP"; "BYB"; "BYN"; "BYR"; "BZD"; "CAD"; "CDF"; "CHE";
     "CHF"; "CHW"; "CLE"; "CLF"; "CLP"; "CNX"; "CNY"; "COP"; "COU"; "CRC";
     "CSD"; "CSK"; "CUC"; "CUP"; "CVE"; "CYP"; "CZK"; "DDM"; "DEM"; "DJF";
     "DKK"; "DOP"; "DZD"; "ECS"; "ECV"; "EEK"; "EGP"; "ERN"; "ESA"; "ESB";
     "ESP"; "ETB"; "EUR"; "FIM"; "FJD"; "FKP"; "FRF"; "GBP"; "GEK"; "GEL";
     "GHC"; "GHS"; "GIP"; "GMD"; "GNF"; "GNS"; "GQE"; "GRD"; "GTQ"; "GWE";
     "GWP"; "GYD"; "HKD"; "HNL"; "HRD"; "HRK"; "HTG"; "HUF"; "IDR"; "IEP";
     "ILP"; "ILR"; "ILS"; "INR"; "IQD"; "IRR"; "ISJ"; "ISK"; "ITL"; "JMD";
     "JOD"; "JPY"; "KES"; "KGS"; "KHR"; "KMF"; "KPW"; "KRH"; "KRO"; "KRW";
     "KWD"; "KYD"; "KZT"; "LAK"; "LBP"; "LKR"; "LRD"; "LSL"; "LTL"; "LTT";
     "LUC"; "LUF"; "LUL"; "LVL"; "LVR"; "LYD"; "MAD"; "MAF"; "MCF"; "MDC";
     "MDL"; "MGA"; "MGF"; "MKD"; "MKN"; "MLF"; "MMK"; "MNT"; "MOP"; "MRO";
     "MTL"; "MTP"; "MUR"; "MVP"; "MVR"; "MWK"; "MXN"; "MXP"; "MXV"; "MYR";
     "MZE"; "MZM"; "MZN"; "NAD"; "NGN"; "NIC"; "NIO"; "NLG"; "NOK"; "NPR";
     "NZD"; "OMR"; "PAB"; "PEI"; "PEN"; "PES"; "PGK"; "PHP"; "PKR"; "PLN";
     "PLZ"; "PTE"; "PYG"; "QAR"; "RHD"; "ROL"; "RON"; "RSD"; "RUB"; "RUR";
     "RWF"; "SAR"; "SBD"; "SCR"; "SDD"; "SDG"; "SDP"; "SEK"; "SGD"; "SHP";
     "SIT"; "SKK"; "SLL"; "SOS"; "SRD"; "SRG"; "SSP"; "STD"; "SUR"; "SVC";
     "SYP"; "SZL"; "THB"; "TJR"; "TJS"; "TMM"; "TMT"; "TND"; "TOP"; "TPE";
     "TRL"; "TRY"; "TTD"; "TWD"; "TZS"; "UAH"; "UAK"; "UGS"; "UGX"; "USD";
     "USN"; "USS"; "UYI"; "UYP"; "UYU"; "UZS"; "VEB"; "VEF"; "VND"; "VNN";
     "VUV"; "WST"; "XAF"; "XAG"; "XAU"; "XBA"; "XBB"; "XBC"; "XBD"; "XCD";
     "XDR"; "XEU"; "XFO"; "XFU"; "XOF"; "XPD"; "XPF"; "XPT"; "XRE"; "XSU";
     "XTS"; "XUA"; "XXX"; "YDD"; "YER"; "YUD"; "YUM"; "YUN"; "YUR"; "ZAL";
     "ZAR"; "ZMK"; "ZMW"; "ZRN"; "ZRZ"; "ZWD"; "ZWL"; "ZWR"];
  currencyPositiveSuffix := nbsp;
  currencyNegativePrefix := "(";
  currencyNegativeSuffix := (nbsp +:+ ")");
  periodsAbbreviated := ["a. m."; "p. m."];
  timezones :=
    list_to_map
      [("MST", "Hora estàndard de muntanya d’Amèrica del Nord");
       ("HEPMX", "Hora d’estiu del Pacífic de Mèxic");
       ("CST", "Hora estàndard central d’Amèrica del Nord");
       ("CDT", "Hora d’estiu central d’Amèrica del Nord");
       ("MYT", "Hora de Malàisia"); ("ART", "Hora estàndard de l’Argentina");
       ("HKT", "Hora estàndard de Hong Kong");
       ("AKDT", "Hora d’estiu d’Alaska");
       ("HNEG", "Hora estàndard de l’Est de Grenlàndia");
       ("WESZ", "Hora d’estiu de l’Oest d’Europa");
       ("CLST", "Hora d’estiu de Xile");
       ("HKST", "Hora d’estiu de Hong Kong"); ("BT", "Hora de Bhutan");
       ("HAST", "Hora estàndard de Hawaii-Aleutianes");
       ("VET", "Hora de Veneçuela"); ("ARST", "Hora d’estiu de l’Argentina");
       ("SAST", "Hora estàndard del sud de l’Àfrica");
       ("MESZ", "Hora d’estiu del Centre d’Europa");
       ("HNPMX", "Hora estàndard del Pacífic de Mèxic");
       ("HEOG", "Hora d’estiu de l’Oest de Grenlàndia");
       ("WART", "Hora estàndard de l’oest de l’Argentina");
       ("TMT", "Hora estàndard del Turkmenistan");
       ("EST", "Hora estàndard oriental d’Amèrica del Nord");
       ("ECT", "Hora de l’Equador"); ("UYT", "Hora estàndard de l’Uruguai");
       ("SRT", "Hora de Surinam"); ("WIB", "Hora de l’oest d’Indonèsia");
       ("JST", "Hora estàndard del Japó");
       ("ACDT", "Hora d’estiu d’Austràlia Central");
       ("COT", "Hora estàndard de Colòmbia");
       ("AEST", "Hora estàndard d’Austràlia Oriental");
       ("EAT", "Hora de l’Àfrica Oriental");
       ("COST", "Hora d’estiu de Colòmbia");
       ("HNT", "Hora estàndard de Terranova"); ("BOT", "Hora de Bolívia");
       ("HADT", "Hora d’estiu de Hawaii-Aleutianes");
       ("IST", "Hora estàndard de l’Índia");
       ("HENOMX", "Hora d’estiu del nord-oest de Mèxic");
       ("SGT", "Hora de Singapur"); ("PST", "Hora estàndard del Pacífic");
       ("WARST", "Hora d’estiu de l’oest de l’Argentina");
       ("WAST", "Hora d’estiu de l’Àfrica Occidental");
       ("HEPM", "Hora d’estiu de Saint-Pierre i Miquelon");
       ("WIT", "Hora de l’est d’Indonèsia");
       ("AWDT", "Hora d’estiu d’Austràlia Occidental");
       ("PDT", "Hora d’estiu del Pacífic");
       ("WEZ", "Hora estàndard de l’Oest d’Europa");
       ("TMST", "Hora d’estiu del Turkmenistan");
       ("MDT", "Hora d’estiu de muntanya d’Amèrica del Nord");
       ("AEDT", "Hora d’estiu d’Austràlia Oriental");
       ("AST", "Hora estàndard de l’Atlàntic");
       ("CLT", "Hora estàndard de Xile");
       ("AKST", "Hora estàndard d’Alaska");
       ("LHST", "Hora estàndard de Lord Howe");
       ("HECU", "Hora d’estiu de Cuba");
       ("ACWST", "Hora estàndard d’Austràlia centre-occidental");
       ("MEZ", "Hora estàndard del Centre d’Europa");
       ("OESZ", "Hora d’estiu de l’Est d’Europa");
       ("WAT", "Hora estàndard de l’Àfrica Occidental");
       ("ACST", "Hora estàndard d’Austràlia Central");
       ("UYST", "Hora d’estiu de l’Uruguai");
       ("HEEG", "Hora d’estiu de l’Est de Grenlàndia"); ("∅∅∅", "∅∅∅");
       ("HNCU", "Hora estàndard de Cuba");
       ("ACWDT", "Hora d’estiu d’Austràlia centre-occidental");
       ("NZST", "Hora estàndard de Nova Zelanda");
       ("HNOG", "Hora estàndard de l’Oest de Grenlàndia");
       ("OEZ", "Hora estàndard de l’Est d’Europa");
       ("HAT", "Hora d’estiu de Terranova");
       ("EDT", "Hora d’estiu oriental d’Amèrica del Nord");
       ("HNNOMX", "Hora estàndard del nord-oest de Mèxic");
       ("GMT", "Hora del Meridià de Greenwich"); ("GYT", "Hora de Guyana");
       ("CAT", "Hora de l’Àfrica Central");
       ("NZDT", "Hora d’estiu de Nova Zelanda");
       ("JDT", "Hora d’estiu del Japó");
       ("WITA", "Hora central d’Indonèsia");
       ("AWST", "Hora estàndard d’Austràlia Occidental");
       ("ChST", "Hora de Chamorro");
       ("HNPM", "Hora estàndard de Saint-Pierre i Miquelon");
       ("LHDT", "Horari d’estiu de Lord Howe");
       ("CHAST", "Hora estàndard de Chatham");
       ("CHADT", "Hora d’estiu de Chatham");
       ("ADT", "Hora d’estiu de l’Atlàntic");
       ("GFT", "Hora de la Guaiana Francesa")]
|}.

Definition PluralsCardinal (ca : locale_struct) : list PluralRule :=
  pluralsCardinal ca.

Definition CardinalPluralRule (ca : locale_struct) (num : float64) (v : N)
    : PluralRule :=
  let n := Abs num in
  let i := int64_of_float n in
  if (i =? 1)%Z && (v =? 0)%N then PluralRuleOne else PluralRuleOther.

Definition FmtNumber (ca : locale_struct) (num : float64) (v : N)
    : result string :=
  let s := FormatFloat (Abs num) (int_of_uint64 v) in
  let* _ := capacity_slice s v in
  let* b := whole_loop ca (rev (bytes s)) (v =? 0)%N 0 [] in
  let* b := append_sign num (minus ca) b in
  let b := rev b in
  Ok (string_of_list_ascii b).

Definition FmtPercent (ca : locale_struct) (num : float64) (v : N)
    : result string :=
  let s := FormatFloat (Abs num) (int_of_uint64 v) in
  let* b := percent_loop ca (rev (bytes s)) [] in
  let* b := append_sign num (minus ca) b in
  let b := rev b in
  let b := b ++ bytes (percent ca) in
  Ok (string_of_list_ascii b).

Definition FmtCurrency (ca : locale_struct) (num : float64) (v : N)
    (currency : nat) : result string :=
  let s := FormatFloat (Abs num) (int_of_uint64 v) in
  let* symbol := index_list (currencies ca) currency in
  let* _ := capacity_slice s v in
  let* b := whole_loop ca (rev (bytes s)) (v =? 0)%N 0 [] in
  let* b := append_sign num (minus ca) b in
  let b := rev b in
  let b := pad_fraction ca v b in
  let b := b ++ bytes (currencyPositiveSuffix ca) in
  let b := b ++ bytes symbol in
  Ok (string_of_list_ascii b).

Definition FmtAccounting (ca : locale_struct) (num : float64) (v : N)
    (currency : nat) : result string :=
  let s := FormatFloat (Abs num) (int_of_uint64 v) in
  let* symbol := index_list (currencies ca) currency in
  let* _ := capacity_slice s v in
  let* b := whole_loop ca (rev (bytes s)) (v =? 0)%N 0 [] in
  let* b := append_sign num (currencyNegativePrefix ca) b in
  let b := rev b in
  let b := pad_fraction ca v b in
  let b := if ltb0 num
           then (b ++ bytes (currencyNegativeSuffix ca)) ++ bytes symbol
           else (b ++ bytes (currencyPositiveSuffix ca)) ++ bytes symbol in
  Ok (string_of_list_ascii b).

Definition FmtTimeFull (ca : locale_struct) (t : Time) : result string :=
  let b := [] in
  let b := AppendInt b (Hour t) in
  let b := b ++ bytes (timeSeparator ca) in
  let b := append_padded b (Minute t) in
  let b := b ++ bytes (timeSeparator ca) in
  let b := append_padded b (Second t) in
  let b := b ++ [" "%char] in
  let tz := Zone t in
  let b := match timezones ca !! tz with
           | Some btz => b ++ bytes btz
           | None => b ++ bytes tz
           end in
  Ok (string_of_list_ascii b).

Definition translator : Translator :=
  mkTranslator New (PluralsCardinal New) (CardinalPluralRule New)
    (FmtNumber New) (FmtPercent New) (FmtCurrency New) (FmtAccounting New)
    (FmtTimeFull New).

End ca_IT.

(** ** Package [chr] *)

Module chr.

Definition New : locale_struct := {|
  locale := "chr";
  pluralsCardinal := rules [2; 6]%N;
  pluralsOrdinal := [];
  pluralsRange := [];
  decimal := ".";
  group := ",";
  minus := "-";
  percent := "%";
  percentSuffix := EmptyString;
  timeSeparator := ":";
  currencies :=
    ["ADP"; "AED"; "AFA"; "AFN"; "ALK"; "ALL"; "AMD"; "ANG"; "AOA"; "AOK";
     "AON"; "AOR"; "ARA"; "ARL"; "ARM"; "ARP"; "ARS"; "ATS"; "A$"; "AWG";
     "AZM"; "AZN"; "BAD"; "BAM"; "BAN"; "BBD"; "BDT"; "BEC"; "BEF"; "BEL";
     "BGL"; "BGM"; "BGN"; "BGO"; "BHD"; "BIF"; "BMD"; "BND"; "BOB"; "BOL";
     "BOP"; "BOV"; "BRB"; "BRC"; "BRE"; "R$"; "BRN"; "BRR"; "BRZ"; "BSD";
     "BTN"; "BUK"; "BWP"; "BYB"; "BYN"; "BYR"; "BZD"; "CA$"; "CDF"; "CHE";
     "CHF"; "CHW"; "CLE"; "CLF"; "CLP"; "CNX"; "CN¥"; "COP"; "COU"; "CRC";
     "CSD"; "CSK"; "CUC"; "CUP"; "CVE"; "CYP"; "CZK"; "DDM"; "DEM"; "DJF";
     "DKK"; "DOP"; "DZD"; "ECS"; "ECV"; "EEK"; "EGP"; "ERN"; "ESA"; "ESB";
     "ESP"; "ETB"; "€"; "FIM"; "FJD"; "FKP"; "FRF"; "£"; "GEK"; "GEL"; "GHC";
     "GHS"; "GIP"; "GMD"; "GNF"; "GNS"; "GQE"; "GRD"; "GTQ"; "GWE"; "GWP";
     "GYD"; "HK$"; "HNL"; "HRD"; "HRK"; "HTG"; "HUF"; "IDR"; "IEP"; "ILP";
     "ILR"; "₪"; "₹"; "IQD"; "IRR"; "ISJ"; "ISK"; "ITL"; "JMD"; "JOD"; "JP¥";
     "KES"; "KGS"; "KHR"; "KMF"; "KPW"; "KRH"; "KRO"; "₩"; "KWD"; "KYD";
     "KZT"; "LAK"; "LBP"; "LKR"; "LRD"; "LSL"; "LTL"; "LTT"; "LUC"; "LUF";
     "LUL"; "LVL"; "LVR"; "LYD"; "MAD"; "MAF"; "MCF"; "MDC"; "MDL"; "MGA";
     "MGF"; "MKD"; "MKN"; "MLF"; "MMK"; "MNT"; "MOP"; "MRO"; "MTL"; "MTP";
     "MUR"; "MVP"; "MVR"; "MWK"; "MX$"; "MXP"; "MXV"; "MYR"; "MZE"; "MZM";
     "MZN"; "NAD"; "NGN"; "NIC"; "NIO"; "NLG"; "NOK"; "NPR"; "NZ$"; "OMR";
     "PAB"; "PEI"; "PEN"; "PES"; "PGK"; "PHP"; "PKR"; "PLN"; "PLZ"; "PTE";
     "PYG"; "QAR"; "RHD"; "ROL"; "RON"; "RSD"; "RUB"; "RUR"; "RWF"; "SAR";
     "SBD"; "SCR"; "SDD"; "SDG"; "SDP"; "SEK"; "SGD"; "SHP"; "SIT"; "SKK";
     "SLL"; "SOS"; "SRD"; "SRG"; "SSP"; "STD"; "SUR"; "SVC"; "SYP"; "SZL";
     "THB"; "TJR"; "TJS"; "TMM"; "TMT"; "TND"; "TOP"; "TPE"; "TRL"; "TRY";
     "TTD"; "NT$"; "TZS"; "UAH"; "UAK"; "UGS"; "UGX"; "$"; "USN"; "USS";
     "UYI"; "UYP"; "UYU"; "UZS"; "VEB"; "VEF"; "₫"; "VNN"; "VUV"; "WST";
     "FCFA"; "XAG"; "XAU"; "XBA"; "XBB"; "XBC"; "XBD"; "EC$"; "XDR"; "XEU";
     "XFO"; "XFU"; "CFA"; "XPD"; "CFPF"; "XPT"; "XRE"; "XSU"; "XTS"; "XUA";
     "XXX"; "YDD"; "YER"; "YUD"; "YUM"; "YUN"; "YUR"; "ZAL"; "ZAR"; "ZMK";
     "ZMW"; "ZRN"; "ZRZ"; "ZWD"; "ZWL"; "ZWR"];
  currencyPositiveSuffix := EmptyString;
  currencyNegativePrefix := "(";
  currencyNegativeSuffix := ")";
  periodsAbbreviated := ["ᏌᎾᎴ"; "ᏒᎯᏱᎢᏗᏢ"];
  timezones :=
    list_to_map
      [("AWDT", "ᎡᎳᏗᏜ ᏭᏕᎵᎬ ᏗᏜ ᎪᎯ ᎢᎦ ᎠᏟᎢᎵᏒᎩ"); ("CHADT", "ᏣᏝᎻ ᎪᎯ ᎢᎦ ᎠᏟᎢᎵᏒᎩ");
       ("WEZ", "ᏭᏕᎵᎬ ᏗᏜ ᏳᎳᏈ ᎠᏟᎶᏍᏗ ᎠᏟᎢᎵᏒ"); ("HNT", "ᎢᏤᎤᏂᏩᏛᏓᎦᏙᎯ ᎠᏟᎶᏍᏗ ᎠᏟᎢᎵᏒ");
       ("HADT", "ᎭᏩᏱ-ᎠᎵᏳᏏᎠᏂ ᎪᎯ ᎢᎦ ᎠᏟᎢᎵᏍᏒᎩ"); ("MESZ", "ᎠᏰᏟ ᏳᎳᏈ ᎪᎩ ᎠᏟᎢᎵᏒ");
       ("OEZ", "ᏗᎧᎸᎬ ᏗᏜ ᏳᎳᏈ ᎠᏟᎶᏍᏗ ᎠᏟᎢᎵᏒ"); ("TMT", "ᏛᎵᎩᎺᏂᏍᏔᏂ ᎠᏟᎶᏍᏗ ᎠᏟᎢᎵᏒ");
       ("EDT", "ᏗᎧᎸᎬ ᏗᏜ ᎪᎯ ᎢᎦ ᎠᏟᎢᎵᏍᏒᎩ"); ("HNCU", "ᎫᏆ ᎠᏟᎶᏍᏗ ᎠᏟᎢᎵᏒ");
       ("NZDT", "ᎢᏤ ᏏᎢᎴᏂᏗ ᎪᎯ ᎢᎦ ᎠᏟᎢᎵᏒᎩ"); ("HEOG", "ᏭᏕᎵᎬ ᎢᏤᏍᏛᏱ ᎪᎩ ᎠᏟᎢᎵᏒ");
       ("ACST", "ᎠᏰᏟ ᎡᎳᏗᏜ ᎠᏟᎶᏍᏗ ᎠᏟᎢᎵᏒ"); ("WITA", "ᎠᏰᏟ ᎢᏂᏙᏂᏍᏯ ᎠᏟᎢᎵᏒ");
       ("PDT", "ᏭᏕᎵᎬ ᎪᎯ ᎢᎦ ᎠᏟᎢᎵᏍᏒᎩ"); ("HNEG", "ᏗᎧᎸᎬ ᎢᏤᏍᏛᏱ ᎠᏟᎶᏍᏗ ᎠᎵᎢᎵᏒ");
       ("UYST", "ᏳᎷᏇ ᎪᎩ ᎠᏟᎢᎵᏒ"); ("LHST", "ᎤᎬᏫᏳᎯ ᎭᏫ ᎠᏟᎶᏍᏗ ᎠᏟᎢᎵᏒ");
       ("LHDT", "ᎤᎬᏫᏳᎯ ᎭᏫ ᎪᎯ ᎢᎦ ᎠᏟᎢᎵᏒᎩ"); ("SAST", "ᏧᎦᎾᏮ ᎬᎿᎨᏍᏛ ᎠᏟᎶᏍᏗ ᎠᏟᎢᎵᏒ");
       ("GYT", "ᎦᏯᎾ ᎠᏟᎢᎵᏒ"); ("CST", "ᎠᏰᏟ ᎠᏟᎶᏍᏗ ᎠᏟᎢᎵᏒ");
       ("JDT", "ᏣᏩᏂᏏ ᎪᎯ ᎢᎦ ᎠᏟᎢᎵᏒᎩ");
       ("WARST", "ᏭᏕᎵᎬ ᏗᏜ ᎠᏥᏂᏘᏂᎠ ᎪᎩ ᎠᏟᎶᏍᏗ ᎠᏟᎢᎵᏒ");
       ("HECU", "ᎫᏆ ᎪᎯ ᎢᎦ ᎠᏟᎢᎵᏍᏒᎩ"); ("EAT", "ᏗᎧᎸᎬ ᎬᎿᎨᏍᏛ ᎠᏟᎢᎵᏒ");
       ("HEEG", "ᏗᎧᎸᎬ ᎢᏤᏍᏛᏱ ᎪᎩ ᎠᏟᎢᎵᏒ"); ("BT", "ᏊᏔᏂ ᎠᏟᎢᎵᏒ");
       ("ACDT", "ᎠᏰᏟ ᎡᎳᏗᏜ ᎪᎯ ᎢᎦ ᎠᏟᎢᎵᏒᎩ");
       ("HEPMX", "ᎠᏂᏍᏆᏂ ᏭᏕᎵᎬ ᎪᎯ ᎢᎦ ᎠᏟᎢᎵᏍᏒᎩ"); ("CDT", "ᎠᏰᏟ ᎪᎯ ᎢᎦ ᎠᏟᎢᎵᏍᏒᎩ");
       ("BOT", "ᏉᎵᏫᎠ ᎠᏟᎢᎵᏒ"); ("NZST", "ᎢᏤ ᏏᎢᎴᏂᏗ ᎠᏟᎶᏍᏗ ᎠᏟᎢᎵᏒ");
       ("JST", "ᏣᏩᏂᏏ ᎠᏟᎶᏍᏗ ᎠᏟᎢᎵᏒ"); ("AWST", "ᎡᎳᏗᏜ ᏭᏕᎵᎬ ᏗᏜ ᎠᏟᎶᏍᏗ ᎠᏟᎢᎵᏒ");
       ("PST", "ᏭᏕᎵᎬ ᎠᏟᎶᏍᏗ ᎠᏟᎢᎵᏒ"); ("HNOG", "ᏭᏕᎵᎬ ᎢᏤᏍᏛᏱ ᎠᏟᎶᏍᏗ ᎠᎵᎢᎵᏒ");
       ("WAST", "ᏭᏕᎵᎬ ᎬᎿᎨᏍᏛ ᎪᎩ ᎠᏟᎢᎵᏒ"); ("ChST", "ᏣᎼᎶ ᎠᏟᎶᏍᏗ ᎠᏟᎢᎵᏒ");
       ("CHAST", "ᏣᏝᎻ ᎠᏟᎶᏍᏗ ᎠᏟᎢᎵᏒ"); ("WESZ", "ᏭᏕᎵᎬ ᏗᏜ ᏳᎳᏈ ᎪᎩ ᎠᏟᎢᎵᏒ");
       ("MYT", "ᎹᎴᏏᎢᎠ ᎠᏟᎢᎵᏒ"); ("HNNOMX", "ᏧᏴᏢ ᏭᏕᎵᎬ ᎠᏂᏍᏆᏂ ᎠᏟᎶᏍᏗ ᎠᏟᎢᎵᏒ");
       ("COT", "ᎪᎸᎻᏈᎢᎠ ᎠᏟᎶᏍᏗ ᎠᏟᎢᎵᏒ"); ("AEDT", "ᎡᎳᏗᏜ ᏗᎧᎸᎬ ᏗᏜ ᎪᎯ ᎢᎦ ᎠᏟᎢᎵᏒᎩ");
       ("HNPMX", "ᎠᏂᏍᏆᏂ ᏭᏕᎵᎬ ᎠᏟᎶᏍᏗ ᎠᏟᎢᎵᏒ"); ("OESZ", "ᏗᎧᎸᎬ ᏗᏜ ᏳᎳᏈ ᎪᎩ ᎠᏟᎢᎵᏒ");
       ("CLST", "ᏥᎵ ᎪᎩ ᎠᏟᎢᎵᏒ"); ("ADT", "ᏗᎧᎸᎬ ᎪᎯ ᎢᎦ ᎠᏟᎢᎵᏍᏒᎩ");
       ("HKST", "ᎰᏂᎩ ᎪᏂᎩ ᎪᎩ ᎠᏟᎢᎵᏒ"); ("SRT", "ᏒᎵᎾᎻ ᎠᏟᎢᎵᏒ");
       ("SGT", "ᏏᏂᎦᏉᎵ ᎠᏟᎶᏍᏗ ᎠᏟᎢᎵᏒ"); ("EST", "ᏗᎧᎸᎬ ᏗᏜ ᎠᏟᎶᏍᏗ ᎠᏟᎢᎵᏒ");
       ("HAT", "ᎢᏤᎤᏂᏩᏛᏓᎦᏙᎯ ᎪᎯ ᎢᎦ ᎠᏟᎢᎵᏍᏒᎩ");
       ("AEST", "ᎡᎳᏗᏜ ᏗᎧᎸᎬ ᏗᏜ ᎠᏟᎶᏍᏗ ᎠᏟᎢᎵᏒ"); ("WIT", "ᏗᎧᎸᎬ ᏗᏜ ᎢᏂᏙᏂᏍᏯ ᎠᏟᎢᎵᏒ");
       ("IST", "ᎢᏂᏗᎢᎠ ᎠᏟᎶᏍᏗ ᎠᏟᎢᎵᏒ"); ("GMT", "ᎢᏤ ᎢᏳᏍᏗ ᎠᏟᎢᎵᏒ");
       ("WART", "ᏭᏕᎵᎬ ᏗᏜ ᎠᏥᏂᏘᏂᎠ ᎠᏟᎶᏍᏗ ᎠᏟᎢᎵᏒ"); ("TMST", "ᏛᎵᎩᎺᏂᏍᏔᏂ ᎪᎩ ᎠᏟᎢᎵᏒ");
       ("HEPM", "ᎤᏓᏅᏘ ᏈᏰ ᎠᎴ ᎻᏇᎶᏂ ᎪᎯ ᎢᎦ ᎠᏟᎢᎵᏒᎩ"); ("CLT", "ᏥᎵ ᎠᏟᎶᏍᏗ ᎠᏟᎢᎵᏒ");
       ("AST", "ᏗᎧᎸᎬ ᎠᏟᎶᏍᏗ ᎠᏟᎢᎵᏒ"); ("MST", "MST");
       ("WAT", "ᏭᏕᎵᎬ ᎬᎿᎨᏍᏛ ᎠᏟᎶᏍᏗ ᎠᏟᎢᎵᏒ"); ("AKDT", "ᎠᎳᏍᎦ ᎪᎯ ᎢᎦ ᎠᏟᎢᎵᏍᏒᎩ");
       ("ARST", "ᎠᏥᏂᏘᏂᎠ ᎪᎩ ᎠᏟᎢᎵᏒ"); ("COST", "ᎪᎸᎻᏈᎢᎠ ᎪᎩ ᎠᏟᎢᎵᏒ");
       ("GFT", "ᎠᏂᎦᎸ ᏈᏯᎾ ᎠᏟᎢᎵᏒ"); ("HAST", "ᎭᏩᏱ-ᎠᎵᏳᏏᎠᏂ ᎠᏟᎶᏍᏗ ᎠᏟᎢᎵᏒ");
       ("ACWST", "ᎠᏰᏟ ᎡᎳᏗᏜ ᏭᏕᎵᎬ ᏗᏜ ᎠᏟᎶᏍᏗ ᎠᏟᎢᎵᏒ"); ("VET", "ᏪᏁᏑᏪᎳ ᎠᏟᎢᎵᏒ");
       ("MEZ", "ᎠᏰᏟ ᏳᎳᏈ ᎠᏟᎶᏍᏗ ᎠᏟᎢᎵᏒ"); ("ART", "ᎠᏥᏂᏘᏂᎠ ᎠᏟᎶᏍᏗ ᎠᏟᎢᎵᏒ");
       ("HNPM", "ᎤᏓᏅᏘ ᏈᏰ ᎠᎴ ᎻᏇᎶᏂ ᎠᏟᎶᏍᏗ ᎠᏟᎢᎵᏒ");
       ("HKT", "ᎰᏂᎩ ᎪᏂᎩ ᎠᏟᎶᏍᏗ ᎠᏟᎢᎵᏒ"); ("AKST", "ᎠᎳᏍᎦ ᎠᏟᎶᏍᏗ ᎠᏟᎢᎵᏒ");
       ("∅∅∅", "ᎠᏐᎴᏏ ᎪᎩ ᎠᏟᎢᎵᏒ"); ("WIB", "ᏭᏕᎵᎬ ᏗᏜ ᎢᏂᏙᏂᏍᏯ ᎠᏟᎢᎵᏒ");
       ("ECT", "ᎡᏆᏙᎵ ᎠᏟᎢᎵᏒ"); ("ACWDT", "ᎠᏰᏟ ᎡᎳᏗᏜ ᏭᏕᎵᎬ ᏗᏜ ᎪᎯ ᎢᎦ ᎠᏟᎢᎵᏒᎩ");
       ("CAT", "ᎠᏰᏟ ᎬᎿᎨᏍᏛ ᎠᏟᎢᎵᏒ"); ("MDT", "MDT");
       ("HENOMX", "ᏧᏴᏢ ᏭᏕᎵᎬ ᎠᏂᏍᏆᏂ ᎪᎯ ᎢᎦ ᎠᏟᎢᎵᏍᏒᎩ");
       ("UYT", "ᏳᎷᏇ ᎠᏟᎶᏍᏗ ᎠᏟᎢᎵᏒ")]
|}.

Definition PluralsCardinal (chr : locale_struct) : list PluralRule :=
  pluralsCardinal chr.

Definition CardinalPluralRule (chr : locale_struct) (num : float64) (v : N)
    : PluralRule :=
  let n := Abs num in
  if eqb_int n 1 then PluralRuleOne else PluralRuleOther.

Definition FmtNumber (chr : locale_struct) (num : float64) (v : N)
    : result string :=
  let s := FormatFloat (Abs num) (int_of_uint64 v) in
  let* _ := capacity_slice s v in
  let* b := whole_loop chr (rev (bytes s)) (v =? 0)%N 0 [] in
  let* b := append_sign num (minus chr) b in
  let b := rev b in
  Ok (string_of_list_ascii b).

Definition FmtPercent (chr : locale_struct) (num : float64) (v : N)
    : result string :=
  let s := FormatFloat (Abs num) (int_of_uint64 v) in
  let* b := percent_loop chr (rev (bytes s)) [] in
  let* b := append_sign num (minus chr) b in
  let b := rev b in
  let b := b ++ bytes (percent chr) in
  Ok (string_of_list_ascii b).

Definition FmtCurrency (chr : locale_struct) (num : float64) (v : N)
    (currency : nat) : result string :=
  let s := FormatFloat (Abs num) (int_of_uint64 v) in
  let* symbol := index_list (currencies chr) currency in
  let* _ := capacity_slice s v in
  let* b := whole_loop chr (rev (bytes s)) (v =? 0)%N 0 [] in
  let b := b ++ rev (bytes symbol) in
  let* b := append_sign num (minus chr) b in
  let b := rev b in
  let b := pad_fraction chr v b in
  Ok (string_of_list_ascii b).

Definition FmtAccounting (chr : locale_struct) (num : float64) (v : N)
    (currency : nat) : result string :=
  let s := FormatFloat (Abs num) (int_of_uint64 v) in
  let* symbol := index_list (currencies chr) currency in
  let* _ := capacity_slice s v in
  let* b := whole_loop chr (rev (bytes s)) (v =? 0)%N 0 [] in
  let* b := (if ltb0 num
           then let b := b ++ rev (bytes symbol) in
                let* p := index (currencyNegativePrefix chr) 0 in Ok (b ++ [p])
           else Ok (b ++ rev (bytes symbol))) in
  let b := rev b in
  let b := pad_fraction chr v b in
  let b := if ltb0 num then b ++ bytes (currencyNegativeSuffix chr) else b in
  Ok (string_of_list_ascii b).

Definition FmtDateShort (chr : locale_struct) (t : Time) : result string :=
  let b := [] in
  let b := AppendInt b (Month t) in
  let b := b ++ ["/"%char] in
  let b := AppendInt b (Day t) in
  let b := b ++ ["/"%char] in
  let* b := (if (9 <? Year t)%Z
           then let* y := slice_from (Itoa (Year t)) 2 in Ok (b ++ bytes y)
           else let* y := slice_from (Itoa (Year t)) 1 in Ok (b ++ bytes y)) in
  Ok (string_of_list_ascii b).

Definition FmtTimeShort (chr : locale_struct) (t : Time) : result string :=
  let b := [] in
  let h := Hour t in
  let h := if (12 <? h)%Z then (h - 12)%Z else h in
  let b := AppendInt b h in
  let b := b ++ bytes (timeSeparator chr) in
  let b := append_padded b (Minute t) in
  let b := b ++ [" "%char] in
  let* b := (if (Hour t <? 12)%Z
           then let* p := index_list (periodsAbbreviated chr) 0 in Ok (b ++ bytes p)
           else let* p := index_list (periodsAbbreviated chr) 1 in Ok (b ++ bytes p)) in
  Ok (string_of_list_ascii b).

Definition FmtTimeMedium (chr : locale_struct) (t : Time) : result string :=
  let b := [] in
  let h := Hour t in
  let h := if (12 <? h)%Z then (h - 12)%Z else h in
  let b := AppendInt b h in
  let b := b ++ bytes (timeSeparator chr) in
  let b := append_padded b (Minute t) in
  let b := b ++ bytes (timeSeparator chr) in
  let b := append_padded b (Second t) in
  let b := b ++ [" "%char] in
  let* b := (if (Hour t <? 12)%Z
           then let* p := index_list (periodsAbbreviated chr) 0 in Ok (b ++ bytes p)
           else let* p := index_list (periodsAbbreviated chr) 1 in Ok (b ++ bytes p)) in
  Ok (string_of_list_ascii b).

Definition FmtTimeLong (chr : locale_struct) (t : Time) : result string :=
  let b := [] in
  let h := Hour t in
  let h := if (12 <? h)%Z then (h - 12)%Z else h in
  let b := AppendInt b h in
  let b := b ++ bytes (timeSeparator chr) in
  let b := append_padded b (Minute t) in
  let b := b ++ bytes (timeSeparator chr) in
  let b := append_padded b (Second t) in
  let b := b ++ [" "%char] in
  let* b := (if (Hour t <? 12)%Z
           then let* p := index_list (periodsAbbreviated chr) 0 in Ok (b ++ bytes p)
           else let* p := index_list (periodsAbbreviated chr) 1 in Ok (b ++ bytes p)) in
  let b := b ++ [" "%char] in
  let tz := Zone t in
  let b := b ++ bytes tz in
  Ok (string_of_list_ascii b).

Definition FmtTimeFull (chr : locale_struct) (t : Time) : result string :=
  let b := [] in
  let h := Hour t in
  let h := if (12 <? h)%Z then (h - 12)%Z else h in
  let b := AppendInt b h in
  let b := b ++ bytes (timeSeparator chr) in
  let b := append_padded b (Minute t) in
  let b := b ++ bytes (timeSeparator chr) in
  let b := append_padded b (Second t) in
  let b := b ++ [" "%char] in
  let* b := (if (Hour t <? 12)%Z
           then let* p := index_list (periodsAbbreviated chr) 0 in Ok (b ++ bytes p)
           else let* p := index_list (periodsAbbreviated chr) 1 in Ok (b ++ bytes p)) in
  let b := b ++ [" "%char] in
  let tz := Zone t in
  let b := match timezones chr !! tz with
           | Some btz => b ++ bytes btz
           | None => b ++ bytes tz
           end in
  Ok (string_of_list_ascii b).

Definition translator : Translator :=
  mkTranslator New (PluralsCardinal New) (CardinalPluralRule New)
    (FmtNumber New) (FmtPercent New) (FmtCurrency New) (FmtAccounting New)
    (FmtTimeFull New).

End chr.

(** ** Package [es_US] *)

Module es_US.

Definition New : locale_struct := {|
  locale := "es_US";
  pluralsCardinal := rules [2; 6]%N;
  pluralsOrdinal := rules [6]%N;
  pluralsRange := rules [6]%N;
  decimal := ",";
  group := ".";
  minus := "-";
  percent := "%";
  percentSuffix := nbsp;
  timeSeparator := ":";
  currencies :=
    ["ADP"; "AED"; "AFA"; "AFN"; "ALK"; "ALL"; "AMD"; "ANG"; "AOA"; "AOK";
     "AON"; "AOR"; "ARA"; "ARL"; "ARM"; "ARP"; "ARS"; "ATS"; "AUD"; "AWG";
     "AZM"; "AZN"; "BAD"; "BAM"; "BAN"; "BBD"; "BDT"; "BEC"; "BEF"; "BEL";
     "BGL"; "BGM"; "BGN"; "BGO"; "BHD"; "BIF"; "BMD"; "BND"; "BOB"; "BOL";
     "BOP"; "BOV"; "BRB"; "BRC"; "BRE"; "BRL"; "BRN"; "BRR"; "BRZ"; "BSD";
     "BTN"; "BUK"; "BWP"; "BYB"; "BYN"; "BYR"; "BZD"; "CAD"; "CDF"; "CHE";
     "CHF"; "CHW"; "CLE"; "CLF"; "CLP"; "CNX"; "CNY"; "COP"; "COU"; "CRC";
     "CSD"; "CSK"; "CUC"; "CUP"; "CVE"; "CYP"; "CZK"; "DDM"; "DEM"; "DJF";
     "DKK"; "DOP"; "DZD"; "ECS"; "ECV"; "EEK"; "EGP"; "ERN"; "ESA"; "ESB";
     "ESP"; "ETB"; "EUR"; "FIM"; "FJD"; "FKP"; "FRF"; "GBP"; "GEK"; "GEL";
     "GHC"; "GHS"; "GIP"; "GMD"; "GNF"; "GNS"; "GQE"; "GRD"; "GTQ"; "GWE";
     "GWP"; "GYD"; "HKD"; "HNL"; "HRD"; "HRK"; "HTG"; "HUF"; "IDR"; "IEP";
     "ILP"; "ILR"; "ILS"; "INR"; "IQD"; "IRR"; "ISJ"; "ISK"; "ITL"; "JMD";
     "JOD"; "¥"; "KES"; "KGS"; "KHR"; "KMF"; "KPW"; "KRH"; "KRO"; "KRW";
     "KWD"; "KYD"; "KZT"; "LAK"; "LBP"; "LKR"; "LRD"; "LSL"; "LTL"; "LTT";
     "LUC"; "LUF"; "LUL"; "LVL"; "LVR"; "LYD"; "MAD"; "MAF"; "MCF"; "MDC";
     "MDL"; "MGA"; "MGF"; "MKD"; "MKN"; "MLF"; "MMK"; "MNT"; "MOP"; "MRO";
     "MTL"; "MTP"; "MUR"; "MVP"; "MVR"; "MWK"; "MXN"; "MXP"; "MXV"; "MYR";
     "MZE"; "MZM"; "MZN"; "NAD"; "NGN"; "NIC"; "NIO"; "NLG"; "NOK"; "NPR";
     "NZD"; "OMR"; "PAB"; "PEI"; "PEN"; "PES"; "PGK"; "PHP"; "PKR"; "PLN";
     "PLZ"; "PTE"; "PYG"; "QAR"; "RHD"; "ROL"; "lei"; "RSD"; "RUB"; "RUR";
     "RWF"; "SAR"; "SBD"; "SCR"; "SDD"; "SDG"; "SDP"; "SEK"; "SGD"; "SHP";
     "SIT"; "SKK"; "SLL"; "SOS"; "SRD"; "SRG"; "SSP"; "STD"; "SUR"; "SVC";
     "SYP"; "SZL"; "THB"; "TJR"; "TJS"; "TMM"; "TMT"; "TND"; "TOP"; "TPE";
     "TRL"; "TRY"; "TTD"; "TWD"; "TZS"; "UAH"; "UAK"; "UGS"; "UGX"; "$";
     "USN"; "USS"; "UYI"; "UYP"; "UYU"; "UZS"; "VEB"; "VEF"; "VND"; "VNN";
     "VUV"; "WST"; "XAF"; "XAG"; "XAU"; "XBA"; "XBB"; "XBC"; "XBD"; "XCD";
     "XDR"; "XEU"; "XFO"; "XFU"; "XOF"; "XPD"; "XPF"; "XPT"; "XRE"; "XSU";
     "XTS"; "XUA"; "XXX"; "YDD"; "YER"; "YUD"; "YUM"; "YUN"; "YUR"; "ZAL";
     "ZAR"; "ZMK"; "ZMW"; "ZRN"; "ZRZ"; "ZWD"; "ZWL"; "ZWR"];
  currencyPositiveSuffix := nbsp;
  currencyNegativePrefix := EmptyString;
  currencyNegativeSuffix := nbsp;
  periodsAbbreviated := ["a. m."; "p. m."];
  timezones :=
    list_to_map
      [("WITA", "hora de Indonesia central"); ("SAST", "hora de Sudáfrica");
       ("CHADT", "hora de verano de Chatham");
       ("TMST", "hora de verano de Turkmenistán");
       ("HAT", "hora de verano de Terranova");
       ("HNEG", "hora estándar de Groenlandia oriental");
       ("AEST", "hora estándar de Australia oriental");
       ("HECU", "hora de verano de Cuba");
       ("OEZ", "hora estándar de Europa oriental");
       ("COT", "hora estándar de Colombia");
       ("HEEG", "hora de verano de Groenlandia oriental");
       ("MST", "hora estándar de las Montañas");
       ("HNPM", "hora estándar de San Pedro y Miquelón");
       ("WIB", "hora de Indonesia occidental");
       ("NZDT", "hora de verano de Nueva Zelanda");
       ("VET", "hora de Venezuela"); ("JDT", "hora de verano de Japón");
       ("ACST", "hora estándar de Australia central");
       ("MDT", "hora de verano de las Montañas");
       ("ACWST", "hora estándar de Australia centroccidental");
       ("AKST", "hora estándar de Alaska");
       ("AKDT", "hora de verano de Alaska");
       ("LHDT", "hora de verano de Lord Howe"); ("GYT", "hora de Guyana");
       ("BOT", "hora de Bolivia");
       ("HADT", "hora de verano de Hawái-Aleutiano");
       ("ART", "hora estándar de Argentina"); ("MYT", "hora de Malasia");
       ("WESZ", "hora de verano de Europa occidental");
       ("EST", "hora estándar oriental");
       ("HKST", "hora de verano de Hong Kong");
       ("GFT", "hora de la Guayana Francesa");
       ("LHST", "hora estándar de Lord Howe");
       ("CDT", "hora de verano central");
       ("IST", "hora estándar de la India");
       ("CLT", "hora estándar de Chile");
       ("HEOG", "hora de verano de Groenlandia occidental");
       ("MEZ", "hora estándar de Europa central");
       ("OESZ", "hora de verano de Europa oriental");
       ("EDT", "hora de verano oriental");
       ("COST", "hora de verano de Colombia");
       ("∅∅∅", "hora de verano de las Azores");
       ("EAT", "hora de África oriental");
       ("NZST", "hora estándar de Nueva Zelanda");
       ("JST", "hora estándar de Japón");
       ("HKT", "hora estándar de Hong Kong"); ("BT", "hora de Bután");
       ("HNT", "hora estándar de Terranova");
       ("CST", "hora estándar central");
       ("AWDT", "hora de verano de Australia occidental");
       ("WAST", "hora de verano de África occidental");
       ("HNCU", "hora estándar de Cuba"); ("ECT", "hora de Ecuador");
       ("HNOG", "hora estándar de Groenlandia occidental");
       ("AST", "hora estándar del Atlántico");
       ("WEZ", "hora estándar de Europa occidental");
       ("ACDT", "hora de verano de Australia central");
       ("UYST", "hora de verano de Uruguay");
       ("HNPMX", "hora estándar del Pacífico de México");
       ("CHAST", "hora estándar de Chatham");
       ("MESZ", "hora de verano de Europa central");
       ("HNNOMX", "hora estándar del noroeste de México");
       ("WAT", "hora estándar de África occidental");
       ("ChST", "hora de Chamorro"); ("UYT", "hora estándar de Uruguay");
       ("SGT", "hora de Singapur");
       ("HAST", "hora estándar de Hawái-Aleutiano");
       ("CAT", "hora de África central");
       ("ADT", "hora de verano del Atlántico");
       ("ARST", "hora de verano de Argentina");
       ("HENOMX", "hora de verano del noroeste de México");
       ("AEDT", "hora de verano de Australia oriental");
       ("SRT", "hora de Surinam");
       ("HEPMX", "hora de verano del Pacífico de México");
       ("AWST", "hora estándar de Australia occidental");
       ("PST", "hora estándar del Pacífico");
       ("GMT", "hora del meridiano de Greenwich");
       ("TMT", "hora estándar de Turkmenistán");
       ("HEPM", "hora de verano de San Pedro y Miquelón");
       ("ACWDT", "hora de verano de Australia centroccidental");
       ("WART", "hora estándar de Argentina occidental");
       ("WIT", "hora de Indonesia oriental");
       ("PDT", "hora de verano del Pacífico");
       ("WARST", "hora de verano de Argentina occidental");
       ("CLST", "hora de verano de Chile")]
|}.

Definition PluralsCardinal (es : locale_struct) : list PluralRule :=
  pluralsCardinal es.

Definition CardinalPluralRule (es : locale_struct) (num : float64) (v : N)
    : PluralRule :=
  let n := Abs num in
  if eqb_int n 1 then PluralRuleOne else PluralRuleOther.

Definition FmtNumber (es : locale_struct) (num : float64) (v : N)
    : result string :=
  let s := FormatFloat (Abs num) (int_of_uint64 v) in
  let* _ := capacity_slice s v in
  let* b := whole_loop es (rev (bytes s)) (v =? 0)%N 0 [] in
  let* b := append_sign num (minus es) b in
  let b := rev b in
  Ok (string_of_list_ascii b).

Definition FmtPercent (es : locale_struct) (num : float64) (v : N)
    : result string :=
  let s := FormatFloat (Abs num) (int_of_uint64 v) in
  let* b := percent_loop es (rev (bytes s)) [] in
  let* b := append_sign num (minus es) b in
  let b := rev b in
  let b := b ++ bytes (percentSuffix es) in
  let b := b ++ bytes (percent es) in
  Ok (string_of_list_ascii b).

Definition FmtCurrency (es : locale_struct) (num : float64) (v : N)
    (currency : nat) : result string :=
  let s := FormatFloat (Abs num) (int_of_uint64 v) in
  let* symbol := index_list (currencies es) currency in
  let* _ := capacity_slice s v in
  let* b := whole_loop es (rev (bytes s)) (v =? 0)%N 0 [] in
  let* b := append_sign num (minus es) b in
  let b := rev b in
  let b := pad_fraction es v b in
  let b := b ++ bytes (currencyPositiveSuffix es) in
  let b := b ++ bytes symbol in
  Ok (string_of_list_ascii b).

Definition FmtAccounting (es : locale_struct) (num : float64) (v : N)
    (currency : nat) : result string :=
  let s := FormatFloat (Abs num) (int_of_uint64 v) in
  let* symbol := index_list (currencies es) currency in
  let* _ := capacity_slice s v in
  let* b := whole_loop es (rev (bytes s)) (v =? 0)%N 0 [] in
  let* b := append_sign num (minus es) b in
  let b := rev b in
  let b := pad_fraction es v b in
  let b := if ltb0 num
           then (b ++ bytes (currencyNegativeSuffix es)) ++ bytes symbol
           else (b ++ bytes (currencyPositiveSuffix es)) ++ bytes symbol in
  Ok (string_of_list_ascii b).

Definition FmtTimeFull (es : locale_struct) (t : Time) : result string :=
  let b := [] in
  let h := Hour t in
  let h := if (12 <? h)%Z then (h - 12)%Z else h in
  let b := AppendInt b h in
  let b := b ++ bytes (timeSeparator es) in
  let b := append_padded b (Minute t) in
  let b := b ++ bytes (timeSeparator es) in
  let b := append_padded b (Second t) in
  let b := b ++ [" "%char] in
  let* b := (if (Hour t <? 12)%Z
           then let* p := index_list (periodsAbbreviated es) 0 in Ok (b ++ bytes p)
           else let* p := index_list (periodsAbbreviated es) 1 in Ok (b ++ bytes p)) in
  let b := b ++ [" "%char] in
  let tz := Zone t in
  let b := match timezones es !! tz with
           | Some btz => b ++ bytes btz
           | None => b ++ bytes tz
           end in
  Ok (string_of_list_ascii b).

Definition translator : Translator :=
  mkTranslator New (PluralsCardinal New) (CardinalPluralRule New)
    (FmtNumber New) (FmtPercent New) (FmtCurrency New) (FmtAccounting New)
    (FmtTimeFull New).

End es_US.

(** ** Package [saq_KE] *)

Module saq_KE.

Definition New : locale_struct := {|
  locale := "saq_KE";
  pluralsCardinal := rules [2; 6]%N;
  pluralsOrdinal := [];
  pluralsRange := [];
  decimal := EmptyString;
  group := EmptyString;
  minus := EmptyString;
  percent := EmptyString;
  percentSuffix := EmptyString;
  timeSeparator := ":";
  currencies :=
    ["ADP"; "AED"; "AFA"; "AFN"; "ALK"; "ALL"; "AMD"; "ANG"; "AOA"; "AOK";
     "AON"; "AOR"; "ARA"; "ARL"; "ARM"; "ARP"; "ARS"; "ATS"; "AUD"; "AWG";
     "AZM"; "AZN"; "BAD"; "BAM"; "BAN"; "BBD"; "BDT"; "BEC"; "BEF"; "BEL";
     "BGL"; "BGM"; "BGN"; "BGO"; "BHD"; "BIF"; "BMD"; "BND"; "BOB"; "BOL";
     "BOP"; "BOV"; "BRB"; "BRC"; "BRE"; "BRL"; "BRN"; "BRR"; "BRZ"; "BSD";
     "BTN"; "BUK"; "BWP"; "BYB"; "BYN"; "BYR"; "BZD"; "CAD"; "CDF"; "CHE";
     "CHF"; "CHW"; "CLE"; "CLF"; "CLP"; "CNX"; "CNY"; "COP"; "COU"; "CRC";
     "CSD"; "CSK"; "CUC"; "CUP"; "CVE"; "CYP"; "CZK"; "DDM"; "DEM"; "DJF";
     "DKK"; "DOP"; "DZD"; "ECS"; "ECV"; "EEK"; "EGP"; "ERN"; "ESA"; "ESB";
     "ESP"; "ETB"; "EUR"; "FIM"; "FJD"; "FKP"; "FRF"; "GBP"; "GEK"; "GEL";
     "GHC"; "GHS"; "GIP"; "GMD"; "GNF"; "GNS"; "GQE"; "GRD"; "GTQ"; "GWE";
     "GWP"; "GYD"; "HKD"; "HNL"; "HRD"; "HRK"; "HTG"; "HUF"; "IDR"; "IEP";
     "ILP"; "ILR"; "ILS"; "INR"; "IQD"; "IRR"; "ISJ"; "ISK"; "ITL"; "JMD";
     "JOD"; "JPY"; "KES"; "KGS"; "KHR"; "KMF"; "KPW"; "KRH"; "KRO"; "KRW";
     "KWD"; "KYD"; "KZT"; "LAK"; "LBP"; "LKR"; "LRD"; "LSL"; "LTL"; "LTT";
     "LUC"; "LUF"; "LUL"; "LVL"; "LVR"; "LYD"; "MAD"; "MAF"; "MCF"; "MDC";
     "MDL"; "MGA"; "MGF"; "MKD"; "MKN"; "MLF"; "MMK"; "MNT"; "MOP"; "MRO";
     "MTL"; "MTP"; "MUR"; "MVP"; "MVR"; "MWK"; "MXN"; "MXP"; "MXV"; "MYR";
     "MZE"; "MZM"; "MZN"; "NAD"; "NGN"; "NIC"; "NIO"; "NLG"; "NOK"; "NPR";
     "NZD"; "OMR"; "PAB"; "PEI"; "PEN"; "PES"; "PGK"; "PHP"; "PKR"; "PLN";
     "PLZ"; "PTE"; "PYG"; "QAR"; "RHD"; "ROL"; "RON"; "RSD"; "RUB"; "RUR";
     "RWF"; "SAR"; "SBD"; "SCR"; "SDD"; "SDG"; "SDP"; "SEK"; "SGD"; "SHP";
     "SIT"; "SKK"; "SLL"; "SOS"; "SRD"; "SRG"; "SSP"; "STD"; "SUR"; "SVC";
     "SYP"; "SZL"; "THB"; "TJR"; "TJS"; "TMM"; "TMT"; "TND"; "TOP"; "TPE";
     "TRL"; "TRY"; "TTD"; "TWD"; "TZS"; "UAH"; "UAK"; "UGS"; "UGX"; "USD";
     "USN"; "USS"; "UYI"; "UYP"; "UYU"; "UZS"; "VEB"; "VEF"; "VND"; "VNN";
     "VUV"; "WST"; "XAF"; "XAG"; "XAU"; "XBA"; "XBB"; "XBC"; "XBD"; "XCD";
     "XDR"; "XEU"; "XFO"; "XFU"; "XOF"; "XPD"; "XPF"; "XPT"; "XRE"; "XSU";
     "XTS"; "XUA"; "XXX"; "YDD"; "YER"; "YUD"; "YUM"; "YUN"; "YUR"; "ZAL";
     "ZAR"; "ZMK"; "ZMW"; "ZRN"; "ZRZ"; "ZWD"; "ZWL"; "ZWR"];
  currencyPositiveSuffix := EmptyString;
  currencyNegativePrefix := "(";
  currencyNegativeSuffix := ")";
  periodsAbbreviated := ["Tesiran"; "Teipa"];
  timezones :=
    list_to_map
      [("AEST", "AEST"); ("HNPM", "HNPM"); ("AWST", "AWST"); ("SGT", "SGT");
       ("ECT", "ECT"); ("ACWST", "ACWST"); ("WART", "WART");
       ("ACDT", "ACDT"); ("WEZ", "WEZ"); ("JST", "JST"); ("HECU", "HECU");
       ("NZST", "NZST"); ("SAST", "SAST"); ("AKDT", "AKDT");
       ("HAST", "HAST"); ("VET", "VET"); ("AST", "AST"); ("ART", "ART");
       ("PST", "PST"); ("HEOG", "HEOG"); ("ARST", "ARST"); ("MDT", "MDT");
       ("ACST", "ACST"); ("AKST", "AKST"); ("ChST", "ChST");
       ("UYST", "UYST"); ("GYT", "GYT"); ("WIB", "WIB"); ("MST", "MST");
       ("OEZ", "OEZ"); ("MESZ", "MESZ"); ("GFT", "GFT"); ("HNCU", "HNCU");
       ("IST", "IST"); ("ADT", "ADT"); ("HNT", "HNT"); ("WESZ", "WESZ");
       ("WARST", "WARST"); ("EDT", "EDT"); ("BT", "BT"); ("HNEG", "HNEG");
       ("∅∅∅", "∅∅∅"); ("UYT", "UYT"); ("LHST", "LHST"); ("HEPMX", "HEPMX");
       ("AWDT", "AWDT"); ("HNNOMX", "HNNOMX"); ("MYT", "MYT");
       ("TMST", "TMST"); ("JDT", "JDT"); ("CST", "CST"); ("HNOG", "HNOG");
       ("HEPM", "HEPM"); ("EST", "EST"); ("HENOMX", "HENOMX");
       ("PDT", "PDT"); ("CAT", "CAT"); ("MEZ", "MEZ"); ("OESZ", "OESZ");
       ("WAST", "WAST"); ("HKST", "HKST"); ("HAT", "HAT"); ("HEEG", "HEEG");
       ("ACWDT", "ACWDT"); ("GMT", "GMT"); ("WAT", "WAT");
       ("HNPMX", "HNPMX"); ("BOT", "BOT"); ("HADT", "HADT");
       ("LHDT", "LHDT"); ("COT", "COT"); ("SRT", "SRT"); ("EAT", "EAT");
       ("WIT", "WIT"); ("NZDT", "NZDT"); ("CLT", "CLT"); ("CLST", "CLST");
       ("HKT", "HKT"); ("AEDT", "AEDT"); ("TMT", "TMT"); ("COST", "COST");
       ("CDT", "CDT"); ("CHAST", "CHAST"); ("CHADT", "CHADT");
       ("WITA", "WITA")]
|}.

Definition PluralsCardinal (saq : locale_struct) : list PluralRule :=
  pluralsCardinal saq.

Definition CardinalPluralRule (saq : locale_struct) (num : float64) (v : N)
    : PluralRule :=
  let n := Abs num in
  if eqb_int n 1 then PluralRuleOne else PluralRuleOther.

Definition FmtNumber (saq : locale_struct) (num : float64) (v : N)
    : result string :=
  Ok (FormatFloat (Abs num) (int_of_uint64 v)).

Definition FmtPercent (saq : locale_struct) (num : float64) (v : N)
    : result string :=
  Ok (FormatFloat (Abs num) (int_of_uint64 v)).

Definition FmtCurrency (saq : locale_struct) (num : float64) (v : N)
    (currency : nat) : result string :=
  let s := FormatFloat (Abs num) (int_of_uint64 v) in
  let* symbol := index_list (currencies saq) currency in
  let* _ := capacity_slice s v in
  let* b := whole_loop saq (rev (bytes s)) (v =? 0)%N 0 [] in
  let b := b ++ rev (bytes symbol) in
  let* b := append_sign num (minus saq) b in
  let b := rev b in
  let b := pad_fraction saq v b in
  Ok (string_of_list_ascii b).

Definition FmtAccounting (saq : locale_struct) (num : float64) (v : N)
    (currency : nat) : result string :=
  let s := FormatFloat (Abs num) (int_of_uint64 v) in
  let* symbol := index_list (currencies saq) currency in
  let* _ := capacity_slice s v in
  let* b := whole_loop saq (rev (bytes s)) (v =? 0)%N 0 [] in
  let* b := (if ltb0 num
           then let b := b ++ rev (bytes symbol) in
                let* p := index (currencyNegativePrefix saq) 0 in Ok (b ++ [p])
           else Ok (b ++ rev (bytes symbol))) in
  let b := rev b in
  let b := pad_fraction saq v b in
  let b := if ltb0 num then b ++ bytes (currencyNegativeSuffix saq) else b in
  Ok (string_of_list_ascii b).

Definition FmtTimeFull (saq : locale_struct) (t : Time) : result string :=
  let b := [] in
  let b := append_padded b (Hour t) in
  let b := b ++ bytes (timeSeparator saq) in
  let b := append_padded b (Minute t) in
  let b := b ++ bytes (timeSeparator saq) in
  let b := append_padded b (Second t) in
  let b := b ++ [" "%char] in
  let tz := Zone t in
  let b := match timezones saq !! tz with
           | Some btz => b ++ bytes btz
           | None => b ++ bytes tz
           end in
  Ok (string_of_list_ascii b).

Definition translator : Translator :=
  mkTranslator New (PluralsCardinal New) (CardinalPluralRule New)
    (FmtNumber New) (FmtPercent New) (FmtCurrency New) (FmtAccounting New)
    (FmtTimeFull New).

End saq_KE.

(** ** Package [kw] *)

Module kw.

Definition New : locale_struct := {|
  locale := "kw";
  pluralsCardinal := rules [2; 3; 6]%N;
  pluralsOrdinal := [];
  pluralsRange := [];
  decimal := EmptyString;
  group := EmptyString;
  minus := EmptyString;
  percent := EmptyString;
  percentSuffix := EmptyString;
  timeSeparator := ":";
  currencies :=
    ["ADP"; "AED"; "AFA"; "AFN"; "ALK"; "ALL"; "AMD"; "ANG"; "AOA"; "AOK";
     "AON"; "AOR"; "ARA"; "ARL"; "ARM"; "ARP"; "ARS"; "ATS"; "AUD"; "AWG";
     "AZM"; "AZN"; "BAD"; "BAM"; "BAN"; "BBD"; "BDT"; "BEC"; "BEF"; "BEL";
     "BGL"; "BGM"; "BGN"; "BGO"; "BHD"; "BIF"; "BMD"; "BND"; "BOB"; "BOL";
     "BOP"; "BOV"; "BRB"; "BRC"; "BRE"; "BRL"; "BRN"; "BRR"; "BRZ"; "BSD";
     "BTN"; "BUK"; "BWP"; "BYB"; "BYN"; "BYR"; "BZD"; "CAD"; "CDF"; "CHE";
     "CHF"; "CHW"; "CLE"; "CLF"; "CLP"; "CNX"; "CNY"; "COP"; "COU"; "CRC";
     "CSD"; "CSK"; "CUC"; "CUP"; "CVE"; "CYP"; "CZK"; "DDM"; "DEM"; "DJF";
     "DKK"; "DOP"; "DZD"; "ECS"; "ECV"; "EEK"; "EGP"; "ERN"; "ESA"; "ESB";
     "ESP"; "ETB"; "EUR"; "FIM"; "FJD"; "FKP"; "FRF"; "GBP"; "GEK"; "GEL";
     "GHC"; "GHS"; "GIP"; "GMD"; "GNF"; "GNS"; "GQE"; "GRD"; "GTQ"; "GWE";
     "GWP"; "GYD"; "HKD"; "HNL"; "HRD"; "HRK"; "HTG"; "HUF"; "IDR"; "IEP";
     "ILP"; "ILR"; "ILS"; "INR"; "IQD"; "IRR"; "ISJ"; "ISK"; "ITL"; "JMD";
     "JOD"; "JPY"; "KES"; "KGS"; "KHR"; "KMF"; "KPW"; "KRH"; "KRO"; "KRW";
     "KWD"; "KYD"; "KZT"; "LAK"; "LBP"; "LKR"; "LRD"; "LSL"; "LTL"; "LTT";
     "LUC"; "LUF"; "LUL"; "LVL"; "LVR"; "LYD"; "MAD"; "MAF"; "MCF"; "MDC";
     "MDL"; "MGA"; "MGF"; "MKD"; "MKN"; "MLF"; "MMK"; "MNT"; "MOP"; "MRO";
     "MTL"; "MTP"; "MUR"; "MVP"; "MVR"; "MWK"; "MXN"; "MXP"; "MXV"; "MYR";
     "MZE"; "MZM"; "MZN"; "NAD"; "NGN"; "NIC"; "NIO"; "NLG"; "NOK"; "NPR";
     "NZD"; "OMR"; "PAB"; "PEI"; "PEN"; "PES"; "PGK"; "PHP"; "PKR"; "PLN";
     "PLZ"; "PTE"; "PYG"; "QAR"; "RHD"; "ROL"; "RON"; "RSD"; "RUB"; "RUR";
     "RWF"; "SAR"; "SBD"; "SCR"; "SDD"; "SDG"; "SDP"; "SEK"; "SGD"; "SHP";
     "SIT"; "SKK"; "SLL"; "SOS"; "SRD"; "SRG"; "SSP"; "STD"; "SUR"; "SVC";
     "SYP"; "SZL"; "THB"; "TJR"; "TJS"; "TMM"; "TMT"; "TND"; "TOP"; "TPE";
     "TRL"; "TRY"; "TTD"; "TWD"; "TZS"; "UAH"; "UAK"; "UGS"; "UGX"; "USD";
     "USN"; "USS"; "UYI"; "UYP"; "UYU"; "UZS"; "VEB"; "VEF"; "VND"; "VNN";
     "VUV"; "WST"; "XAF"; "XAG"; "XAU"; "XBA"; "XBB"; "XBC"; "XBD"; "XCD";
     "XDR"; "XEU"; "XFO"; "XFU"; "XOF"; "XPD"; "XPF"; "XPT"; "XRE"; "XSU";
     "XTS"; "XUA"; "XXX"; "YDD"; "YER"; "YUD"; "YUM"; "YUN"; "YUR"; "ZAL";
     "ZAR"; "ZMK"; "ZMW"; "ZRN"; "ZRZ"; "ZWD"; "ZWL"; "ZWR"];
  currencyPositiveSuffix := EmptyString;
  currencyNegativePrefix := EmptyString;
  currencyNegativeSuffix := EmptyString;
  periodsAbbreviated := ["a.m."; "p.m."];
  timezones :=
    list_to_map
      [("HAT", "HAT"); ("AEDT", "AEDT"); ("CHADT", "CHADT"); ("CAT", "CAT");
       ("MEZ", "MEZ"); ("MST", "MST"); ("ACST", "ACST"); ("BT", "BT");
       ("JDT", "JDT"); ("HECU", "HECU"); ("CST", "CST"); ("OESZ", "OESZ");
       ("EST", "EST"); ("HNEG", "HNEG"); ("HEPM", "HEPM"); ("HNT", "HNT");
       ("HNPMX", "HNPMX"); ("EAT", "EAT"); ("PDT", "PDT"); ("MESZ", "MESZ");
       ("HKST", "HKST"); ("ACDT", "ACDT"); ("HENOMX", "HENOMX");
       ("TMT", "TMT"); ("WEZ", "WEZ"); ("AKST", "AKST"); ("AEST", "AEST");
       ("ChST", "ChST"); ("LHDT", "LHDT"); ("WIB", "WIB");
       ("WARST", "WARST"); ("HAST", "HAST"); ("CLT", "CLT");
       ("CLST", "CLST"); ("AST", "AST"); ("WESZ", "WESZ"); ("ARST", "ARST");
       ("HEEG", "HEEG"); ("BOT", "BOT"); ("LHST", "LHST"); ("AWDT", "AWDT");
       ("GMT", "GMT"); ("SAST", "SAST"); ("WIT", "WIT"); ("AWST", "AWST");
       ("SGT", "SGT"); ("PST", "PST"); ("HNNOMX", "HNNOMX"); ("GFT", "GFT");
       ("HNPM", "HNPM"); ("HADT", "HADT"); ("NZST", "NZST"); ("MDT", "MDT");
       ("WAST", "WAST"); ("∅∅∅", "∅∅∅"); ("SRT", "SRT"); ("ADT", "ADT");
       ("TMST", "TMST"); ("VET", "VET"); ("HNOG", "HNOG"); ("WAT", "WAT");
       ("CHAST", "CHAST"); ("OEZ", "OEZ"); ("EDT", "EDT"); ("COT", "COT");
       ("GYT", "GYT"); ("JST", "JST"); ("WART", "WART"); ("HEOG", "HEOG");
       ("HNCU", "HNCU"); ("CDT", "CDT"); ("ACWDT", "ACWDT");
       ("WITA", "WITA"); ("HEPMX", "HEPMX"); ("ECT", "ECT"); ("IST", "IST");
       ("ACWST", "ACWST"); ("ART", "ART"); ("HKT", "HKT"); ("COST", "COST");
       ("MYT", "MYT"); ("NZDT", "NZDT"); ("AKDT", "AKDT"); ("UYT", "UYT");
       ("UYST", "UYST")]
|}.

Definition PluralsCardinal (kw : locale_struct) : list PluralRule :=
  pluralsCardinal kw.

Definition CardinalPluralRule (kw : locale_struct) (num : float64) (v : N)
    : PluralRule :=
  let n := Abs num in
  if eqb_int n 1 then PluralRuleOne
  else if eqb_int n 2 then PluralRuleTwo
  else PluralRuleOther.

Definition FmtNumber (kw : locale_struct) (num : float64) (v : N)
    : result string :=
  Ok (FormatFloat (Abs num) (int_of_uint64 v)).

Definition FmtPercent (kw : locale_struct) (num : float64) (v : N)
    : result string :=
  Ok (FormatFloat (Abs num) (int_of_uint64 v)).

Definition FmtCurrency (kw : locale_struct) (num : float64) (v : N)
    (currency : nat) : result string :=
  let s := FormatFloat (Abs num) (int_of_uint64 v) in
  let* symbol := index_list (currencies kw) currency in
  let* _ := capacity_slice s v in
  let* b := whole_loop kw (rev (bytes s)) (v =? 0)%N 0 [] in
  let b := b ++ rev (bytes symbol) in
  let* b := append_sign num (minus kw) b in
  let b := rev b in
  let b := pad_fraction kw v b in
  Ok (string_of_list_ascii b).

Definition FmtAccounting (kw : locale_struct) (num : float64) (v : N)
    (currency : nat) : result string :=
  let s := FormatFloat (Abs num) (int_of_uint64 v) in
  let* symbol := index_list (currencies kw) currency in
  let* _ := capacity_slice s v in
  let* b := whole_loop kw (rev (bytes s)) (v =? 0)%N 0 [] in
  let* b := (if ltb0 num
           then let b := b ++ rev (bytes symbol) in
                let* p := index (minus kw) 0 in Ok (b ++ [p])
           else Ok (b ++ rev (bytes symbol))) in
  let b := rev b in
  let b := pad_fraction kw v b in
  Ok (string_of_list_ascii b).

Definition FmtTimeFull (kw : locale_struct) (t : Time) : result string :=
  let b := [] in
  let b := append_padded b (Hour t) in
  let b := b ++ bytes (timeSeparator kw) in
  let b := append_padded b (Minute t) in
  let b := b ++ bytes (timeSeparator kw) in
  let b := append_padded b (Second t) in
  let b := b ++ [" "%char] in
  let tz := Zone t in
  let b := match timezones kw !! tz with
           | Some btz => b ++ bytes btz
           | None => b ++ bytes tz
           end in
  Ok (string_of_list_ascii b).

Definition translator : Translator :=
  mkTranslator New (PluralsCardinal New) (CardinalPluralRule New)
    (FmtNumber New) (FmtPercent New) (FmtCurrency New) (FmtAccounting New)
    (FmtTimeFull New).

End kw.

(** ** Package [rwk] *)

Module rwk.

Definition New : locale_struct := {|
  locale := "rwk";
  pluralsCardinal := rules [2; 6]%N;
  pluralsOrdinal := [];
  pluralsRange := [];
  decimal := EmptyString;
  group := EmptyString;
  minus := EmptyString;
  percent := EmptyString;
  percentSuffix := EmptyString;
  timeSeparator := ":";
  currencies :=
    ["ADP"; "AED"; "AFA"; "AFN"; "ALK"; "ALL"; "AMD"; "ANG"; "AOA"; "AOK";
     "AON"; "AOR"; "ARA"; "ARL"; "ARM"; "ARP"; "ARS"; "ATS"; "AUD"; "AWG";
     "AZM"; "AZN"; "BAD"; "BAM"; "BAN"; "BBD"; "BDT"; "BEC"; "BEF"; "BEL";
     "BGL"; "BGM"; "BGN"; "BGO"; "BHD"; "BIF"; "BMD"; "BND"; "BOB"; "BOL";
     "BOP"; "BOV"; "BRB"; "BRC"; "BRE"; "BRL"; "BRN"; "BRR"; "BRZ"; "BSD";
     "BTN"; "BUK"; "BWP"; "BYB"; "BYN"; "BYR"; "BZD"; "CAD"; "CDF"; "CHE";
     "CHF"; "CHW"; "CLE"; "CLF"; "CLP"; "CNX"; "CNY"; "COP"; "COU"; "CRC";
     "CSD"; "CSK"; "CUC"; "CUP"; "CVE"; "CYP"; "CZK"; "DDM"; "DEM"; "DJF";
     "DKK"; "DOP"; "DZD"; "ECS"; "ECV"; "EEK"; "EGP"; "ERN"; "ESA"; "ESB";
     "ESP"; "ETB"; "EUR"; "FIM"; "FJD"; "FKP"; "FRF"; "GBP"; "GEK"; "GEL";
     "GHC"; "GHS"; "GIP"; "GMD"; "GNF"; "GNS"; "GQE"; "GRD"; "GTQ"; "GWE";
     "GWP"; "GYD"; "HKD"; "HNL"; "HRD"; "HRK"; "HTG"; "HUF"; "IDR"; "IEP";
     "ILP"; "ILR"; "ILS"; "INR"; "IQD"; "IRR"; "ISJ"; "ISK"; "ITL"; "JMD";
     "JOD"; "JPY"; "KES"; "KGS"; "KHR"; "KMF"; "KPW"; "KRH"; "KRO"; "KRW";
     "KWD"; "KYD"; "KZT"; "LAK"; "LBP"; "LKR"; "LRD"; "LSL"; "LTL"; "LTT";
     "LUC"; "LUF"; "LUL"; "LVL"; "LVR"; "LYD"; "MAD"; "MAF"; "MCF"; "MDC";
     "MDL"; "MGA"; "MGF"; "MKD"; "MKN"; "MLF"; "MMK"; "MNT"; "MOP"; "MRO";
     "MTL"; "MTP"; "MUR"; "MVP"; "MVR"; "MWK"; "MXN"; "MXP"; "MXV"; "MYR";
     "MZE"; "MZM"; "MZN"; "NAD"; "NGN"; "NIC"; "NIO"; "NLG"; "NOK"; "NPR";
     "NZD"; "OMR"; "PAB"; "PEI"; "PEN"; "PES"; "PGK"; "PHP"; "PKR"; "PLN";
     "PLZ"; "PTE"; "PYG"; "QAR"; "RHD"; "ROL"; "RON"; "RSD"; "RUB"; "RUR";
     "RWF"; "SAR"; "SBD"; "SCR"; "SDD"; "SDG"; "SDP"; "SEK"; "SGD"; "SHP";
     "SIT"; "SKK"; "SLL"; "SOS"; "SRD"; "SRG"; "SSP"; "STD"; "SUR"; "SVC";
     "SYP"; "SZL"; "THB"; "TJR"; "TJS"; "TMM"; "TMT"; "TND"; "TOP"; "TPE";
     "TRL"; "TRY"; "TTD"; "TWD"; "TSh"; "UAH"; "UAK"; "UGS"; "UGX"; "USD";
     "USN"; "USS"; "UYI"; "UYP"; "UYU"; "UZS"; "VEB"; "VEF"; "VND"; "VNN";
     "VUV"; "WST"; "XAF"; "XAG"; "XAU"; "XBA"; "XBB"; "XBC"; "XBD"; "XCD";
     "XDR"; "XEU"; "XFO"; "XFU"; "XOF"; "XPD"; "XPF"; "XPT"; "XRE"; "XSU";
     "XTS"; "XUA"; "XXX"; "YDD"; "YER"; "YUD"; "YUM"; "YUN"; "YUR"; "ZAL";
     "ZAR"; "ZMK"; "ZMW"; "ZRN"; "ZRZ"; "ZWD"; "ZWL"; "ZWR"];
  currencyPositiveSuffix := EmptyString;
  currencyNegativePrefix := EmptyString;
  currencyNegativeSuffix := EmptyString;
  periodsAbbreviated := ["utuko"; "kyiukonyi"];
  timezones :=
    list_to_map
      [("AKDT", "AKDT"); ("ACWST", "ACWST"); ("VET", "VET");
       ("WARST", "WARST"); ("HNOG", "HNOG"); ("MDT", "MDT");
       ("HEEG", "HEEG"); ("PDT", "PDT"); ("MEZ", "MEZ"); ("MST", "MST");
       ("UYT", "UYT"); ("WIT", "WIT"); ("AWST", "AWST"); ("HAST", "HAST");
       ("WEZ", "WEZ"); ("ART", "ART"); ("HAT", "HAT"); ("WITA", "WITA");
       ("WIB", "WIB"); ("ECT", "ECT"); ("JDT", "JDT"); ("COT", "COT");
       ("HNT", "HNT"); ("HNPM", "HNPM"); ("BOT", "BOT"); ("MYT", "MYT");
       ("HNNOMX", "HNNOMX"); ("AKST", "AKST"); ("AEST", "AEST");
       ("AEDT", "AEDT"); ("PST", "PST"); ("HADT", "HADT"); ("HEPM", "HEPM");
       ("SAST", "SAST"); ("GYT", "GYT"); ("AWDT", "AWDT"); ("IST", "IST");
       ("EDT", "EDT"); ("HKT", "HKT"); ("GMT", "GMT"); ("HEPMX", "HEPMX");
       ("CAT", "CAT"); ("JST", "JST"); ("ARST", "ARST"); ("HKST", "HKST");
       ("BT", "BT"); ("HNPMX", "HNPMX"); ("SRT", "SRT"); ("CST", "CST");
       ("MESZ", "MESZ"); ("CLT", "CLT"); ("HEOG", "HEOG"); ("AST", "AST");
       ("ADT", "ADT"); ("TMST", "TMST"); ("ACST", "ACST"); ("ACDT", "ACDT");
       ("CHADT", "CHADT"); ("SGT", "SGT"); ("NZST", "NZST");
       ("CLST", "CLST"); ("OEZ", "OEZ"); ("WAST", "WAST"); ("WART", "WART");
       ("HENOMX", "HENOMX"); ("LHST", "LHST"); ("LHDT", "LHDT");
       ("EAT", "EAT"); ("ACWDT", "ACWDT"); ("EST", "EST"); ("ChST", "ChST");
       ("UYST", "UYST"); ("CDT", "CDT"); ("COST", "COST"); ("HNCU", "HNCU");
       ("CHAST", "CHAST"); ("∅∅∅", "∅∅∅"); ("NZDT", "NZDT");
       ("OESZ", "OESZ"); ("WESZ", "WESZ"); ("TMT", "TMT"); ("WAT", "WAT");
       ("HNEG", "HNEG"); ("GFT", "GFT"); ("HECU", "HECU")]
|}.

Definition PluralsCardinal (rwk : locale_struct) : list PluralRule :=
  pluralsCardinal rwk.

Definition CardinalPluralRule (rwk : locale_struct) (num : float64) (v : N)
    : PluralRule :=
  let n := Abs num in
  if eqb_int n 1 then PluralRuleOne else PluralRuleOther.

Definition FmtNumber (rwk : locale_struct) (num : float64) (v : N)
    : result string :=
  Ok (FormatFloat (Abs num) (int_of_uint64 v)).

Definition FmtPercent (rwk : locale_struct) (num : float64) (v : N)
    : result string :=
  Ok (FormatFloat (Abs num) (int_of_uint64 v)).

Definition FmtCurrency (rwk : locale_struct) (num : float64) (v : N)
    (currency : nat) : result string :=
  let s := FormatFloat (Abs num) (int_of_uint64 v) in
  let* symbol := index_list (currencies rwk) currency in
  let* _ := capacity_slice s v in
  let* b := whole_loop rwk (rev (bytes s)) (v =? 0)%N 0 [] in
  let* b := append_sign num (minus rwk) b in
  let b := rev b in
  let b := pad_fraction rwk v b in
  let b := b ++ bytes symbol in
  Ok (string_of_list_ascii b).

Definition FmtAccounting (rwk : locale_struct) (num : float64) (v : N)
    (currency : nat) : result string :=
  let s := FormatFloat (Abs num) (int_of_uint64 v) in
  let* symbol := index_list (currencies rwk) currency in
  let* _ := capacity_slice s v in
  let* b := whole_loop rwk (rev (bytes s)) (v =? 0)%N 0 [] in
  let* b := append_sign num (minus rwk) b in
  let b := rev b in
  let b := pad_fraction rwk v b in
  let b := if ltb0 num then b ++ bytes symbol else b ++ bytes symbol in
  Ok (string_of_list_ascii b).

Definition FmtTimeFull (rwk : locale_struct) (t : Time) : result string :=
  let b := [] in
  let b := append_padded b (Hour t) in
  let b := b ++ bytes (timeSeparator rwk) in
  let b := append_padded b (Minute t) in
  let b := b ++ bytes (timeSeparator rwk) in
  let b := append_padded b (Second t) in
  let b := b ++ [" "%char] in
  let tz := Zone t in
  let b := match timezones rwk !! tz with
           | Some btz => b ++ bytes btz
           | None => b ++ bytes tz
           end in
  Ok (string_of_list_ascii b).

Definition translator : Translator :=
  mkTranslator New (PluralsCardinal New) (CardinalPluralRule New)
    (FmtNumber New) (FmtPercent New) (FmtCurrency New) (FmtAccounting New)
    (FmtTimeFull New).

End rwk.

(** ** Package [en_NU] *)

Module en_NU.

Definition New : locale_struct := {|
  locale := "en_NU";
  pluralsCardinal := rules [2; 6]%N;
  pluralsOrdinal := rules [2; 3; 4; 6]%N;
  pluralsRange := rules [6]%N;
  decimal := ".";
  group := ",";
  minus := "-";
  percent := "%";
  percentSuffix := EmptyString;
  timeSeparator := ":";
  currencies :=
    ["ADP"; "AED"; "AFA"; "AFN"; "ALK"; "ALL"; "AMD"; "ANG"; "AOA"; "AOK";
     "AON"; "AOR"; "ARA"; "ARL"; "ARM"; "ARP"; "ARS"; "ATS"; "AUD"; "AWG";
     "AZM"; "AZN"; "BAD"; "BAM"; "BAN"; "BBD"; "BDT"; "BEC"; "BEF"; "BEL";
     "BGL"; "BGM"; "BGN"; "BGO"; "BHD"; "BIF"; "BMD"; "BND"; "BOB"; "BOL";
     "BOP"; "BOV"; "BRB"; "BRC"; "BRE"; "BRL"; "BRN"; "BRR"; "BRZ"; "BSD";
     "BTN"; "BUK"; "BWP"; "BYB"; "BYN"; "BYR"; "BZD"; "CAD"; "CDF"; "CHE";
     "CHF"; "CHW"; "CLE"; "CLF"; "CLP"; "CNX"; "CNY"; "COP"; "COU"; "CRC";
     "CSD"; "CSK"; "CUC"; "CUP"; "CVE"; "CYP"; "CZK"; "DDM"; "DEM"; "DJF";
     "DKK"; "DOP"; "DZD"; "ECS"; "ECV"; "EEK"; "EGP"; "ERN"; "ESA"; "ESB";
     "ESP"; "ETB"; "EUR"; "FIM"; "FJD"; "FKP"; "FRF"; "GBP"; "GEK"; "GEL";
     "GHC"; "GHS"; "GIP"; "GMD"; "GNF"; "GNS"; "GQE"; "GRD"; "GTQ"; "GWE";
     "GWP"; "GYD"; "HKD"; "HNL"; "HRD"; "HRK"; "HTG"; "HUF"; "IDR"; "IEP";
     "ILP"; "ILR"; "ILS"; "INR"; "IQD"; "IRR"; "ISJ"; "ISK"; "ITL"; "JMD";
     "JOD"; "JPY"; "KES"; "KGS"; "KHR"; "KMF"; "KPW"; "KRH"; "KRO"; "KRW";
     "KWD"; "KYD"; "KZT"; "LAK"; "LBP"; "LKR"; "LRD"; "LSL"; "LTL"; "LTT";
     "LUC"; "LUF"; "LUL"; "LVL"; "LVR"; "LYD"; "MAD"; "MAF"; "MCF"; "MDC";
     "MDL"; "MGA"; "MGF"; "MKD"; "MKN"; "MLF"; "MMK"; "MNT"; "MOP"; "MRO";
     "MTL"; "MTP"; "MUR"; "MVP"; "MVR"; "MWK"; "MXN"; "MXP"; "MXV"; "MYR";
     "MZE"; "MZM"; "MZN"; "NAD"; "NGN"; "NIC"; "NIO"; "NLG"; "NOK"; "NPR";
     "$"; "OMR"; "PAB"; "PEI"; "PEN"; "PES"; "PGK"; "PHP"; "PKR"; "PLN";
     "PLZ"; "PTE"; "PYG"; "QAR"; "RHD"; "ROL"; "RON"; "RSD"; "RUB"; "RUR";
     "RWF"; "SAR"; "SBD"; "SCR"; "SDD"; "SDG"; "SDP"; "SEK"; "SGD"; "SHP";
     "SIT"; "SKK"; "SLL"; "SOS"; "SRD"; "SRG"; "SSP"; "STD"; "SUR"; "SVC";
     "SYP"; "SZL"; "THB"; "TJR"; "TJS"; "TMM"; "TMT"; "TND"; "TOP"; "TPE";
     "TRL"; "TRY"; "TTD"; "TWD"; "TZS"; "UAH"; "UAK"; "UGS"; "UGX"; "USD";
     "USN"; "USS"; "UYI"; "UYP"; "UYU"; "UZS"; "VEB"; "VEF"; "VND"; "VNN";
     "VUV"; "WST"; "XAF"; "XAG"; "XAU"; "XBA"; "XBB"; "XBC"; "XBD"; "XCD";
     "XDR"; "XEU"; "XFO"; "XFU"; "XOF"; "XPD"; "XPF"; "XPT"; "XRE"; "XSU";
     "XTS"; "XUA"; "XXX"; "YDD"; "YER"; "YUD"; "YUM"; "YUN"; "YUR"; "ZAL";
     "ZAR"; "ZMK"; "ZMW"; "ZRN"; "ZRZ"; "ZWD"; "ZWL"; "ZWR"];
  currencyPositiveSuffix := EmptyString;
  currencyNegativePrefix := "(";
  currencyNegativeSuffix := ")";
  periodsAbbreviated := ["am"; "pm"];
  timezones :=
    list_to_map
      [("WART", "Western Argentina Standard Time");
       ("CLT", "Chile Standard Time"); ("AST", "Atlantic Standard Time");
       ("ART", "Argentina Standard Time"); ("EDT", "Eastern Daylight Time");
       ("ACST", "Australian Central Standard Time"); ("BOT", "Bolivia Time");
       ("JST", "Japan Standard Time"); ("AKST", "Alaska Standard Time");
       ("HADT", "Hawaii-Aleutian Daylight Time");
       ("AWST", "Australian Western Standard Time");
       ("HNPM", "St. Pierre & Miquelon Standard Time");
       ("PDT", "Pacific Daylight Time");
       ("OESZ", "Eastern European Summer Time");
       ("LHST", "Lord Howe Standard Time");
       ("CHAST", "Chatham Standard Time"); ("ECT", "Ecuador Time");
       ("WARST", "Western Argentina Summer Time");
       ("MDT", "Macau Summer Time");
       ("HNNOMX", "Northwest Mexico Standard Time");
       ("HNT", "Newfoundland Standard Time");
       ("UYT", "Uruguay Standard Time"); ("UYST", "Uruguay Summer Time");
       ("∅∅∅", "Brasilia Summer Time");
       ("ACWDT", "Australian Central Western Daylight Time");
       ("SRT", "Suriname Time"); ("HEOG", "West Greenland Summer Time");
       ("OEZ", "Eastern European Standard Time");
       ("WEZ", "Western European Standard Time");
       ("WAT", "West Africa Standard Time");
       ("HENOMX", "Northwest Mexico Daylight Time");
       ("HNEG", "East Greenland Standard Time");
       ("CAT", "Central Africa Time");
       ("HNOG", "West Greenland Standard Time"); ("GYT", "Guyana Time");
       ("HEEG", "East Greenland Summer Time");
       ("WITA", "Central Indonesia Time"); ("EST", "Eastern Standard Time");
       ("EAT", "East Africa Time");
       ("MEZ", "Central European Standard Time");
       ("IST", "India Standard Time"); ("JDT", "Japan Daylight Time");
       ("CLST", "Chile Summer Time"); ("GMT", "Greenwich Mean Time");
       ("MYT", "Malaysia Time"); ("COT", "Colombia Standard Time");
       ("WIB", "Western Indonesia Time"); ("WIT", "Eastern Indonesia Time");
       ("HEPM", "St. Pierre & Miquelon Daylight Time");
       ("NZST", "New Zealand Standard Time");
       ("MESZ", "Central European Summer Time");
       ("WESZ", "Western European Summer Time");
       ("TMST", "Turkmenistan Summer Time"); ("MST", "Macau Standard Time");
       ("HKST", "Hong Kong Summer Time"); ("PST", "Pacific Standard Time");
       ("HAST", "Hawaii-Aleutian Standard Time");
       ("AKDT", "Alaska Daylight Time"); ("LHDT", "Lord Howe Daylight Time");
       ("CHADT", "Chatham Daylight Time"); ("BT", "Bhutan Time");
       ("SGT", "Singapore Standard Time");
       ("NZDT", "New Zealand Daylight Time");
       ("TMT", "Turkmenistan Standard Time");
       ("HKT", "Hong Kong Standard Time");
       ("AEST", "Australian Eastern Standard Time");
       ("SAST", "South Africa Standard Time");
       ("HECU", "Cuba Daylight Time"); ("CDT", "Central Daylight Time");
       ("COST", "Colombia Summer Time"); ("GFT", "French Guiana Time");
       ("AEDT", "Australian Eastern Daylight Time");
       ("HNPMX", "Mexican Pacific Standard Time");
       ("HNCU", "Cuba Standard Time");
       ("AWDT", "Australian Western Daylight Time");
       ("ARST", "Argentina Summer Time");
       ("HEPMX", "Mexican Pacific Daylight Time");
       ("CST", "Central Standard Time"); ("ADT", "Atlantic Daylight Time");
       ("WAST", "West Africa Summer Time");
       ("ACDT", "Australian Central Daylight Time");
       ("HAT", "Newfoundland Daylight Time");
       ("ChST", "Chamorro Standard Time");
       ("ACWST", "Australian Central Western Standard Time");
       ("VET", "Venezuela Time")]
|}.

Definition PluralsCardinal (en : locale_struct) : list PluralRule :=
  pluralsCardinal en.

Definition CardinalPluralRule (en : locale_struct) (num : float64) (v : N)
    : PluralRule :=
  let n := Abs num in
  let i := int64_of_float n in
  if (i =? 1)%Z && (v =? 0)%N then PluralRuleOne else PluralRuleOther.

Definition FmtNumber (en : locale_struct) (num : float64) (v : N)
    : result string :=
  let s := FormatFloat (Abs num) (int_of_uint64 v) in
  let* _ := capacity_slice s v in
  let* b := whole_loop en (rev (bytes s)) (v =? 0)%N 0 [] in
  let* b := append_sign num (minus en) b in
  let b := rev b in
  Ok (string_of_list_ascii b).

Definition FmtPercent (en : locale_struct) (num : float64) (v : N)
    : result string :=
  let s := FormatFloat (Abs num) (int_of_uint64 v) in
  let* b := percent_loop en (rev (bytes s)) [] in
  let* b := append_sign num (minus en) b in
  let b := rev b in
  let b := b ++ bytes (percent en) in
  Ok (string_of_list_ascii b).

Definition FmtCurrency (en : locale_struct) (num : float64) (v : N)
    (currency : nat) : result string :=
  let s := FormatFloat (Abs num) (int_of_uint64 v) in
  let* symbol := index_list (currencies en) currency in
  let* _ := capacity_slice s v in
  let* b := whole_loop en (rev (bytes s)) (v =? 0)%N 0 [] in
  let b := b ++ rev (bytes symbol) in
  let* b := append_sign num (minus en) b in
  let b := rev b in
  let b := pad_fraction en v b in
  Ok (string_of_list_ascii b).

Definition FmtAccounting (en : locale_struct) (num : float64) (v : N)
    (currency : nat) : result string :=
  let s := FormatFloat (Abs num) (int_of_uint64 v) in
  let* symbol := index_list (currencies en) currency in
  let* _ := capacity_slice s v in
  let* b := whole_loop en (rev (bytes s)) (v =? 0)%N 0 [] in
  let* b := (if ltb0 num
           then let b := b ++ rev (bytes symbol) in
                let* p := index (currencyNegativePrefix en) 0 in Ok (b ++ [p])
           else Ok (b ++ rev (bytes symbol))) in
  let b := rev b in
  let b := pad_fraction en v b in
  let b := if ltb0 num then b ++ bytes (currencyNegativeSuffix en) else b in
  Ok (string_of_list_ascii b).

Definition FmtTimeFull (en : locale_struct) (t : Time) : result string :=
  let b := [] in
  let b := append_padded b (Hour t) in
  let b := b ++ bytes (timeSeparator en) in
  let b := append_padded b (Minute t) in
  let b := b ++ bytes (timeSeparator en) in
  let b := append_padded b (Second t) in
  let b := b ++ [" "%char] in
  let tz := Zone t in
  let b := match timezones en !! tz with
           | Some btz => b ++ bytes btz
           | None => b ++ bytes tz
           end in
  Ok (string_of_list_ascii b).

Definition translator : Translator :=
  mkTranslator New (PluralsCardinal New) (CardinalPluralRule New)
    (FmtNumber New) (FmtPercent New) (FmtCurrency New) (FmtAccounting New)
    (FmtTimeFull New).

End en_NU.

(** The translators of the nine packages. *)
Definition translators (F : float64 -> N -> Z) : list Translator :=
  [bs.translator F; ksf_CM.translator; ca_IT.translator; chr.translator;
   es_US.translator; saq_KE.translator; kw.translator; rwk.translator;
   en_NU.translator].

(** ** The statements of the specification *)

(** A cardinal category is allowed for a translator when it is in the
    declared list of the locale or is the category other. *)
Definition cardinal_declared (tr : Translator) (r : PluralRule) : Prop :=
  In r (PluralsCardinal tr) \/ r = PluralRuleOther.

(** The range table of bs as the specification describes it: a list of
    (start-category, end-category) pairs with the category each yields. *)
Definition bs_range_table : list (PluralRule * PluralRule * PluralRule) :=
  [ (PluralRuleOne, PluralRuleOne, PluralRuleOne);
    (PluralRuleOne, PluralRuleFew, PluralRuleFew);
    (PluralRuleOne, PluralRuleOther, PluralRuleOther);
    (PluralRuleFew, PluralRuleOne, PluralRuleOne);
    (PluralRuleFew, PluralRuleFew, PluralRuleFew);
    (PluralRuleFew, PluralRuleOther, PluralRuleOther);
    (PluralRuleOther, PluralRuleOne, PluralRuleOne);
    (PluralRuleOther, PluralRuleFew, PluralRuleFew) ].

Fixpoint range_table_lookup
    (table : list (PluralRule * PluralRule * PluralRule))
    (start end_ : PluralRule) : option PluralRule :=
  match table with
  | [] => None
  | (s, e, r) :: table' =>
      if PluralRule_eqb start s && PluralRule_eqb end_ e then Some r
      else range_table_lookup table' start end_
  end.

(** Resolution through the table, unlisted pairs defaulting to other. *)
Definition range_table_resolve (start end_ : PluralRule) : PluralRule :=
  match range_table_lookup bs_range_table start end_ with
  | Some r => r
  | None => PluralRuleOther
  end.


(** The radix point of the fixed-point rendering replaced by the byte [d]. *)
Definition replace_point (d : ascii) (cs : list ascii) : list ascii :=
  map (fun c => if Ascii.eqb c "."%char then d else c) cs.

(** The name [FmtTimeFull] is to print for the abbreviation [tz]: the full
    name of the table, or the abbreviation itself when the table has none. *)
Definition timezone_name (l : locale_struct) (tz : string) : string :=
  match timezones l !! tz with
  | Some full => full
  | None => tz
  end.

(** The hour of a 12-hour clock lies between 1 and 12. *)
Definition hour12 (h : Z) : Prop := (1 <= h <= 12)%Z.

(** The year field of the short date: the digits of the year after index
    2, after index 1 for years 9 and below. *)
Definition year_field (y : Z) : list ascii :=
  if (9 <? y)%Z then skipn 2 (bytes (Itoa y)) else skipn 1 (bytes (Itoa y)).


(** The index of the US dollar in the currency tables. *)
Definition USD : nat := 249.

(** The hour that the 12-hour locales print:
    [h := t.Hour(); if h > 12 { h -= 12 }]. *)
Definition printed_hour (h : Z) : Z := if (12 <? h)%Z then (h - 12)%Z else h.

(** Midnight and five minutes, Eastern Standard Time. *)
Definition midnight : Time := mkTime 2024 1 2 0 5 7 "EST".



Definition period_clock (sep p0 p1 : string) (h m s : Z) : list ascii :=
  ((append_padded
      (append_padded (AppendInt [] (printed_hour h) ++ bytes sep) m
       ++ bytes sep) s ++ [" "%char])
   ++ bytes (if (h <? 12)%Z then p0 else p1)) ++ [" "%char].

(** The output [out] carries exactly two fraction digits after the decimal
    symbol: it is some text, the decimal symbol, two decimal digits, and
    the closing text [post] of the locale (currency suffix and symbol, or
    the closing affix of the accounting notation). *)
Definition two_fraction_digits (decimal : string) (post : list ascii)
    (out : string) : Prop :=
  exists (pre : list ascii) (f1 f2 : ascii),
    is_digit f1 = true /\ is_digit f2 = true /\
    bytes out = pre ++ bytes decimal ++ [f1; f2] ++ post.

(** The locales whose descriptors set the decimal, group and minus
    symbols. *)
Definition symbols_set (l : locale_struct) : Prop :=
  exists d g m : ascii,
    decimal l = String d EmptyString /\ group l = String g EmptyString
    /\ minus l = String m EmptyString.

(** The closing text does not begin with a digit, so that the two digits
    before it are all the fraction digits. *)
Definition no_digit_first (post : list ascii) : Prop :=
  match post with
  | [] => True
  | c :: _ => is_digit c = false
  end.

Definition exactly_two_fraction_digits (decimal : string) (out : string)
    : Prop :=
  exists post : list ascii,
    no_digit_first post /\ two_fraction_digits decimal post out.

(** The translators of the locales whose descriptors set the decimal,
    group and minus symbols. *)
Definition translators_with_symbols (F : float64 -> N -> Z)
    : list Translator :=
  [bs.translator F; ca_IT.translator; chr.translator; es_US.translator;
   en_NU.translator].


(** * Further code of the sources *)

(** ** Digit grouping, as a user reads it *)

(** The whole digits [ds] with the separator [sep] after every digit that
    has a positive multiple of three digits to its right. *)
Fixpoint group3 (sep : list ascii) (ds : list ascii) : list ascii :=
  match ds with
  | [] => []
  | c :: ds' =>
      c :: (if (0 <? length ds')%nat && (length ds' mod 3 =? 0)%nat
            then sep ++ group3 sep ds' else group3 sep ds')
  end.

(** A number as the locale [l] writes it: the minus sign when [neg], the
    whole digits grouped by three, and, when there are fraction digits, the
    decimal symbol and the fraction digits. *)
Definition grouped_number (l : locale_struct) (neg : bool)
    (whole frac : list ascii) : list ascii :=
  (if neg then bytes (minus l) else [])
  ++ group3 (bytes (group l)) whole
  ++ match frac with
     | [] => []
     | _ :: _ => bytes (decimal l) ++ frac
     end.

(** The fixed-point rendering with whole digits [whole] and fraction
    digits [frac]. *)
Definition fixed_point (whole frac : list ascii) : list ascii :=
  whole ++ match frac with
           | [] => []
           | _ :: _ => "."%char :: frac
           end.

(** Reading a formatted number back: the group symbol is stripped and the
    decimal symbol becomes the radix point. *)
Definition parse_number (l : locale_struct) (out : list ascii) : list ascii :=
  flat_map
    (fun c => if existsb (Ascii.eqb c) (bytes (group l)) then []
              else if existsb (Ascii.eqb c) (bytes (decimal l))
                   then ["."%char] else [c])
    out.

(** What the currency formatters append after the reversal below
    precision 2: the decimal symbol at precision 0, then zeros up to two
    fraction digits. *)
Definition padding (l : locale_struct) (v : N) : list ascii :=
  pad_fraction l v [].

(** The locales with all symbols set that write the currency symbol
    before the amount. *)
Definition prefix_translators : list Translator :=
  [chr.translator; en_NU.translator].

(** The locales whose accounting formatter has no notation of its own. *)
Definition plain_accounting_translators (F : float64 -> N -> Z)
    : list Translator :=
  [bs.translator F; ksf_CM.translator; es_US.translator; kw.translator;
   rwk.translator].



(** The closed form of a number formatter [fmt] with receiver: on every
    descriptor with the symbols set, the output is the rendering of the
    absolute value, grouped, with the sign of the value. *)
Definition number_closed_form_statement
    (fmt : locale_struct -> float64 -> N -> result string) : Prop :=
  forall (l : locale_struct) (num : float64) (v : N),
    symbols_set l -> (v < 2 ^ 63)%N ->
    exists whole frac : list ascii,
      bytes (FormatFloat (Abs num) (int_of_uint64 v))
      = fixed_point whole frac
      /\ (1 <= length whole)%nat
      /\ length frac = N.to_nat v
      /\ Forall (fun c => is_digit c = true) whole
      /\ Forall (fun c => is_digit c = true) frac
      /\ fmt l num v
         = Ok (string_of_list_ascii
                 (grouped_number l (ltb0 num) whole frac)).

(** The locales that write the symbol after the amount and build
    [FmtCurrency] on the steps of their [FmtNumber]. *)
Definition number_then_symbol_translators (F : float64 -> N -> Z)
    : list Translator :=
  [bs.translator F; ksf_CM.translator; ca_IT.translator; es_US.translator].

(** [FmtCurrency] as the number followed by the padding, the positive
    suffix and the symbol. *)
Definition currency_after_number (tr : Translator) (num : float64) (v : N)
    (c : nat) : result string :=
  let* symbol := index_list (currencies (self tr)) c in
  let* n := FmtNumber tr num v in
  Ok (string_of_list_ascii
        (bytes n ++ padding (self tr) v
         ++ bytes (currencyPositiveSuffix (self tr)) ++ bytes symbol)).

(** [FmtCurrency] of the locales that write the symbol first: the minus
    sign, the symbol, the number of the absolute value, the padding. *)
Definition currency_before_number (tr : Translator) (num : float64) (v : N)
    (c : nat) : result string :=
  let* symbol := index_list (currencies (self tr)) c in
  let* n := FmtNumber tr (Abs num) v in
  let* sign := (if ltb0 num
                then let* m := index (minus (self tr)) 0 in Ok [m]
                else Ok []) in
  Ok (string_of_list_ascii
        (sign ++ bytes symbol ++ bytes n ++ padding (self tr) v)).

(** [FmtAccounting] of the same locales: a negative amount stands between
    the first byte of the negative prefix and the negative suffix. *)
Definition accounting_before_number (tr : Translator) (num : float64)
    (v : N) (c : nat) : result string :=
  let* symbol := index_list (currencies (self tr)) c in
  let* n := FmtNumber tr (Abs num) v in
  if ltb0 num
  then let* p := index (currencyNegativePrefix (self tr)) 0 in
       Ok (string_of_list_ascii
             ([p] ++ bytes symbol ++ bytes n ++ padding (self tr) v
              ++ bytes (currencyNegativeSuffix (self tr))))
  else Ok (string_of_list_ascii
             (bytes symbol ++ bytes n ++ padding (self tr) v)).


(** ** Ordinal and range rules of the packages *)

(** [math.Mod(x, k)] for a finite [x] and a positive integer constant [k]:
    the remainder of the truncated division of [x] by [k].  It is exact and
    carries the sign of [x]. *)
Definition Mod (x : float64) (k : N) : float64 :=
  if (0 <=? f_exp x)%Z
  then mkFloat (f_neg x) ((f_mant x * 2 ^ Z.to_N (f_exp x)) mod k) 0
  else mkFloat (f_neg x) (f_mant x mod (k * 2 ^ Z.to_N (- f_exp x)))
         (f_exp x).

(** The plural methods of a package beside the cardinal ones. *)
Record PluralRules : Type := mkPluralRules {
  PluralsOrdinal : list PluralRule;
  OrdinalPluralRule : float64 -> N -> PluralRule;
  PluralsRange : list PluralRule;
  RangePluralRule : float64 -> N -> float64 -> N -> PluralRule
}.

Module bs_plural.

Definition PluralsRange (bs : locale_struct) : list PluralRule :=
  pluralsRange bs.

Definition plural_rules (F : float64 -> N -> Z) : PluralRules :=
  mkPluralRules (bs.PluralsOrdinal bs.New) (bs.OrdinalPluralRule bs.New)
    (PluralsRange bs.New) (bs.RangePluralRule F bs.New).

End bs_plural.

Module ksf_CM_plural.

Definition PluralsOrdinal (ksf : locale_struct) : list PluralRule :=
  pluralsOrdinal ksf.

Definition PluralsRange (ksf : locale_struct) : list PluralRule :=
  pluralsRange ksf.

Definition OrdinalPluralRule (ksf : locale_struct) (num : float64) (v : N)
    : PluralRule :=
  PluralRuleUnknown.

Definition RangePluralRule (ksf : locale_struct) (num1 : float64) (v1 : N)
    (num2 : float64) (v2 : N) : PluralRule :=
  PluralRuleUnknown.

Definition plural_rules : PluralRules :=
  mkPluralRules (PluralsOrdinal ksf_CM.New) (OrdinalPluralRule ksf_CM.New)
    (PluralsRange ksf_CM.New) (RangePluralRule ksf_CM.New).

End ksf_CM_plural.

Module ca_IT_plural.

Definition PluralsOrdinal (ca : locale_struct) : list PluralRule :=
  pluralsOrdinal ca.

Definition PluralsRange (ca : locale_struct) : list PluralRule :=
  pluralsRange ca.

Definition OrdinalPluralRule (ca : locale_struct) (num : float64) (v : N)
    : PluralRule :=
  let n := Abs num in
  if eqb_int n 1 || eqb_int n 3 then PluralRuleOne
  else if eqb_int n 2 then PluralRuleTwo
  else if eqb_int n 4 then PluralRuleFew
  else PluralRuleOther.

Definition RangePluralRule (ca : locale_struct) (num1 : float64) (v1 : N)
    (num2 : float64) (v2 : N) : PluralRule :=
  PluralRuleOther.

Definition plural_rules : PluralRules :=
  mkPluralRules (PluralsOrdinal ca_IT.New) (OrdinalPluralRule ca_IT.New)
    (PluralsRange ca_IT.New) (RangePluralRule ca_IT.New).

End ca_IT_plural.

Module chr_plural.

Definition PluralsOrdinal (chr : locale_struct) : list PluralRule :=
  pluralsOrdinal chr.

Definition PluralsRange (chr : locale_struct) : list PluralRule :=
  pluralsRange chr.

Definition OrdinalPluralRule (chr : locale_struct) (num : float64) (v : N)
    : PluralRule :=
  PluralRuleUnknown.

Definition RangePluralRule (chr : locale_struct) (num1 : float64) (v1 : N)
    (num2 : float64) (v2 : N) : PluralRule :=
  PluralRuleUnknown.

Definition plural_rules : PluralRules :=
  mkPluralRules (PluralsOrdinal chr.New) (OrdinalPluralRule chr.New)
    (PluralsRange chr.New) (RangePluralRule chr.New).

End chr_plural.

Module es_US_plural.

Definition PluralsOrdinal (es : locale_struct) : list PluralRule :=
  pluralsOrdinal es.

Definition PluralsRange (es : locale_struct) : list PluralRule :=
  pluralsRange es.

Definition OrdinalPluralRule (es : locale_struct) (num : float64) (v : N)
    : PluralRule :=
  PluralRuleOther.

Definition RangePluralRule (es : locale_struct) (num1 : float64) (v1 : N)
    (num2 : float64) (v2 : N) : PluralRule :=
  PluralRuleOther.

Definition plural_rules : PluralRules :=
  mkPluralRules (PluralsOrdinal es_US.New) (OrdinalPluralRule es_US.New)
    (PluralsRange es_US.New) (RangePluralRule es_US.New).

End es_US_plural.

Module saq_KE_plural.

Definition PluralsOrdinal (saq : locale_struct) : list PluralRule :=
  pluralsOrdinal saq.

Definition PluralsRange (saq : locale_struct) : list PluralRule :=
  pluralsRange saq.

Definition OrdinalPluralRule (saq : locale_struct) (num : float64) (v : N)
    : PluralRule :=
  PluralRuleUnknown.

Definition RangePluralRule (saq : locale_struct) (num1 : float64) (v1 : N)
    (num2 : float64) (v2 : N) : PluralRule :=
  PluralRuleUnknown.

Definition plural_rules : PluralRules :=
  mkPluralRules (PluralsOrdinal saq_KE.New) (OrdinalPluralRule saq_KE.New)
    (PluralsRange saq_KE.New) (RangePluralRule saq_KE.New).

End saq_KE_plural.

Module kw_plural.

Definition PluralsOrdinal (kw : locale_struct) : list PluralRule :=
  pluralsOrdinal kw.

Definition PluralsRange (kw : locale_struct) : list PluralRule :=
  pluralsRange kw.

Definition OrdinalPluralRule (kw : locale_struct) (num : float64) (v : N)
    : PluralRule :=
  PluralRuleUnknown.

Definition RangePluralRule (kw : locale_struct) (num1 : float64) (v1 : N)
    (num2 : float64) (v2 : N) : PluralRule :=
  PluralRuleUnknown.

Definition plural_rules : PluralRules :=
  mkPluralRules (PluralsOrdinal kw.New) (OrdinalPluralRule kw.New)
    (PluralsRange kw.New) (RangePluralRule kw.New).

End kw_plural.

Module rwk_plural.

Definition PluralsOrdinal (rwk : locale_struct) : list PluralRule :=
  pluralsOrdinal rwk.

Definition PluralsRange (rwk : locale_struct) : list PluralRule :=
  pluralsRange rwk.

Definition OrdinalPluralRule (rwk : locale_struct) (num : float64) (v : N)
    : PluralRule :=
  PluralRuleUnknown.

Definition RangePluralRule (rwk : locale_struct) (num1 : float64) (v1 : N)
    (num2 : float64) (v2 : N) : PluralRule :=
  PluralRuleUnknown.

Definition plural_rules : PluralRules :=
  mkPluralRules (PluralsOrdinal rwk.New) (OrdinalPluralRule rwk.New)
    (PluralsRange rwk.New) (RangePluralRule rwk.New).

End rwk_plural.

Module en_NU_plural.

Definition PluralsOrdinal (en : locale_struct) : list PluralRule :=
  pluralsOrdinal en.

Definition PluralsRange (en : locale_struct) : list PluralRule :=
  pluralsRange en.

Definition OrdinalPluralRule (en : locale_struct) (num : float64) (v : N)
    : PluralRule :=
  let n := Abs num in
  let nMod10 := Mod n 10 in
  let nMod100 := Mod n 100 in
  if eqb_int nMod10 1 && negb (eqb_int nMod100 11) then PluralRuleOne
  else if eqb_int nMod10 2 && negb (eqb_int nMod100 12) then PluralRuleTwo
  else if eqb_int nMod10 3 && negb (eqb_int nMod100 13) then PluralRuleFew
  else PluralRuleOther.

Definition RangePluralRule (en : locale_struct) (num1 : float64) (v1 : N)
    (num2 : float64) (v2 : N) : PluralRule :=
  PluralRuleOther.

Definition plural_rules : PluralRules :=
  mkPluralRules (PluralsOrdinal en_NU.New) (OrdinalPluralRule en_NU.New)
    (PluralsRange en_NU.New) (RangePluralRule en_NU.New).

End en_NU_plural.

(** The plural methods of the nine packages, in the order of
    [translators]. *)
Definition plural_rules (F : float64 -> N -> Z) : list PluralRules :=
  [bs_plural.plural_rules F; ksf_CM_plural.plural_rules;
   ca_IT_plural.plural_rules; chr_plural.plural_rules;
   es_US_plural.plural_rules; saq_KE_plural.plural_rules;
   kw_plural.plural_rules; rwk_plural.plural_rules;
   en_NU_plural.plural_rules].

(** A category is declared by a list when the list holds it; a package
    that declares no category answers unknown. *)
Definition declared_or_unknown (declared : list PluralRule) (r : PluralRule)
    : Prop :=
  In r declared \/ (declared = [] /\ r = PluralRuleUnknown).

(** The ordinal category of the integer [k] in English: 1st, 2nd, 3rd and
    the numbers that end like them, the teens apart. *)
Definition english_ordinal (k : N) : PluralRule :=
  if ((k mod 10 =? 1) && negb (k mod 100 =? 11))%N then PluralRuleOne
  else if ((k mod 10 =? 2) && negb (k mod 100 =? 12))%N then PluralRuleTwo
  else if ((k mod 10 =? 3) && negb (k mod 100 =? 13))%N then PluralRuleFew
  else PluralRuleOther.

(** ** The shorter time formats *)

(** The time methods of a package: the translator with [FmtTimeFull], and
    the short, medium and long formats. *)
Record Clock : Type := mkClock {
  clock_translator : Translator;
  FmtTimeShort : Time -> result string;
  FmtTimeMedium : Time -> result string;
  FmtTimeLong : Time -> result string
}.

Module bs_clock.

Definition FmtTimeShort (bs : locale_struct) (t : Time) : result string :=
  let b := [] in
  let b := append_padded b (Hour t) in
  let b := b ++ bytes (timeSeparator bs) in
  let b := append_padded b (Minute t) in
  Ok (string_of_list_ascii b).

Definition FmtTimeMedium (bs : locale_struct) (t : Time) : result string :=
  let b := [] in
  let b := append_padded b (Hour t) in
  let b := b ++ bytes (timeSeparator bs) in
  let b := append_padded b (Minute t) in
  let b := b ++ bytes (timeSeparator bs) in
  let b := append_padded b (Second t) in
  Ok (string_of_list_ascii b).

Definition FmtTimeLong (bs : locale_struct) (t : Time) : result string :=
  let b := [] in
  let b := append_padded b (Hour t) in
  let b := b ++ bytes (timeSeparator bs) in
  let b := append_padded b (Minute t) in
  let b := b ++ bytes (timeSeparator bs) in
  let b := append_padded b (Second t) in
  let b := b ++ [" "%char] in
  let tz := Zone t in
  let b := b ++ bytes tz in
  Ok (string_of_list_ascii b).

Definition clock (F : float64 -> N -> Z) : Clock :=
  mkClock (bs.translator F) (FmtTimeShort bs.New) (FmtTimeMedium bs.New)
    (FmtTimeLong bs.New).

End bs_clock.

Module ksf_CM_clock.

Definition FmtTimeShort (ksf : locale_struct) (t : Time) : result string :=
  let b := [] in
  let b := append_padded b (Hour t) in
  let b := b ++ bytes (timeSeparator ksf) in
  let b := append_padded b (Minute t) in
  Ok (string_of_list_ascii b).

Definition FmtTimeMedium (ksf : locale_struct) (t : Time) : result string :=
  let b := [] in
  let b := append_padded b (Hour t) in
  let b := b ++ bytes (timeSeparator ksf) in
  let b := append_padded b (Minute t) in
  let b := b ++ bytes (timeSeparator ksf) in
  let b := append_padded b (Second t) in
  Ok (string_of_list_ascii b).

Definition FmtTimeLong (ksf : locale_struct) (t : Time) : result string :=
  let b := [] in
  let b := append_padded b (Hour t) in
  let b := b ++ bytes (timeSeparator ksf) in
  let b := append_padded b (Minute t) in
  let b := b ++ bytes (timeSeparator ksf) in
  let b := append_padded b (Second t) in
  let b := b ++ [" "%char] in
  let tz := Zone t in
  let b := b ++ bytes tz in
  Ok (string_of_list_ascii b).

Definition clock : Clock :=
  mkClock ksf_CM.translator (FmtTimeShort ksf_CM.New) (FmtTimeMedium ksf_CM.New)
    (FmtTimeLong ksf_CM.New).

End ksf_CM_clock.

Module ca_IT_clock.

Definition FmtTimeShort (ca : locale_struct) (t : Time) : result string :=
  let b := [] in
  let b := AppendInt b (Hour t) in
  let b := b ++ bytes (timeSeparator ca) in
  let b := append_padded b (Minute t) in
  Ok (string_of_list_ascii b).

Definition FmtTimeMedium (ca : locale_struct) (t : Time) : result string :=
  let b := [] in
  let b := AppendInt b (Hour t) in
  let b := b ++ bytes (timeSeparator ca) in
  let b := append_padded b (Minute t) in
  let b := b ++ bytes (timeSeparator ca) in
  let b := append_padded b (Second t) in
  Ok (string_of_list_ascii b).

Definition FmtTimeLong (ca : locale_struct) (t : Time) : result string :=
  let b := [] in
  let b := AppendInt b (Hour t) in
  let b := b ++ bytes (timeSeparator ca) in
  let b := append_padded b (Minute t) in
  let b := b ++ bytes (timeSeparator ca) in
  let b := append_padded b (Second t) in
  let b := b ++ [" "%char] in
  let tz := Zone t in
  let b := b ++ bytes tz in
  Ok (string_of_list_ascii b).

Definition clock : Clock :=
  mkClock ca_IT.translator (FmtTimeShort ca_IT.New) (FmtTimeMedium ca_IT.New)
    (FmtTimeLong ca_IT.New).

End ca_IT_clock.

Module es_US_clock.

Definition FmtTimeShort (es : locale_struct) (t : Time) : result string :=
  let b := [] in
  let h := Hour t in
  let h := if (12 <? h)%Z then (h - 12)%Z else h in
  let b := AppendInt b h in
  let b := b ++ bytes (timeSeparator es) in
  let b := append_padded b (Minute t) in
  let b := b ++ [" "%char] in
  let* b := (if (Hour t <? 12)%Z
           then let* p := index_list (periodsAbbreviated es) 0 in Ok (b ++ bytes p)
           else let* p := index_list (periodsAbbreviated es) 1 in Ok (b ++ bytes p)) in
  Ok (string_of_list_ascii b).

Definition FmtTimeMedium (es : locale_struct) (t : Time) : result string :=
  let b := [] in
  let h := Hour t in
  let h := if (12 <? h)%Z then (h - 12)%Z else h in
  let b := AppendInt b h in
  let b := b ++ bytes (timeSeparator es) in
  let b := append_padded b (Minute t) in
  let b := b ++ bytes (timeSeparator es) in
  let b := append_padded b (Second t) in
  let b := b ++ [" "%char] in
  let* b := (if (Hour t <? 12)%Z
           then let* p := index_list (periodsAbbreviated es) 0 in Ok (b ++ bytes p)
           else let* p := index_list (periodsAbbreviated es) 1 in Ok (b ++ bytes p)) in
  Ok (string_of_list_ascii b).

Definition FmtTimeLong (es : locale_struct) (t : Time) : result string :=
  let b := [] in
  let h := Hour t in
  let h := if (12 <? h)%Z then (h - 12)%Z else h in
  let b := AppendInt b h in
  let b := b ++ bytes (timeSeparator es) in
  let b := append_padded b (Minute t) in
  let b := b ++ bytes (timeSeparator es) in
  let b := append_padded b (Second t) in
  let b := b ++ [" "%char] in
  let* b := (if (Hour t <? 12)%Z
           then let* p := index_list (periodsAbbreviated es) 0 in Ok (b ++ bytes p)
           else let* p := index_list (periodsAbbreviated es) 1 in Ok (b ++ bytes p)) in
  let b := b ++ [" "%char] in
  let tz := Zone t in
  let b := b ++ bytes tz in
  Ok (string_of_list_ascii b).

Definition clock : Clock :=
  mkClock es_US.translator (FmtTimeShort es_US.New) (FmtTimeMedium es_US.New)
    (FmtTimeLong es_US.New).

End es_US_clock.

Module saq_KE_clock.

Definition FmtTimeShort (saq : locale_struct) (t : Time) : result string :=
  let b := [] in
  let b := append_padded b (Hour t) in
  let b := b ++ bytes (timeSeparator saq) in
  let b := append_padded b (Minute t) in
  Ok (string_of_list_ascii b).

Definition FmtTimeMedium (saq : locale_struct) (t : Time) : result string :=
  let b := [] in
  let b := append_padded b (Hour t) in
  let b := b ++ bytes (timeSeparator saq) in
  let b := append_padded b (Minute t) in
  let b := b ++ bytes (timeSeparator saq) in
  let b := append_padded b (Second t) in
  Ok (string_of_list_ascii b).

Definition FmtTimeLong (saq : locale_struct) (t : Time) : result string :=
  let b := [] in
  let b := append_padded b (Hour t) in
  let b := b ++ bytes (timeSeparator saq) in
  let b := append_padded b (Minute t) in
  let b := b ++ bytes (timeSeparator saq) in
  let b := append_padded b (Second t) in
  let b := b ++ [" "%char] in
  let tz := Zone t in
  let b := b ++ bytes tz in
  Ok (string_of_list_ascii b).

Definition clock : Clock :=
  mkClock saq_KE.translator (FmtTimeShort saq_KE.New) (FmtTimeMedium saq_KE.New)
    (FmtTimeLong saq_KE.New).

End saq_KE_clock.

Module kw_clock.

Definition FmtTimeShort (kw : locale_struct) (t : Time) : result string :=
  let b := [] in
  let b := append_padded b (Hour t) in
  let b := b ++ bytes (timeSeparator kw) in
  let b := append_padded b (Minute t) in
  Ok (string_of_list_ascii b).

Definition FmtTimeMedium (kw : locale_struct) (t : Time) : result string :=
  let b := [] in
  let b := append_padded b (Hour t) in
  let b := b ++ bytes (timeSeparator kw) in
  let b := append_padded b (Minute t) in
  let b := b ++ bytes (timeSeparator kw) in
  let b := append_padded b (Second t) in
  Ok (string_of_list_ascii b).

Definition FmtTimeLong (kw : locale_struct) (t : Time) : result string :=
  let b := [] in
  let b := append_padded b (Hour t) in
  let b := b ++ bytes (timeSeparator kw) in
  let b := append_padded b (Minute t) in
  let b := b ++ bytes (timeSeparator kw) in
  let b := append_padded b (Second t) in
  let b := b ++ [" "%char] in
  let tz := Zone t in
  let b := b ++ bytes tz in
  Ok (string_of_list_ascii b).

Definition clock : Clock :=
  mkClock kw.translator (FmtTimeShort kw.New) (FmtTimeMedium kw.New)
    (FmtTimeLong kw.New).

End kw_clock.

Module rwk_clock.

Definition FmtTimeShort (rwk : locale_struct) (t : Time) : result string :=
  let b := [] in
  let b := append_padded b (Hour t) in
  let b := b ++ bytes (timeSeparator rwk) in
  let b := append_padded b (Minute t) in
  Ok (string_of_list_ascii b).

Definition FmtTimeMedium (rwk : locale_struct) (t : Time) : result string :=
  let b := [] in
  let b := append_padded b (Hour t) in
  let b := b ++ bytes (timeSeparator rwk) in
  let b := append_padded b (Minute t) in
  let b := b ++ bytes (timeSeparator rwk) in
  let b := append_padded b (Second t) in
  Ok (string_of_list_ascii b).

Definition FmtTimeLong (rwk : locale_struct) (t : Time) : result string :=
  let b := [] in
  let b := append_padded b (Hour t) in
  let b := b ++ bytes (timeSeparator rwk) in
  let b := append_padded b (Minute t) in
  let b := b ++ bytes (timeSeparator rwk) in
  let b := append_padded b (Second t) in
  let b := b ++ [" "%char] in
  let tz := Zone t in
  let b := b ++ bytes tz in
  Ok (string_of_list_ascii b).

Definition clock : Clock :=
  mkClock rwk.translator (FmtTimeShort rwk.New) (FmtTimeMedium rwk.New)
    (FmtTimeLong rwk.New).

End rwk_clock.

Module en_NU_clock.

Definition FmtTimeShort (en : locale_struct) (t : Time) : result string :=
  let b := [] in
  let b := append_padded b (Hour t) in
  let b := b ++ bytes (timeSeparator en) in
  let b := append_padded b (Minute t) in
  Ok (string_of_list_ascii b).

Definition FmtTimeMedium (en : locale_struct) (t : Time) : result string :=
  let b := [] in
  let b := append_padded b (Hour t) in
  let b := b ++ bytes (timeSeparator en) in
  let b := append_padded b (Minute t) in
  let b := b ++ bytes (timeSeparator en) in
  let b := append_padded b (Second t) in
  Ok (string_of_list_ascii b).

Definition FmtTimeLong (en : locale_struct) (t : Time) : result string :=
  let b := [] in
  let b := append_padded b (Hour t) in
  let b := b ++ bytes (timeSeparator en) in
  let b := append_padded b (Minute t) in
  let b := b ++ bytes (timeSeparator en) in
  let b := append_padded b (Second t) in
  let b := b ++ [" "%char] in
  let tz := Zone t in
  let b := b ++ bytes tz in
  Ok (string_of_list_ascii b).

Definition clock : Clock :=
  mkClock en_NU.translator (FmtTimeShort en_NU.New) (FmtTimeMedium en_NU.New)
    (FmtTimeLong en_NU.New).

End en_NU_clock.

Definition chr_clock : Clock :=
  mkClock chr.translator (chr.FmtTimeShort chr.New)
    (chr.FmtTimeMedium chr.New) (chr.FmtTimeLong chr.New).

(** The clocks of the nine packages, in the order of [translators]. *)
Definition clocks (F : float64 -> N -> Z) : list Clock :=
  [bs_clock.clock F; ksf_CM_clock.clock; ca_IT_clock.clock; chr_clock;
   es_US_clock.clock; saq_KE_clock.clock; kw_clock.clock; rwk_clock.clock;
   en_NU_clock.clock].

(** The clocks that pad the hour to two digits. *)
Definition padded_clocks (F : float64 -> N -> Z) : list Clock :=
  [bs_clock.clock F; ksf_CM_clock.clock; saq_KE_clock.clock; kw_clock.clock;
   rwk_clock.clock; en_NU_clock.clock].

(** A time of day as [time.Time] reports it. *)
Definition valid_clock (t : Time) : Prop :=
  (0 <= Hour t < 24)%Z /\ (0 <= Minute t < 60)%Z /\ (0 <= Second t < 60)%Z.

(** The two decimal digits of a number below 100. *)
Definition digit (d : Z) : ascii := ascii_of_N (48 + Z.to_N d).

Definition two_digits (n : Z) : list ascii :=
  [digit (n / 10); digit (n mod 10)].

(** The hour, minute and second that a clock prints. *)
Definition clock_fields (t : Time) : Z * Z * Z :=
  (Hour t, Minute t, Second t).

(** The long and the full format write the medium format, a space and a
    name of the zone. *)
Definition medium_then (c : Clock) (t : Time) (zone : string)
    : result string :=
  let* m := FmtTimeMedium c t in
  Ok (string_of_list_ascii (bytes m ++ " "%char :: bytes zone)).

(** The text of a clock whose hour reads [hour] and which writes [tail]
    after the seconds. *)
Definition clock_text (hour tail : Z -> list ascii) (t : Time)
    : list ascii :=
  hour (Hour t) ++ ":"%char :: two_digits (Minute t)
  ++ ":"%char :: two_digits (Second t) ++ tail (Hour t).

(** ** Calendar names and date formats *)

(** [l[k:]] on a slice. *)
Definition slice_list_from {A : Type} (l : list A) (k : nat)
    : result (list A) :=
  if (k <=? length l)%nat then Ok (skipn k l)
  else Panic SliceBoundsOutOfRange.

(** [l[i]] on a slice, the index an [int] ([time.Month], [time.Weekday]). *)
Definition index_int {A : Type} (l : list A) (i : Z) : result A :=
  if (0 <=? i)%Z then index_list l (Z.to_nat i) else Panic IndexOutOfRange.

(** The name tables of a descriptor struct.  The month tables hold an
    empty name at index 0, before the twelve months; a table that a
    package does not set is the nil slice. *)
Record calendar_struct : Type := mkCalendarStruct {
  monthsAbbreviated : list string;
  monthsNarrow : list string;
  monthsWide : list string;
  daysAbbreviated : list string;
  daysNarrow : list string;
  daysShort : list string;
  daysWide : list string
}.

(** The name methods.  Their bodies are the same in the nine packages,
    but for [MonthsNarrow], which each package module below declares. *)
Section Names.

Variable l : calendar_struct.

Definition MonthAbbreviated (month : Z) : result string :=
  index_int (monthsAbbreviated l) month.

Definition MonthsAbbreviated : result (list string) :=
  slice_list_from (monthsAbbreviated l) 1.

Definition MonthNarrow (month : Z) : result string :=
  index_int (monthsNarrow l) month.

Definition MonthWide (month : Z) : result string :=
  index_int (monthsWide l) month.

Definition MonthsWide : result (list string) :=
  slice_list_from (monthsWide l) 1.

Definition WeekdayAbbreviated (weekday : Z) : result string :=
  index_int (daysAbbreviated l) weekday.

Definition WeekdaysAbbreviated : list string := daysAbbreviated l.

Definition WeekdayNarrow (weekday : Z) : result string :=
  index_int (daysNarrow l) weekday.

Definition WeekdaysNarrow : list string := daysNarrow l.

Definition WeekdayShort (weekday : Z) : result string :=
  index_int (daysShort l) weekday.

Definition WeekdaysShort : list string := daysShort l.

Definition WeekdayWide (weekday : Z) : result string :=
  index_int (daysWide l) weekday.

Definition WeekdaysWide : list string := daysWide l.

End Names.

(** The calendar side of a package: its name tables, [MonthsNarrow] and
    the four date formats.  [FmtDateFull] reads [t.Weekday()], which the
    record of clock fields does not carry; it is an argument here. *)
Record Calendar : Type := mkCalendar {
  names : calendar_struct;
  MonthsNarrow : result (list string);
  FmtDateShort : Time -> result string;
  FmtDateMedium : Time -> result string;
  FmtDateLong : Time -> result string;
  FmtDateFull : Time -> Z -> result string
}.

Module bs_date.

Definition New : calendar_struct := {|
  monthsAbbreviated :=
    [EmptyString; "jan"; "feb"; "mar"; "apr"; "maj"; "jun"; "jul"; "avg";
     "sep"; "okt"; "nov"; "dec"];
  monthsNarrow :=
    [EmptyString; "j"; "f"; "m"; "a"; "m"; "j"; "j"; "a"; "s"; "o"; "n"; "d"];
  monthsWide :=
    [EmptyString; "januar"; "februar"; "mart"; "april"; "maj"; "juni";
     "juli"; "avgust"; "septembar"; "oktobar"; "novembar"; "decembar"];
  daysAbbreviated :=
    ["ned"; "pon"; "uto"; "sri"; "čet"; "pet"; "sub"];
  daysNarrow :=
    ["N"; "P"; "U"; "S"; "Č"; "P"; "S"];
  daysShort :=
    ["ned"; "pon"; "uto"; "sri"; "čet"; "pet"; "sub"];
  daysWide :=
    ["nedjelja"; "ponedjeljak"; "utorak"; "srijeda"; "četvrtak"; "petak";
     "subota"]
|}.

Definition MonthsNarrow (bs : calendar_struct) : result (list string) :=
  slice_list_from (monthsNarrow bs) 1.

Definition FmtDateMedium (bs : calendar_struct) (t : Time)
    : result string :=
  let b := [] in
  let b := AppendInt b (Day t) in
  let b := b ++ ["."%char; " "%char] in
  let* m := index_int (monthsAbbreviated bs) (Month t) in
  let b := b ++ bytes m in
  let b := b ++ ["."%char; " "%char] in
  let b := if (0 <? Year t)%Z then AppendInt b (Year t)
           else AppendInt b (wrap_int (Year t * -1)) in
  let b := b ++ ["."%char] in
  Ok (string_of_list_ascii b).

Definition FmtDateLong (bs : calendar_struct) (t : Time)
    : result string :=
  let b := [] in
  let b := AppendInt b (Day t) in
  let b := b ++ ["."%char; " "%char] in
  let* m := index_int (monthsWide bs) (Month t) in
  let b := b ++ bytes m in
  let b := b ++ [" "%char] in
  let b := if (0 <? Year t)%Z then AppendInt b (Year t)
           else AppendInt b (wrap_int (Year t * -1)) in
  let b := b ++ ["."%char] in
  Ok (string_of_list_ascii b).

Definition FmtDateFull (bs : calendar_struct) (t : Time) (weekday : Z)
    : result string :=
  let b := [] in
  let* d := index_int (daysWide bs) weekday in
  let b := b ++ bytes d in
  let b := b ++ [","%char; " "%char] in
  let b := AppendInt b (Day t) in
  let b := b ++ ["."%char; " "%char] in
  let* m := index_int (monthsWide bs) (Month t) in
  let b := b ++ bytes m in
  let b := b ++ [" "%char] in
  let b := if (0 <? Year t)%Z then AppendInt b (Year t)
           else AppendInt b (wrap_int (Year t * -1)) in
  let b := b ++ ["."%char] in
  Ok (string_of_list_ascii b).

Definition calendar : Calendar :=
  mkCalendar New (MonthsNarrow New) (bs.FmtDateShort bs.New) (FmtDateMedium New)
    (FmtDateLong New) (FmtDateFull New).

End bs_date.

Module ksf_CM_date.

Definition New : calendar_struct := {|
  monthsAbbreviated :=
    [EmptyString; "ŋ1"; "ŋ2"; "ŋ3"; "ŋ4"; "ŋ5"; "ŋ6"; "ŋ7"; "ŋ8"; "ŋ9";
     "ŋ10"; "ŋ11"; "ŋ12"];
  monthsNarrow := [];
  monthsWide :=
    [EmptyString; "ŋwíí a ntɔ́ntɔ"; "ŋwíí akǝ bɛ́ɛ"; "ŋwíí akǝ ráá";
     "ŋwíí akǝ nin"; "ŋwíí akǝ táan"; "ŋwíí akǝ táafɔk"; "ŋwíí akǝ táabɛɛ";
     "ŋwíí akǝ táaraa"; "ŋwíí akǝ táanin"; "ŋwíí akǝ ntɛk";
     "ŋwíí akǝ ntɛk di bɔ́k"; "ŋwíí akǝ ntɛk di bɛ́ɛ"];
  daysAbbreviated :=
    ["sɔ́n"; "lǝn"; "maa"; "mɛk"; "jǝǝ"; "júm"; "sam"];
  daysNarrow :=
    ["s"; "l"; "m"; "m"; "j"; "j"; "s"];
  daysShort := [];
  daysWide :=
    ["sɔ́ndǝ"; "lǝndí"; "maadí"; "mɛkrɛdí"; "jǝǝdí"; "júmbá"; "samdí"]
|}.

Definition MonthsNarrow (ksf : calendar_struct) : result (list string) :=
  Ok [].

Definition FmtDateShort (ksf : calendar_struct) (t : Time)
    : result string :=
  let b := [] in
  let b := AppendInt b (Day t) in
  let b := b ++ ["/"%char] in
  let b := AppendInt b (Month t) in
  let b := b ++ ["/"%char] in
  let b := if (0 <? Year t)%Z then AppendInt b (Year t)
           else AppendInt b (wrap_int (Year t * -1)) in
  Ok (string_of_list_ascii b).

Definition FmtDateMedium (ksf : calendar_struct) (t : Time)
    : result string :=
  let b := [] in
  let b := AppendInt b (Day t) in
  let b := b ++ [" "%char] in
  let* m := index_int (monthsAbbreviated ksf) (Month t) in
  let b := b ++ bytes m in
  let b := b ++ [" "%char] in
  let b := if (0 <? Year t)%Z then AppendInt b (Year t)
           else AppendInt b (wrap_int (Year t * -1)) in
  Ok (string_of_list_ascii b).

Definition FmtDateLong (ksf : calendar_struct) (t : Time)
    : result string :=
  let b := [] in
  let b := AppendInt b (Day t) in
  let b := b ++ [" "%char] in
  let* m := index_int (monthsWide ksf) (Month t) in
  let b := b ++ bytes m in
  let b := b ++ [" "%char] in
  let b := if (0 <? Year t)%Z then AppendInt b (Year t)
           else AppendInt b (wrap_int (Year t * -1)) in
  Ok (string_of_list_ascii b).

Definition FmtDateFull (ksf : calendar_struct) (t : Time) (weekday : Z)
    : result string :=
  let b := [] in
  let* d := index_int (daysWide ksf) weekday in
  let b := b ++ bytes d in
  let b := b ++ [" "%char] in
  let b := AppendInt b (Day t) in
  let b := b ++ [" "%char] in
  let* m := index_int (monthsWide ksf) (Month t) in
  let b := b ++ bytes m in
  let b := b ++ [" "%char] in
  let b := if (0 <? Year t)%Z then AppendInt b (Year t)
           else AppendInt b (wrap_int (Year t * -1)) in
  Ok (string_of_list_ascii b).

Definition calendar : Calendar :=
  mkCalendar New (MonthsNarrow New) (FmtDateShort New) (FmtDateMedium New)
    (FmtDateLong New) (FmtDateFull New).

End ksf_CM_date.

Module ca_IT_date.

Definition New : calendar_struct := {|
  monthsAbbreviated :=
    [EmptyString; "de gen."; "de febr."; "de març"; "d’abr."; "de maig";
     "de juny"; "de jul."; "d’ag."; "de set."; "d’oct."; "de nov.";
     "de des."];
  monthsNarrow :=
    [EmptyString; "GN"; "FB"; "MÇ"; "AB"; "MG"; "JN"; "JL"; "AG"; "ST"; "OC";
     "NV"; "DS"];
  monthsWide :=
    [EmptyString; "de gener"; "de febrer"; "de març"; "d’abril"; "de maig";
     "de juny"; "de juliol"; "d’agost"; "de setembre"; "d’octubre";
     "de novembre"; "de desembre"];
  daysAbbreviated :=
    ["dg."; "dl."; "dt."; "dc."; "dj."; "dv."; "ds."];
  daysNarrow :=
    ["dg"; "dl"; "dt"; "dc"; "dj"; "dv"; "ds"];
  daysShort :=
    ["dg."; "dl."; "dt."; "dc."; "dj."; "dv."; "ds."];
  daysWide :=
    ["diumenge"; "dilluns"; "dimarts"; "dimecres"; "dijous"; "divendres";
     "dissabte"]
|}.

Definition MonthsNarrow (ca : calendar_struct) : result (list string) :=
  slice_list_from (monthsNarrow ca) 1.

Definition FmtDateShort (ca : calendar_struct) (t : Time)
    : result string :=
  let b := [] in
  let b := AppendInt b (Day t) in
  let b := b ++ ["/"%char] in
  let b := AppendInt b (Month t) in
  let b := b ++ ["/"%char] in
  let* b := (if (9 <? Year t)%Z
           then let* y := slice_from (Itoa (Year t)) 2 in Ok (b ++ bytes y)
           else let* y := slice_from (Itoa (Year t)) 1 in Ok (b ++ bytes y)) in
  Ok (string_of_list_ascii b).

Definition FmtDateMedium (ca : calendar_struct) (t : Time)
    : result string :=
  let b := [] in
  let b := AppendInt b (Day t) in
  let b := b ++ [" "%char] in
  let* m := index_int (monthsAbbreviated ca) (Month t) in
  let b := b ++ bytes m in
  let b := b ++ [" "%char] in
  let b := if (0 <? Year t)%Z then AppendInt b (Year t)
           else AppendInt b (wrap_int (Year t * -1)) in
  Ok (string_of_list_ascii b).

Definition FmtDateLong (ca : calendar_struct) (t : Time)
    : result string :=
  let b := [] in
  let b := AppendInt b (Day t) in
  let b := b ++ [" "%char] in
  let* m := index_int (monthsWide ca) (Month t) in
  let b := b ++ bytes m in
  let b := b ++ [" "%char; "d"%char; "e"%char] in
  let b := b ++ [" "%char] in
  let b := if (0 <? Year t)%Z then AppendInt b (Year t)
           else AppendInt b (wrap_int (Year t * -1)) in
  Ok (string_of_list_ascii b).

Definition FmtDateFull (ca : calendar_struct) (t : Time) (weekday : Z)
    : result string :=
  let b := [] in
  let* d := index_int (daysWide ca) weekday in
  let b := b ++ bytes d in
  let b := b ++ [","%char; " "%char] in
  let b := AppendInt b (Day t) in
  let b := b ++ [" "%char] in
  let* m := index_int (monthsWide ca) (Month t) in
  let b := b ++ bytes m in
  let b := b ++ [" "%char; "d"%char; "e"%char] in
  let b := b ++ [" "%char] in
  let b := if (0 <? Year t)%Z then AppendInt b (Year t)
           else AppendInt b (wrap_int (Year t * -1)) in
  Ok (string_of_list_ascii b).

Definition calendar : Calendar :=
  mkCalendar New (MonthsNarrow New) (FmtDateShort New) (FmtDateMedium New)
    (FmtDateLong New) (FmtDateFull New).

End ca_IT_date.

Module chr_date.

Definition New : calendar_struct := {|
  monthsAbbreviated :=
    [EmptyString; "ᎤᏃ"; "ᎧᎦ"; "ᎠᏅ"; "ᎧᏬ"; "ᎠᏂ"; "ᏕᎭ"; "ᎫᏰ"; "ᎦᎶ"; "ᏚᎵ"; "ᏚᏂ";
     "ᏅᏓ"; "ᎥᏍ"];
  monthsNarrow :=
    [EmptyString; "Ꭴ"; "Ꭷ"; "Ꭰ"; "Ꭷ"; "Ꭰ"; "Ꮥ"; "Ꭻ"; "Ꭶ"; "Ꮪ"; "Ꮪ"; "Ꮕ"; "Ꭵ"];
  monthsWide :=
    [EmptyString; "ᎤᏃᎸᏔᏅ"; "ᎧᎦᎵ"; "ᎠᏅᏱ"; "ᎧᏬᏂ"; "ᎠᏂᏍᎬᏘ"; "ᏕᎭᎷᏱ"; "ᎫᏰᏉᏂ";
     "ᎦᎶᏂ"; "ᏚᎵᏍᏗ"; "ᏚᏂᏅᏗ"; "ᏅᏓᏕᏆ"; "ᎥᏍᎩᏱ"];
  daysAbbreviated :=
    ["ᏆᏍᎬ"; "ᏉᏅᎯ"; "ᏔᎵᏁ"; "ᏦᎢᏁ"; "ᏅᎩᏁ"; "ᏧᎾᎩ"; "ᏈᏕᎾ"];
  daysNarrow :=
    ["Ꮖ"; "Ꮙ"; "Ꮤ"; "Ꮶ"; "Ꮕ"; "Ꮷ"; "Ꭴ"];
  daysShort :=
    ["ᏍᎬ"; "ᏅᎯ"; "ᏔᎵ"; "ᏦᎢ"; "ᏅᎩ"; "ᏧᎾ"; "ᏕᎾ"];
  daysWide :=
    ["ᎤᎾᏙᏓᏆᏍᎬ"; "ᎤᎾᏙᏓᏉᏅᎯ"; "ᏔᎵᏁᎢᎦ"; "ᏦᎢᏁᎢᎦ"; "ᏅᎩᏁᎢᎦ"; "ᏧᎾᎩᎶᏍᏗ"; "ᎤᎾᏙᏓᏈᏕᎾ"]
|}.

Definition MonthsNarrow (chr : calendar_struct) : result (list string) :=
  slice_list_from (monthsNarrow chr) 1.

Definition FmtDateMedium (chr : calendar_struct) (t : Time)
    : result string :=
  let b := [] in
  let* m := index_int (monthsAbbreviated chr) (Month t) in
  let b := b ++ bytes m in
  let b := b ++ [" "%char] in
  let b := AppendInt b (Day t) in
  let b := b ++ [","%char; " "%char] in
  let b := if (0 <? Year t)%Z then AppendInt b (Year t)
           else AppendInt b (wrap_int (Year t * -1)) in
  Ok (string_of_list_ascii b).

Definition FmtDateLong (chr : calendar_struct) (t : Time)
    : result string :=
  let b := [] in
  let* m := index_int (monthsWide chr) (Month t) in
  let b := b ++ bytes m in
  let b := b ++ [" "%char] in
  let b := AppendInt b (Day t) in
  let b := b ++ [","%char; " "%char] in
  let b := if (0 <? Year t)%Z then AppendInt b (Year t)
           else AppendInt b (wrap_int (Year t * -1)) in
  Ok (string_of_list_ascii b).

Definition FmtDateFull (chr : calendar_struct) (t : Time) (weekday : Z)
    : result string :=
  let b := [] in
  let* d := index_int (daysWide chr) weekday in
  let b := b ++ bytes d in
  let b := b ++ [","%char; " "%char] in
  let* m := index_int (monthsWide chr) (Month t) in
  let b := b ++ bytes m in
  let b := b ++ [" "%char] in
  let b := AppendInt b (Day t) in
  let b := b ++ [","%char; " "%char] in
  let b := if (0 <? Year t)%Z then AppendInt b (Year t)
           else AppendInt b (wrap_int (Year t * -1)) in
  Ok (string_of_list_ascii b).

Definition calendar : Calendar :=
  mkCalendar New (MonthsNarrow New) (chr.FmtDateShort chr.New) (FmtDateMedium New)
    (FmtDateLong New) (FmtDateFull New).

End chr_date.

Module es_US_date.

Definition New : calendar_struct := {|
  monthsAbbreviated :=
    [EmptyString; "ene."; "feb."; "mar."; "abr."; "may."; "jun."; "jul.";
     "ago."; "sept."; "oct."; "nov."; "dic."];
  monthsNarrow :=
    [EmptyString; "E"; "F"; "M"; "A"; "M"; "J"; "J"; "A"; "S"; "O"; "N"; "D"];
  monthsWide :=
    [EmptyString; "enero"; "febrero"; "marzo"; "abril"; "mayo"; "junio";
     "julio"; "agosto"; "septiembre"; "octubre"; "noviembre"; "diciembre"];
  daysAbbreviated :=
    ["dom."; "lun."; "mar."; "mié."; "jue."; "vie."; "sáb."];
  daysNarrow :=
    ["D"; "L"; "M"; "X"; "J"; "V"; "S"];
  daysShort :=
    ["DO"; "LU"; "MA"; "MI"; "JU"; "VI"; "SA"];
  daysWide :=
    ["domingo"; "lunes"; "martes"; "miércoles"; "jueves"; "viernes";
     "sábado"]
|}.

Definition MonthsNarrow (es : calendar_struct) : result (list string) :=
  slice_list_from (monthsNarrow es) 1.

Definition FmtDateShort (es : calendar_struct) (t : Time)
    : result string :=
  let b := [] in
  let b := AppendInt b (Day t) in
  let b := b ++ ["/"%char] in
  let b := AppendInt b (Month t) in
  let b := b ++ ["/"%char] in
  let* b := (if (9 <? Year t)%Z
           then let* y := slice_from (Itoa (Year t)) 2 in Ok (b ++ bytes y)
           else let* y := slice_from (Itoa (Year t)) 1 in Ok (b ++ bytes y)) in
  Ok (string_of_list_ascii b).

Definition FmtDateMedium (es : calendar_struct) (t : Time)
    : result string :=
  let b := [] in
  let b := AppendInt b (Day t) in
  let b := b ++ [" "%char] in
  let* m := index_int (monthsAbbreviated es) (Month t) in
  let b := b ++ bytes m in
  let b := b ++ [" "%char] in
  let b := if (0 <? Year t)%Z then AppendInt b (Year t)
           else AppendInt b (wrap_int (Year t * -1)) in
  Ok (string_of_list_ascii b).

Definition FmtDateLong (es : calendar_struct) (t : Time)
    : result string :=
  let b := [] in
  let b := AppendInt b (Day t) in
  let b := b ++ [" "%char; "d"%char; "e"%char] in
  let b := b ++ [" "%char] in
  let* m := index_int (monthsWide es) (Month t) in
  let b := b ++ bytes m in
  let b := b ++ [" "%char; "d"%char; "e"%char] in
  let b := b ++ [" "%char] in
  let b := if (0 <? Year t)%Z then AppendInt b (Year t)
           else AppendInt b (wrap_int (Year t * -1)) in
  Ok (string_of_list_ascii b).

Definition FmtDateFull (es : calendar_struct) (t : Time) (weekday : Z)
    : result string :=
  let b := [] in
  let* d := index_int (daysWide es) weekday in
  let b := b ++ bytes d in
  let b := b ++ [","%char; " "%char] in
  let b := AppendInt b (Day t) in
  let b := b ++ [" "%char; "d"%char; "e"%char] in
  let b := b ++ [" "%char] in
  let* m := index_int (monthsWide es) (Month t) in
  let b := b ++ bytes m in
  let b := b ++ [" "%char; "d"%char; "e"%char] in
  let b := b ++ [" "%char] in
  let b := if (0 <? Year t)%Z then AppendInt b (Year t)
           else AppendInt b (wrap_int (Year t * -1)) in
  Ok (string_of_list_ascii b).

Definition calendar : Calendar :=
  mkCalendar New (MonthsNarrow New) (FmtDateShort New) (FmtDateMedium New)
    (FmtDateLong New) (FmtDateFull New).

End es_US_date.

Module saq_KE_date.

Definition New : calendar_struct := {|
  monthsAbbreviated :=
    [EmptyString; "Obo"; "Waa"; "Oku"; "Ong"; "Ime"; "Ile"; "Sap"; "Isi";
     "Saa"; "Tom"; "Tob"; "Tow"];
  monthsNarrow :=
    [EmptyString; "O"; "W"; "O"; "O"; "I"; "I"; "S"; "I"; "S"; "T"; "T"; "T"];
  monthsWide :=
    [EmptyString; "Lapa le obo"; "Lapa le waare"; "Lapa le okuni";
     "Lapa le ong’wan"; "Lapa le imet"; "Lapa le ile"; "Lapa le sapa";
     "Lapa le isiet"; "Lapa le saal"; "Lapa le tomon"; "Lapa le tomon obo";
     "Lapa le tomon waare"];
  daysAbbreviated :=
    ["Are"; "Kun"; "Ong"; "Ine"; "Ile"; "Sap"; "Kwe"];
  daysNarrow :=
    ["A"; "K"; "O"; "I"; "I"; "S"; "K"];
  daysShort := [];
  daysWide :=
    ["Mderot ee are"; "Mderot ee kuni"; "Mderot ee ong’wan";
     "Mderot ee inet"; "Mderot ee ile"; "Mderot ee sapa"; "Mderot ee kwe"]
|}.

Definition MonthsNarrow (saq : calendar_struct) : result (list string) :=
  slice_list_from (monthsNarrow saq) 1.

Definition FmtDateShort (saq : calendar_struct) (t : Time)
    : result string :=
  let b := [] in
  let b := append_padded b (Day t) in
  let b := b ++ ["/"%char] in
  let b := append_padded b (Month t) in
  let b := b ++ ["/"%char] in
  let b := if (0 <? Year t)%Z then AppendInt b (Year t)
           else AppendInt b (wrap_int (Year t * -1)) in
  Ok (string_of_list_ascii b).

Definition FmtDateMedium (saq : calendar_struct) (t : Time)
    : result string :=
  let b := [] in
  let b := AppendInt b (Day t) in
  let b := b ++ [" "%char] in
  let* m := index_int (monthsAbbreviated saq) (Month t) in
  let b := b ++ bytes m in
  let b := b ++ [" "%char] in
  let b := if (0 <? Year t)%Z then AppendInt b (Year t)
           else AppendInt b (wrap_int (Year t * -1)) in
  Ok (string_of_list_ascii b).

Definition FmtDateLong (saq : calendar_struct) (t : Time)
    : result string :=
  let b := [] in
  let b := AppendInt b (Day t) in
  let b := b ++ [" "%char] in
  let* m := index_int (monthsWide saq) (Month t) in
  let b := b ++ bytes m in
  let b := b ++ [" "%char] in
  let b := if (0 <? Year t)%Z then AppendInt b (Year t)
           else AppendInt b (wrap_int (Year t * -1)) in
  Ok (string_of_list_ascii b).

Definition FmtDateFull (saq : calendar_struct) (t : Time) (weekday : Z)
    : result string :=
  let b := [] in
  let* d := index_int (daysWide saq) weekday in
  let b := b ++ bytes d in
  let b := b ++ [","%char; " "%char] in
  let b := AppendInt b (Day t) in
  let b := b ++ [" "%char] in
  let* m := index_int (monthsWide saq) (Month t) in
  let b := b ++ bytes m in
  let b := b ++ [" "%char] in
  let b := if (0 <? Year t)%Z then AppendInt b (Year t)
           else AppendInt b (wrap_int (Year t * -1)) in
  Ok (string_of_list_ascii b).

Definition calendar : Calendar :=
  mkCalendar New (MonthsNarrow New) (FmtDateShort New) (FmtDateMedium New)
    (FmtDateLong New) (FmtDateFull New).

End saq_KE_date.

Module kw_date.

Definition New : calendar_struct := {|
  monthsAbbreviated :=
    [EmptyString; "Gen"; "Hwe"; "Meu"; "Ebr"; "Me"; "Met"; "Gor"; "Est";
     "Gwn"; "Hed"; "Du"; "Kev"];
  monthsNarrow := [];
  monthsWide :=
    [EmptyString; "mis Genver"; "mis Hwevrer"; "mis Meurth"; "mis Ebrel";
     "mis Me"; "mis Metheven"; "mis Gortheren"; "mis Est"; "mis Gwynngala";
     "mis Hedra"; "mis Du"; "mis Kevardhu"];
  daysAbbreviated :=
    ["Sul"; "Lun"; "Mth"; "Mhr"; "Yow"; "Gwe"; "Sad"];
  daysNarrow := [];
  daysShort := [];
  daysWide :=
    ["dy Sul"; "dy Lun"; "dy Meurth"; "dy Merher"; "dy Yow"; "dy Gwener";
     "dy Sadorn"]
|}.

Definition MonthsNarrow (kw : calendar_struct) : result (list string) :=
  Ok [].

Definition FmtDateShort (kw : calendar_struct) (t : Time)
    : result string :=
  let b := [] in
  let b := append_padded b (Day t) in
  let b := b ++ ["/"%char] in
  let b := append_padded b (Month t) in
  let b := b ++ ["/"%char] in
  let b := if (0 <? Year t)%Z then AppendInt b (Year t)
           else AppendInt b (wrap_int (Year t * -1)) in
  Ok (string_of_list_ascii b).

Definition FmtDateMedium (kw : calendar_struct) (t : Time)
    : result string :=
  let b := [] in
  let b := AppendInt b (Day t) in
  let b := b ++ [" "%char] in
  let* m := index_int (monthsAbbreviated kw) (Month t) in
  let b := b ++ bytes m in
  let b := b ++ [" "%char] in
  let b := if (0 <? Year t)%Z then AppendInt b (Year t)
           else AppendInt b (wrap_int (Year t * -1)) in
  Ok (string_of_list_ascii b).

Definition FmtDateLong (kw : calendar_struct) (t : Time)
    : result string :=
  let b := [] in
  let b := AppendInt b (Day t) in
  let b := b ++ [" "%char] in
  let* m := index_int (monthsWide kw) (Month t) in
  let b := b ++ bytes m in
  let b := b ++ [" "%char] in
  let b := if (0 <? Year t)%Z then AppendInt b (Year t)
           else AppendInt b (wrap_int (Year t * -1)) in
  Ok (string_of_list_ascii b).

Definition FmtDateFull (kw : calendar_struct) (t : Time) (weekday : Z)
    : result string :=
  let b := [] in
  let* d := index_int (daysWide kw) weekday in
  let b := b ++ bytes d in
  let b := b ++ [" "%char] in
  let b := AppendInt b (Day t) in
  let b := b ++ [" "%char] in
  let* m := index_int (monthsWide kw) (Month t) in
  let b := b ++ bytes m in
  let b := b ++ [" "%char] in
  let b := if (0 <? Year t)%Z then AppendInt b (Year t)
           else AppendInt b (wrap_int (Year t * -1)) in
  Ok (string_of_list_ascii b).

Definition calendar : Calendar :=
  mkCalendar New (MonthsNarrow New) (FmtDateShort New) (FmtDateMedium New)
    (FmtDateLong New) (FmtDateFull New).

End kw_date.

Module rwk_date.

Definition New : calendar_struct := {|
  monthsAbbreviated :=
    [EmptyString; "Jan"; "Feb"; "Mac"; "Apr"; "Mei"; "Jun"; "Jul"; "Ago";
     "Sep"; "Okt"; "Nov"; "Des"];
  monthsNarrow :=
    [EmptyString; "J"; "F"; "M"; "A"; "M"; "J"; "J"; "A"; "S"; "O"; "N"; "D"];
  monthsWide :=
    [EmptyString; "Januari"; "Februari"; "Machi"; "Aprilyi"; "Mei"; "Junyi";
     "Julyai"; "Agusti"; "Septemba"; "Oktoba"; "Novemba"; "Desemba"];
  daysAbbreviated :=
    ["Jpi"; "Jtt"; "Jnn"; "Jtn"; "Alh"; "Iju"; "Jmo"];
  daysNarrow :=
    ["J"; "J"; "J"; "J"; "A"; "I"; "J"];
  daysShort := [];
  daysWide :=
    ["Jumapilyi"; "Jumatatuu"; "Jumanne"; "Jumatanu"; "Alhamisi"; "Ijumaa";
     "Jumamosi"]
|}.

Definition MonthsNarrow (rwk : calendar_struct) : result (list string) :=
  slice_list_from (monthsNarrow rwk) 1.

Definition FmtDateShort (rwk : calendar_struct) (t : Time)
    : result string :=
  let b := [] in
  let b := append_padded b (Day t) in
  let b := b ++ ["/"%char] in
  let b := append_padded b (Month t) in
  let b := b ++ ["/"%char] in
  let b := if (0 <? Year t)%Z then AppendInt b (Year t)
           else AppendInt b (wrap_int (Year t * -1)) in
  Ok (string_of_list_ascii b).

Definition FmtDateMedium (rwk : calendar_struct) (t : Time)
    : result string :=
  let b := [] in
  let b := AppendInt b (Day t) in
  let b := b ++ [" "%char] in
  let* m := index_int (monthsAbbreviated rwk) (Month t) in
  let b := b ++ bytes m in
  let b := b ++ [" "%char] in
  let b := if (0 <? Year t)%Z then AppendInt b (Year t)
           else AppendInt b (wrap_int (Year t * -1)) in
  Ok (string_of_list_ascii b).

Definition FmtDateLong (rwk : calendar_struct) (t : Time)
    : result string :=
  let b := [] in
  let b := AppendInt b (Day t) in
  let b := b ++ [" "%char] in
  let* m := index_int (monthsWide rwk) (Month t) in
  let b := b ++ bytes m in
  let b := b ++ [" "%char] in
  let b := if (0 <? Year t)%Z then AppendInt b (Year t)
           else AppendInt b (wrap_int (Year t * -1)) in
  Ok (string_of_list_ascii b).

Definition FmtDateFull (rwk : calendar_struct) (t : Time) (weekday : Z)
    : result string :=
  let b := [] in
  let* d := index_int (daysWide rwk) weekday in
  let b := b ++ bytes d in
  let b := b ++ [","%char; " "%char] in
  let b := AppendInt b (Day t) in
  let b := b ++ [" "%char] in
  let* m := index_int (monthsWide rwk) (Month t) in
  let b := b ++ bytes m in
  let b := b ++ [" "%char] in
  let b := if (0 <? Year t)%Z then AppendInt b (Year t)
           else AppendInt b (wrap_int (Year t * -1)) in
  Ok (string_of_list_ascii b).

Definition calendar : Calendar :=
  mkCalendar New (MonthsNarrow New) (FmtDateShort New) (FmtDateMedium New)
    (FmtDateLong New) (FmtDateFull New).

End rwk_date.

Module en_NU_date.

Definition New : calendar_struct := {|
  monthsAbbreviated :=
    [EmptyString; "Jan"; "Feb"; "Mar"; "Apr"; "May"; "Jun"; "Jul"; "Aug";
     "Sep"; "Oct"; "Nov"; "Dec"];
  monthsNarrow :=
    [EmptyString; "J"; "F"; "M"; "A"; "M"; "J"; "J"; "A"; "S"; "O"; "N"; "D"];
  monthsWide :=
    [EmptyString; "January"; "February"; "March"; "April"; "May"; "June";
     "July"; "August"; "September"; "October"; "November"; "December"];
  daysAbbreviated :=
    ["Sun"; "Mon"; "Tue"; "Wed"; "Thu"; "Fri"; "Sat"];
  daysNarrow :=
    ["S"; "M"; "T"; "W"; "T"; "F"; "S"];
  daysShort :=
    ["Su"; "Mo"; "Tu"; "We"; "Th"; "Fr"; "Sa"];
  daysWide :=
    ["Sunday"; "Monday"; "Tuesday"; "Wednesday"; "Thursday"; "Friday";
     "Saturday"]
|}.

Definition MonthsNarrow (en : calendar_struct) : result (list string) :=
  slice_list_from (monthsNarrow en) 1.

Definition FmtDateShort (en : calendar_struct) (t : Time)
    : result string :=
  let b := [] in
  let b := append_padded b (Day t) in
  let b := b ++ ["/"%char] in
  let b := append_padded b (Month t) in
  let b := b ++ ["/"%char] in
  let b := if (0 <? Year t)%Z then AppendInt b (Year t)
           else AppendInt b (wrap_int (Year t * -1)) in
  Ok (string_of_list_ascii b).

Definition FmtDateMedium (en : calendar_struct) (t : Time)
    : result string :=
  let b := [] in
  let b := AppendInt b (Day t) in
  let b := b ++ [" "%char] in
  let* m := index_int (monthsAbbreviated en) (Month t) in
  let b := b ++ bytes m in
  let b := b ++ [" "%char] in
  let b := if (0 <? Year t)%Z then AppendInt b (Year t)
           else AppendInt b (wrap_int (Year t * -1)) in
  Ok (string_of_list_ascii b).

Definition FmtDateLong (en : calendar_struct) (t : Time)
    : result string :=
  let b := [] in
  let b := AppendInt b (Day t) in
  let b := b ++ [" "%char] in
  let* m := index_int (monthsWide en) (Month t) in
  let b := b ++ bytes m in
  let b := b ++ [" "%char] in
  let b := if (0 <? Year t)%Z then AppendInt b (Year t)
           else AppendInt b (wrap_int (Year t * -1)) in
  Ok (string_of_list_ascii b).

Definition FmtDateFull (en : calendar_struct) (t : Time) (weekday : Z)
    : result string :=
  let b := [] in
  let* d := index_int (daysWide en) weekday in
  let b := b ++ bytes d in
  let b := b ++ [","%char; " "%char] in
  let b := AppendInt b (Day t) in
  let b := b ++ [" "%char] in
  let* m := index_int (monthsWide en) (Month t) in
  let b := b ++ bytes m in
  let b := b ++ [" "%char] in
  let b := if (0 <? Year t)%Z then AppendInt b (Year t)
           else AppendInt b (wrap_int (Year t * -1)) in
  Ok (string_of_list_ascii b).

Definition calendar : Calendar :=
  mkCalendar New (MonthsNarrow New) (FmtDateShort New) (FmtDateMedium New)
    (FmtDateLong New) (FmtDateFull New).

End en_NU_date.

(** The calendars of the nine packages, in the order of [translators]. *)
Definition calendars : list Calendar :=
  [bs_date.calendar; ksf_CM_date.calendar; ca_IT_date.calendar;
   chr_date.calendar; es_US_date.calendar; saq_KE_date.calendar;
   kw_date.calendar; rwk_date.calendar; en_NU_date.calendar].

(** The packages without a table of narrow month names, and those without
    a table of short weekday names. *)
Definition calendars_without_narrow_months : list Calendar :=
  [ksf_CM_date.calendar; kw_date.calendar].

Definition calendars_without_short_weekdays : list Calendar :=
  [ksf_CM_date.calendar; saq_KE_date.calendar; kw_date.calendar;
   rwk_date.calendar].

(** The packages that write a comma after the weekday of the full date,
    and those that write a space only. *)
Definition comma_calendars : list Calendar :=
  [bs_date.calendar; ca_IT_date.calendar; chr_date.calendar;
   es_US_date.calendar; saq_KE_date.calendar; rwk_date.calendar;
   en_NU_date.calendar].

Definition space_calendars : list Calendar :=
  [ksf_CM_date.calendar; kw_date.calendar].

(** A method [get] that names one item and a method [all] that lists the
    items agree on [count] items from the index [first]: the list has
    [count] names, none empty, and [get (first + i)] is its name [i]. *)
Definition names_agree (get : Z -> result string)
    (all : result (list string)) (first : Z) (count : nat) : Prop :=
  exists ns : list string,
    all = Ok ns /\ length ns = count
    /\ forall i : nat,
         (i < count)%nat ->
         exists n : string,
           ns !! i = Some n /\ n <> EmptyString
           /\ get (first + Z.of_nat i)%Z = Ok n.

(** A table of names is complete, or the package does not set it: then
    the list is empty and naming an item panics. *)
Definition complete_or_missing (get : Z -> result string)
    (all : result (list string)) (first : Z) (count : nat) : Prop :=
  names_agree get all first count
  \/ (all = Ok [] /\ forall i : Z, get i = Panic IndexOutOfRange).

(** A date as [time.Time] reports it: the month from January (1) to
    December (12), the weekday from Sunday (0) to Saturday (6). *)
Definition valid_date (t : Time) (weekday : Z) : Prop :=
  (1 <= Month t <= 12)%Z /\ (0 <= weekday <= 6)%Z.

(** The time [t] in the year [y]. *)
Definition with_year (t : Time) (y : Z) : Time :=
  mkTime y (Month t) (Day t) (Hour t) (Minute t) (Second t) (Zone t).

(** The full date after the long one: the wide name of the weekday, the
    separator, the long date. *)
Definition weekday_then_long (c : Calendar) (sep : list ascii) (t : Time)
    (weekday : Z) : result string :=
  let* d := WeekdayWide (names c) weekday in
  let* long := FmtDateLong c t in
  Ok (string_of_list_ascii (bytes d ++ sep ++ bytes long)).

(** ** Package [zap]: taking a stack trace *)

Module zap.

(** The fields of a [runtime.Frame] that the trace prints. *)
Record Frame : Type := mkFrame {
  Function : string;
  File : string;
  Line : Z
}.

Definition _stacktraceIgnorePrefixes : list string :=
  ["runtime.goexit"; "runtime.main"].

(** [strings.HasPrefix(s, prefix)]. *)
Definition HasPrefix (s prefix : string) : bool := String.prefix prefix s.

(** The loop of [shouldIgnoreStacktraceFunction] over the prefixes. *)
Fixpoint ignore_loop (prefixes : list string) (function : string) : bool :=
  match prefixes with
  | [] => false
  | prefix :: rest =>
      if HasPrefix function prefix then true else ignore_loop rest function
  end.

Definition shouldIgnoreStacktraceFunction (function : string) : bool :=
  ignore_loop _stacktraceIgnorePrefixes function.

(** A [programCounters]: the length and the capacity of its slice [pcs].
    The trace reads the slice only through [runtime.Callers] and
    [runtime.CallersFrames]. *)
Record programCounters : Type := mkProgramCounters {
  pcs_len : nat;
  pcs_cap : nat
}.

Definition newProgramCounters (size : nat) : programCounters :=
  mkProgramCounters size size.

Definition newline : ascii := ascii_of_N 10.
Definition tab : ascii := ascii_of_N 9.

(** The loop over the frames,
    [for frame, more := frames.Next(); more; frame, more = frames.Next()].
    [Next] returns the next frame and whether a frame follows it, so the
    body does not run for the last frame.  [i] counts the frames written
    to [buffer]. *)
Fixpoint frames_loop (frames : list Frame) (i : nat) (buffer : list ascii)
    : list ascii :=
  match frames with
  | [] => buffer
  | frame :: rest =>
      match rest with
      | [] => buffer
      | _ :: _ =>
          if shouldIgnoreStacktraceFunction (Function frame)
          then frames_loop rest i buffer
          else
            let buffer := if (i =? 0)%nat then buffer
                          else buffer ++ [newline] in
            let buffer := buffer ++ bytes (Function frame) in
            let buffer := buffer ++ [newline] in
            let buffer := buffer ++ [tab] in
            let buffer := buffer ++ bytes (File frame) in
            let buffer := buffer ++ [":"%char] in
            let buffer := AppendInt buffer (Line frame) in
            frames_loop rest (S i) buffer
      end
  end.

Section Stack.

(** The frames of the calling goroutine, from the caller of
    [takeStacktrace] outwards, one for each program counter. *)
Variable stack : list Frame.

(** [runtime.Callers(2, pc.pcs)]: the number of program counters written,
    which is the length of the slice when the stack is deeper. *)
Definition Callers (pc : programCounters) : nat :=
  Nat.min (pcs_len pc) (length stack).

(** The loop that captures the stack, doubling the slice until the stack
    fits.  It need not end (a slice of length 0 and capacity 0 never
    grows), so it runs on [fuel]. *)
Fixpoint capture (fuel : nat) (pc : programCounters)
    : option programCounters :=
  match fuel with
  | O => None
  | S fuel' =>
      let n := Callers pc in
      if (n <? pcs_cap pc)%nat then Some (mkProgramCounters n (pcs_cap pc))
      else capture fuel' (newProgramCounters (pcs_len pc * 2))
  end.

(** [takeStacktrace] with the counters that [_stacktracePool.Get()] hands
    out: the trace, and the counters that the deferred [Put] gives back to
    the pool.  The deferred call holds the object taken from the pool; the
    loop shortens its slice when it ends in the first round, and leaves it
    as it is when it goes on with a larger object. *)
Definition takeStacktrace (fuel : nat) (pooled : programCounters)
    : option (string * programCounters) :=
  match capture fuel pooled with
  | None => None
  | Some pc =>
      let frames := firstn (pcs_len pc) stack in
      let buffer := frames_loop frames 0 [] in
      let put := if (Callers pooled <? pcs_cap pooled)%nat
                 then mkProgramCounters (Callers pooled) (pcs_cap pooled)
                 else pooled in
      Some (string_of_list_ascii buffer, put)
  end.

End Stack.

(** The text of one frame, and lines joined by newlines. *)
Definition frame_text (frame : Frame) : list ascii :=
  bytes (Function frame) ++ newline :: tab :: bytes (File frame)
  ++ ":"%char :: bytes (Itoa (Line frame)).

Fixpoint join_lines (lines : list (list ascii)) : list ascii :=
  match lines with
  | [] => []
  | line :: rest =>
      match rest with
      | [] => line
      | _ :: _ => line ++ newline :: join_lines rest
      end
  end.

(** The trace of a list of captured frames: every frame but the last,
    those of the ignored functions left out, one text each. *)
Definition trace_text (frames : list Frame) : string :=
  string_of_list_ascii
    (join_lines
       (map frame_text
          (List.filter
             (fun frame =>
                negb (shouldIgnoreStacktraceFunction (Function frame)))
             (removelast frames)))).

End zap.

(** * Properties *)

(** ** Plural rules *)

Section PluralRules.

Variable F : float64 -> N -> Z.

Lemma bs_cardinal_in_declared (num : float64) (v : N) :
  In (bs.CardinalPluralRule F bs.New num v) (bs.PluralsCardinal bs.New).
Proof.
  unfold bs.CardinalPluralRule, bs.PluralsCardinal.
  change (pluralsCardinal bs.New)
    with [PluralRuleOne; PluralRuleFew; PluralRuleOther].
  repeat match goal with
         | |- context [if ?c then _ else _] => destruct c
         end; simpl; auto.
Qed.

Lemma one_or_other_in_declared (l : locale_struct) (c : bool) :
  pluralsCardinal l = [PluralRuleOne; PluralRuleOther] ->
  In (if c then PluralRuleOne else PluralRuleOther) (pluralsCardinal l).
Proof. intros ->. destruct c; simpl; auto. Qed.

Lemma kw_cardinal_in_declared (num : float64) (v : N) :
  In (kw.CardinalPluralRule kw.New num v) (kw.PluralsCardinal kw.New).
Proof.
  unfold kw.CardinalPluralRule, kw.PluralsCardinal.
  change (pluralsCardinal kw.New)
    with [PluralRuleOne; PluralRuleTwo; PluralRuleOther].
  repeat match goal with
         | |- context [if ?c then _ else _] => destruct c
         end; simpl; auto.
Qed.

Lemma ksf_CM_cardinal_unknown (num : float64) (v : N) :
  ksf_CM.CardinalPluralRule ksf_CM.New num v = PluralRuleUnknown
  /\ ksf_CM.PluralsCardinal ksf_CM.New = [].
Proof. split; reflexivity. Qed.

(** C2, as amended.  For every translator of the source and every value
    [num] (in particular every integer), [CardinalPluralRule(num, 0)] is a
    category of the locale's declared cardinal list, or other, or, in a
    locale whose declared list is empty (ksf_CM), unknown. *)
Theorem C2_cardinal_declared_or_unknown :
  Forall (fun tr : Translator =>
            forall num : float64,
              cardinal_declared tr (CardinalPluralRule tr num 0)
              \/ (PluralsCardinal tr = []
                  /\ CardinalPluralRule tr num 0 = PluralRuleUnknown))
         (translators F).
Proof.
  unfold translators, cardinal_declared.
  repeat (apply List.Forall_cons); try apply List.Forall_nil; intros num.
  - left; left. apply bs_cardinal_in_declared.
  - right. split; reflexivity.
  - left; left. apply (one_or_other_in_declared ca_IT.New). reflexivity.
  - left; left. apply (one_or_other_in_declared chr.New). reflexivity.
  - left; left. apply (one_or_other_in_declared es_US.New). reflexivity.
  - left; left. apply (one_or_other_in_declared saq_KE.New). reflexivity.
  - left; left. apply kw_cardinal_in_declared.
  - left; left. apply (one_or_other_in_declared rwk.New). reflexivity.
  - left; left. apply (one_or_other_in_declared en_NU.New). reflexivity.
Qed.

(** C2, as stated, fails in ksf_CM: at 1 the cardinal rule returns unknown,
    which is neither declared by the locale nor the category other. *)
Lemma C2_counterexample_ksf_CM :
  CardinalPluralRule ksf_CM.translator (float_of_Z 1) 0 = PluralRuleUnknown
  /\ ~ cardinal_declared ksf_CM.translator
         (CardinalPluralRule ksf_CM.translator (float_of_Z 1) 0).
Proof.
  split; [reflexivity |].
  unfold cardinal_declared. intros [H | H].
  - destruct H.
  - discriminate H.
Qed.

(** C5, as amended.  The ordinal rule of bs returns the category other for
    every value and every count of visible fraction digits, and other is
    the only ordinal category bs declares. *)
Theorem C5_bs_ordinal_is_other (num : float64) (v : N) :
  bs.OrdinalPluralRule bs.New num v = PluralRuleOther
  /\ bs.PluralsOrdinal bs.New = [PluralRuleOther].
Proof. split; reflexivity. Qed.

(** C5, as stated, fails: at 3 with no visible fraction digits the ordinal
    rule of bs does not return few. *)
Lemma C5_counterexample_bs_ordinal_3 :
  bs.OrdinalPluralRule bs.New (float_of_Z 3) 0 <> PluralRuleFew.
Proof. discriminate. Qed.

Lemma range_table_cases (start end_ : PluralRule) :
  (if PluralRule_eqb start PluralRuleOne && PluralRule_eqb end_ PluralRuleOne
   then PluralRuleOne
   else if PluralRule_eqb start PluralRuleOne && PluralRule_eqb end_ PluralRuleFew
   then PluralRuleFew
   else if PluralRule_eqb start PluralRuleOne && PluralRule_eqb end_ PluralRuleOther
   then PluralRuleOther
   else if PluralRule_eqb start PluralRuleFew && PluralRule_eqb end_ PluralRuleOne
   then PluralRuleOne
   else if PluralRule_eqb start PluralRuleFew && PluralRule_eqb end_ PluralRuleFew
   then PluralRuleFew
   else if PluralRule_eqb start PluralRuleFew && PluralRule_eqb end_ PluralRuleOther
   then PluralRuleOther
   else if PluralRule_eqb start PluralRuleOther && PluralRule_eqb end_ PluralRuleOne
   then PluralRuleOne
   else if PluralRule_eqb start PluralRuleOther && PluralRule_eqb end_ PluralRuleFew
   then PluralRuleFew
   else PluralRuleOther)
  = range_table_resolve start end_.
Proof. destruct start, end_; reflexivity. Qed.

(** C6.  In bs the range rule is the resolution of the pair of cardinal
    categories of its two endpoints through the fixed table
    [bs_range_table], and a pair that the table does not list resolves to
    the category other. *)
Theorem C6_bs_range_from_table :
  (forall (num1 : float64) (v1 : N) (num2 : float64) (v2 : N),
      bs.RangePluralRule F bs.New num1 v1 num2 v2
      = range_table_resolve (bs.CardinalPluralRule F bs.New num1 v1)
                            (bs.CardinalPluralRule F bs.New num2 v2))
  /\ (forall start end_ : PluralRule,
         range_table_lookup bs_range_table start end_ = None ->
         range_table_resolve start end_ = PluralRuleOther).
Proof.
  split.
  - intros num1 v1 num2 v2. unfold bs.RangePluralRule.
    apply range_table_cases.
  - intros start end_ H. unfold range_table_resolve. rewrite H. reflexivity.
Qed.

End PluralRules.

(** A use of C6: the pair (other, other) is not listed and resolves to
    other; from 1 to 2 the cardinal categories are one and few, which the
    table resolves to few. *)
Lemma C6_witness :
  range_table_lookup bs_range_table PluralRuleOther PluralRuleOther = None
  /\ range_table_resolve PluralRuleOther PluralRuleOther = PluralRuleOther
  /\ bs.RangePluralRule (fun _ _ => 0%Z) bs.New (float_of_Z 1) 0
       (float_of_Z 2) 0 = PluralRuleFew.
Proof.
  split; [reflexivity |]. split.
  - apply (proj2 (C6_bs_range_from_table (fun _ _ => 0%Z))). reflexivity.
  - rewrite (proj1 (C6_bs_range_from_table (fun _ _ => 0%Z))). reflexivity.
Defined.

(** ** Facts about strings and the shared loops *)

Lemma bytes_string_of_list (cs : list ascii) :
  bytes (string_of_list_ascii cs) = cs.
Proof. apply list_ascii_of_string_of_list_ascii. Qed.

Lemma string_of_bytes (s : string) : string_of_list_ascii (bytes s) = s.
Proof. apply string_of_list_ascii_of_string. Qed.

Lemma length_bytes (s : string) : length (bytes s) = String.length s.
Proof. induction s as [| c s IH]; simpl; [reflexivity | now rewrite IH]. Qed.

Lemma replace_point_app (d : ascii) (xs ys : list ascii) :
  replace_point d (xs ++ ys) = replace_point d xs ++ replace_point d ys.
Proof. unfold replace_point. apply map_app. Qed.

Lemma replace_point_rev (d : ascii) (xs : list ascii) :
  replace_point d (rev xs) = rev (replace_point d xs).
Proof. unfold replace_point. apply map_rev. Qed.


Lemma percent_loop_spec (l : locale_struct) (d : ascii) :
  index (decimal l) 0 = Ok d ->
  forall cs b, percent_loop l cs b = Ok (b ++ replace_point d cs).
Proof.
  intros Hd. induction cs as [| c cs IH]; intros b; simpl.
  - rewrite app_nil_r. reflexivity.
  - destruct (Ascii.eqb c "."); [rewrite Hd; simpl |];
      rewrite IH, <- app_assoc; reflexivity.
Qed.

(** ** Number and percent formatting *)

(** C1.  The code breaks the claim that no formatter can panic, at the
    very input the claim names: the descriptor of ksf_CM sets no minus
    sign, and [FmtNumber(-1, 0)] panics when it indexes the first byte of
    that empty string; so do [FmtCurrency] and [FmtAccounting]. *)
Theorem C1_ksf_CM_negative_panics :
  minus ksf_CM.New = EmptyString
  /\ ksf_CM.FmtNumber ksf_CM.New (float_of_Z (-1)) 0 = Panic IndexOutOfRange
  /\ ksf_CM.FmtCurrency ksf_CM.New (float_of_Z (-1)) 0 USD
     = Panic IndexOutOfRange
  /\ ksf_CM.FmtAccounting ksf_CM.New (float_of_Z (-1)) 0 USD
     = Panic IndexOutOfRange.
Proof. repeat split; vm_compute; reflexivity. Qed.

(** The panic of C1 does not depend on the value: [FmtNumber] of ksf_CM
    returns for no negative value, whatever the precision. *)
Lemma ksf_CM_FmtNumber_negative (num : float64) (v : N) :
  ltb0 num = true -> ~ returns (ksf_CM.FmtNumber ksf_CM.New num v).
Proof.
  intros Hneg [out Hout]. unfold ksf_CM.FmtNumber in Hout.
  destruct (capacity_slice _ v); simpl in Hout; [| discriminate].
  destruct (whole_loop_bytes _ _ _ _ _); simpl in Hout; [| discriminate].
  unfold append_sign in Hout. rewrite Hneg in Hout.
  change (minus ksf_CM.New) with EmptyString in Hout.
  simpl in Hout. discriminate.
Qed.

(** C3.  The code breaks the claim that, below precision 2, every locale
    pads to two fraction digits: the descriptors of kw, rwk and saq_KE set
    no decimal symbol, and their currency formatters panic on [decimal[0]]
    as soon as the rendering has a radix point, so that
    [FmtCurrency(1.5, 1, USD)] and [FmtAccounting(1.5, 1, USD)] return no
    string at all. *)
Theorem C3_kw_precision_one_panics :
  decimal kw.New = EmptyString
  /\ kw.FmtCurrency kw.New (mkFloat false 3 (-1)) 1 USD
     = Panic IndexOutOfRange
  /\ kw.FmtAccounting kw.New (mkFloat false 3 (-1)) 1 USD
     = Panic IndexOutOfRange
  /\ rwk.FmtCurrency rwk.New (mkFloat false 3 (-1)) 1 USD
     = Panic IndexOutOfRange
  /\ saq_KE.FmtCurrency saq_KE.New (mkFloat false 3 (-1)) 1 USD
     = Panic IndexOutOfRange.
Proof. repeat split; vm_compute; reflexivity. Qed.

Section Formatting.

Variable F : float64 -> N -> Z.


Lemma sign_then_reverse (num : float64) (sign : string) (m : ascii)
    (b : list ascii) :
  sign = String m EmptyString ->
  append_sign num sign b = Ok (b ++ if ltb0 num then [m] else []).
Proof.
  intros ->. unfold append_sign. destruct (ltb0 num); simpl.
  - reflexivity.
  - rewrite app_nil_r. reflexivity.
Qed.

Lemma rev_sign (c : bool) (m : ascii) :
  rev (if c then [m] else []) = if c then [m] else [].
Proof. destruct c; reflexivity. Qed.

Ltac percent_by_loop Hd Hm :=
  rewrite (percent_loop_spec _ _ Hd); cbn [bind];
  rewrite (sign_then_reverse _ _ _ _ Hm); cbn [bind app];
  rewrite rev_app_distr, replace_point_rev, rev_involutive, rev_sign;
  repeat rewrite <- app_assoc.

Lemma bs_FmtPercent_spec (l : locale_struct) (num : float64) (v : N)
    (d m : ascii) :
  index (decimal l) 0 = Ok d ->
  minus l = String m EmptyString ->
  bs.FmtPercent l num v
  = Ok (string_of_list_ascii
          ((if ltb0 num then [m] else [])
           ++ replace_point d (bytes (FormatFloat (Abs num) (int_of_uint64 v)))
           ++ bytes (percentSuffix l) ++ bytes (percent l))).
Proof.
  intros Hd Hm. unfold bs.FmtPercent. percent_by_loop Hd Hm. reflexivity.
Qed.

Lemma es_US_FmtPercent_spec (l : locale_struct) (num : float64) (v : N)
    (d m : ascii) :
  index (decimal l) 0 = Ok d ->
  minus l = String m EmptyString ->
  es_US.FmtPercent l num v
  = Ok (string_of_list_ascii
          ((if ltb0 num then [m] else [])
           ++ replace_point d (bytes (FormatFloat (Abs num) (int_of_uint64 v)))
           ++ bytes (percentSuffix l) ++ bytes (percent l))).
Proof.
  intros Hd Hm. unfold es_US.FmtPercent. percent_by_loop Hd Hm. reflexivity.
Qed.

Lemma ca_IT_FmtPercent_spec (l : locale_struct) (num : float64) (v : N)
    (d m : ascii) :
  index (decimal l) 0 = Ok d ->
  minus l = String m EmptyString ->
  percentSuffix l = EmptyString ->
  ca_IT.FmtPercent l num v
  = Ok (string_of_list_ascii
          ((if ltb0 num then [m] else [])
           ++ replace_point d (bytes (FormatFloat (Abs num) (int_of_uint64 v)))
           ++ bytes (percentSuffix l) ++ bytes (percent l))).
Proof.
  intros Hd Hm ->. unfold ca_IT.FmtPercent. percent_by_loop Hd Hm.
  reflexivity.
Qed.

Lemma chr_FmtPercent_spec (l : locale_struct) (num : float64) (v : N)
    (d m : ascii) :
  index (decimal l) 0 = Ok d ->
  minus l = String m EmptyString ->
  percentSuffix l = EmptyString ->
  chr.FmtPercent l num v
  = Ok (string_of_list_ascii
          ((if ltb0 num then [m] else [])
           ++ replace_point d (bytes (FormatFloat (Abs num) (int_of_uint64 v)))
           ++ bytes (percentSuffix l) ++ bytes (percent l))).
Proof.
  intros Hd Hm ->. unfold chr.FmtPercent. percent_by_loop Hd Hm.
  reflexivity.
Qed.

Lemma en_NU_FmtPercent_spec (l : locale_struct) (num : float64) (v : N)
    (d m : ascii) :
  index (decimal l) 0 = Ok d ->
  minus l = String m EmptyString ->
  percentSuffix l = EmptyString ->
  en_NU.FmtPercent l num v
  = Ok (string_of_list_ascii
          ((if ltb0 num then [m] else [])
           ++ replace_point d (bytes (FormatFloat (Abs num) (int_of_uint64 v)))
           ++ bytes (percentSuffix l) ++ bytes (percent l))).
Proof.
  intros Hd Hm ->. unfold en_NU.FmtPercent. percent_by_loop Hd Hm.
  reflexivity.
Qed.




(** ** Currency and accounting *)












End Formatting.



(** ** The fixed-point rendering *)

Lemma numeral_digits (u : Decimal.uint) :
  Forall (fun c => is_digit c = true) (bytes (NilEmpty.string_of_uint u)).
Proof.
  induction u; simpl; constructor; try assumption; reflexivity.
Qed.

Lemma decimal_digits_are_digits (n : N) :
  Forall (fun c => is_digit c = true) (decimal_digits n).
Proof. apply numeral_digits. Qed.

Lemma int_of_small_uint64 (v : N) :
  (v < 2 ^ 63)%N -> Z.to_N (int_of_uint64 v) = v.
Proof.
  intros H. unfold int_of_uint64.
  apply N.ltb_lt in H. rewrite H. apply N2Z.id.
Qed.

(** The rendering is a non-empty run of whole digits, followed, when the
    precision is not zero, by the point and exactly [p] fraction digits. *)
Lemma fmtF_shape (x : float64) (p : N) :
  exists whole frac : list ascii,
    fmtF x p = whole ++ (if (p =? 0)%N then [] else "."%char :: frac)
    /\ (1 <= length whole)%nat
    /\ length frac = N.to_nat p
    /\ Forall (fun c => is_digit c = true) whole
    /\ Forall (fun c => is_digit c = true) frac.
Proof.
  unfold fmtF.
  set (ds := repeat "0"%char (S (N.to_nat p) - length (decimal_digits (scaled x p)))
             ++ decimal_digits (scaled x p)).
  assert (Hlen : (S (N.to_nat p) <= length ds)%nat).
  { unfold ds. rewrite length_app, repeat_length. lia. }
  assert (Hdig : Forall (fun c => is_digit c = true) ds).
  { unfold ds. apply Forall_app. split.
    - apply List.Forall_forall. intros c Hc. apply repeat_spec in Hc.
      subst c. reflexivity.
    - apply decimal_digits_are_digits. }
  exists (firstn (length ds - N.to_nat p) ds),
         (skipn (length ds - N.to_nat p) ds).
  split; [reflexivity |]. split; [| split; [| split]].
  - rewrite length_firstn. lia.
  - rewrite length_skipn. lia.
  - apply Forall_take, Hdig.
  - apply Forall_drop, Hdig.
Qed.

Lemma FormatFloat_Abs (num : float64) (v : N) :
  (v < 2 ^ 63)%N ->
  bytes (FormatFloat (Abs num) (int_of_uint64 v)) = fmtF (Abs num) v.
Proof.
  intros Hv. unfold FormatFloat. rewrite bytes_string_of_list.
  rewrite (int_of_small_uint64 v Hv). reflexivity.
Qed.

Lemma digit_not_point (c : ascii) :
  is_digit c = true -> Ascii.eqb c "."%char = false.
Proof.
  intros H. destruct (Ascii.eqb c ".") eqn:E; [| reflexivity].
  apply Ascii.eqb_eq in E. subst c. discriminate H.
Qed.

(** The capacity slice of the formatters is within bounds. *)
Lemma capacity_slice_returns (num : float64) (v : N) :
  (v < 2 ^ 63)%N ->
  returns (capacity_slice (FormatFloat (Abs num) (int_of_uint64 v)) v).
Proof.
  intros Hv. unfold capacity_slice, slice_to.
  rewrite <- length_bytes, (FormatFloat_Abs num v Hv).
  destruct (fmtF_shape (Abs num) v) as (w & f & -> & Hw & Hf & _ & _).
  assert (Hint : int_of_uint64 v = Z.of_N v).
  { unfold int_of_uint64. apply N.ltb_lt in Hv. rewrite Hv. reflexivity. }
  rewrite Hint.
  match goal with
  | |- returns (if ?c then _ else _) => replace c with true
  end.
  - eexists. reflexivity.
  - symmetry. apply andb_true_iff.
    rewrite length_app. destruct (N.eqb_spec v 0) as [-> | Hne].
    + simpl. split; [apply Z.leb_le | apply Z.leb_le]; lia.
    + simpl length. split; [apply Z.leb_le | apply Z.leb_le]; lia.
Qed.

(** ** The digit loop returns once the symbols it indexes are set *)

Lemma whole_loop_returns (l : locale_struct) (d g : ascii) :
  index (decimal l) 0 = Ok d ->
  index (group l) 0 = Ok g ->
  forall cs inWhole count b,
    exists out, whole_loop l cs inWhole count b = Ok (b ++ out).
Proof.
  intros Hd Hg. induction cs as [| c cs IH]; intros inWhole count b; simpl.
  - exists []. rewrite app_nil_r. reflexivity.
  - destruct (Ascii.eqb c ".").
    + rewrite Hd. cbn [bind].
      destruct (IH true count (b ++ [d])) as [out ->].
      exists ([d] ++ out). rewrite app_assoc. reflexivity.
    + destruct inWhole.
      * destruct (count =? 3)%nat.
        -- rewrite Hg. cbn [bind].
           destruct (IH true 1%nat ((b ++ [g]) ++ [c])) as [out ->].
           exists ([g; c] ++ out).
           rewrite <- !app_assoc. reflexivity.
        -- destruct (IH true (S count) (b ++ [c])) as [out ->].
           exists ([c] ++ out). rewrite app_assoc. reflexivity.
      * destruct (IH false count (b ++ [c])) as [out ->].
        exists ([c] ++ out). rewrite app_assoc. reflexivity.
Qed.

Lemma index_first (s : string) (c : ascii) (rest : string) :
  s = String c rest -> index s 0 = Ok c.
Proof. intros ->. reflexivity. Qed.

Lemma index_list_in_range {A : Type} (xs : list A) (i : nat) :
  (i < length xs)%nat -> exists x, index_list xs i = Ok x.
Proof.
  intros H. unfold index_list.
  destruct (lookup_lt_is_Some_2 xs i H) as [x ->]. exists x. reflexivity.
Qed.

(** The loop on the rendering, then the padding: below precision 2 the
    padded buffer ends with the decimal symbol and two digits, whatever
    was appended to the loop's buffer before the reversal. *)
Lemma loop_then_pad (l : locale_struct) (d g : ascii) (num : float64)
    (v : N) :
  decimal l = String d EmptyString ->
  index (group l) 0 = Ok g ->
  (v < 2)%N ->
  exists b0,
    whole_loop l (rev (bytes (FormatFloat (Abs num) (int_of_uint64 v))))
      (v =? 0)%N 0 [] = Ok b0
    /\ forall extra : list ascii,
         exists (pre : list ascii) (f1 f2 : ascii),
           is_digit f1 = true /\ is_digit f2 = true /\
           pad_fraction l v (rev (b0 ++ extra))
           = pre ++ bytes (decimal l) ++ [f1; f2].
Proof.
  intros Hdec Hg Hv.
  assert (Hd : index (decimal l) 0 = Ok d) by (rewrite Hdec; reflexivity).
  assert (Hcases : v = 0%N \/ v = 1%N) by lia.
  destruct Hcases as [-> | ->].
  - destruct (whole_loop_returns l d g Hd Hg
                (rev (bytes (FormatFloat (Abs num) (int_of_uint64 0))))
                true 0%nat []) as [out Hout].
    exists ([] ++ out). split; [exact Hout |].
    intros extra. exists (rev (([] ++ out) ++ extra)), "0"%char, "0"%char.
    split; [reflexivity |]. split; [reflexivity |].
    unfold pad_fraction. cbn. rewrite <- app_assoc. reflexivity.
  - rewrite (FormatFloat_Abs num 1) by (vm_compute; reflexivity).
    destruct (fmtF_shape (Abs num) 1) as (w & f & -> & _ & Hf & _ & Hdig).
    destruct f as [| x [| ? ?]]; try discriminate Hf.
    apply Forall_inv in Hdig.
    cbn [N.eqb]. rewrite rev_app_distr. cbn [rev app whole_loop].
    rewrite (digit_not_point x Hdig). cbn [Ascii.eqb Bool.eqb].
    rewrite Hd. cbn [bind].
    destruct (whole_loop_returns l d g Hd Hg (rev w) true 0%nat [x; d])
      as [out ->].
    eexists. split; [reflexivity |].
    intros extra. exists (rev extra ++ rev out), x, "0"%char.
    split; [exact Hdig |]. split; [reflexivity |].
    unfold pad_fraction. rewrite Hdec. cbn.
    rewrite !rev_app_distr. cbn. rewrite <- !app_assoc. reflexivity.
Qed.

(** ** The currency formatters of the locales whose symbols are set *)

Lemma not_below_two (v : N) : (v < 2)%N \/ ~ (v < 2)%N.
Proof. lia. Qed.

(** Runs one currency formatter: the symbol lookup, the capacity slice and
    the digit loop return, and below precision 2 the padded buffer ends
    with the decimal symbol and two digits. *)
Ltac run_currency l d g num Hdec Hgrp Hv Hc Hd Hg :=
  let symbol := fresh "symbol" in
  let Hsym := fresh "Hsym" in
  destruct (index_list_in_range _ _ Hc) as [symbol Hsym];
  assert (Hd : index (decimal l) 0 = Ok d) by (rewrite Hdec; reflexivity);
  assert (Hg : index (group l) 0 = Ok g) by (rewrite Hgrp; reflexivity);
  exists symbol; split; [exact Hsym |];
  rewrite Hsym; cbn [bind];
  let x := fresh "x" in
  destruct (capacity_slice_returns num _ Hv) as [x ->]; cbn [bind].

Ltac pad_case l d g num v Hdec Hg Hlt :=
  let b0 := fresh "b0" in
  let Hpad := fresh "Hpad" in
  destruct (loop_then_pad l d g num v Hdec Hg Hlt) as (b0 & -> & Hpad);
  cbn [bind].

Ltac plain_case l d g Hd Hg :=
  match goal with
  | |- context [whole_loop l ?cs ?i ?c ?b] =>
      let out := fresh "out" in
      destruct (whole_loop_returns l d g Hd Hg cs i c b) as [out ->];
      cbn [bind]
  end.

Ltac settle_sign Hsign :=
  unfold append_sign; destruct (ltb0 _);
  rewrite ?Hsign; cbn [index String.get bind].

Ltac finish_pad Hpad :=
  eexists; split; [reflexivity |]; intros _;
  unfold two_fraction_digits; rewrite bytes_string_of_list;
  repeat rewrite <- app_assoc;
  let pre := fresh "pre" in
  let f1 := fresh "f1" in
  let f2 := fresh "f2" in
  let H1 := fresh "H1" in
  let H2 := fresh "H2" in
  let H3 := fresh "H3" in
  match goal with
  | |- context [pad_fraction _ _ (rev (_ ++ ?e))] =>
      destruct (Hpad e) as (pre & f1 & f2 & H1 & H2 & H3)
  | |- context [pad_fraction _ _ (rev _)] =>
      destruct (Hpad []) as (pre & f1 & f2 & H1 & H2 & H3);
      rewrite app_nil_r in H3
  end;
  rewrite H3; exists pre, f1, f2; repeat rewrite <- app_assoc;
  rewrite ?app_nil_r; auto.

Ltac finish_plain :=
  eexists; split; [reflexivity | intros Hlt; contradiction].

Lemma bs_FmtNumber_returns (l : locale_struct) (num : float64) (v : N) :
  symbols_set l -> (v < 2 ^ 63)%N -> returns (bs.FmtNumber l num v).
Proof.
  intros (d & g & m & Hdec & Hgrp & Hm) Hv. unfold bs.FmtNumber.
  assert (Hd : index (decimal l) 0 = Ok d) by (rewrite Hdec; reflexivity).
  assert (Hg : index (group l) 0 = Ok g) by (rewrite Hgrp; reflexivity).
  destruct (capacity_slice_returns num _ Hv) as [x ->]; cbn [bind].
  plain_case l d g Hd Hg. settle_sign Hm; eexists; reflexivity.
Qed.

Lemma bs_FmtCurrency_ok (l : locale_struct) (num : float64) (v : N)
    (c : nat) :
  symbols_set l -> (v < 2 ^ 63)%N -> (c < length (currencies l))%nat ->
  exists symbol, index_list (currencies l) c = Ok symbol /\
  exists out,
    bs.FmtCurrency l num v c = Ok out
    /\ ((v < 2)%N ->
        two_fraction_digits (decimal l)
          (bytes (currencyPositiveSuffix l) ++ bytes symbol) out).
Proof.
  intros (d & g & m & Hdec & Hgrp & Hm) Hv Hc. unfold bs.FmtCurrency.
  run_currency l d g num Hdec Hgrp Hv Hc Hd Hg.
  destruct (not_below_two v) as [Hlt | Hge].
  - pad_case l d g num v Hdec Hg Hlt. settle_sign Hm; finish_pad Hpad.
  - plain_case l d g Hd Hg. settle_sign Hm; finish_plain.
Qed.

Lemma bs_FmtAccounting_ok (l : locale_struct) (num : float64) (v : N)
    (c : nat) :
  symbols_set l ->
  (v < 2 ^ 63)%N -> (c < length (currencies l))%nat ->
  exists symbol, index_list (currencies l) c = Ok symbol /\
  exists out,
    bs.FmtAccounting l num v c = Ok out
    /\ ((v < 2)%N ->
        two_fraction_digits (decimal l)
          (if ltb0 num
           then bytes (currencyNegativeSuffix l) ++ bytes symbol
           else bytes (currencyPositiveSuffix l) ++ bytes symbol) out).
Proof.
  intros (d & g & m & Hdec & Hgrp & Hm) Hv Hc.
  unfold bs.FmtAccounting.
  run_currency l d g num Hdec Hgrp Hv Hc Hd Hg.
  destruct (not_below_two v) as [Hlt | Hge].
  - pad_case l d g num v Hdec Hg Hlt. settle_sign Hm; finish_pad Hpad.
  - plain_case l d g Hd Hg. settle_sign Hm; finish_plain.
Qed.

Lemma es_US_FmtNumber_returns (l : locale_struct) (num : float64) (v : N) :
  symbols_set l -> (v < 2 ^ 63)%N -> returns (es_US.FmtNumber l num v).
Proof.
  intros (d & g & m & Hdec & Hgrp & Hm) Hv. unfold es_US.FmtNumber.
  assert (Hd : index (decimal l) 0 = Ok d) by (rewrite Hdec; reflexivity).
  assert (Hg : index (group l) 0 = Ok g) by (rewrite Hgrp; reflexivity).
  destruct (capacity_slice_returns num _ Hv) as [x ->]; cbn [bind].
  plain_case l d g Hd Hg. settle_sign Hm; eexists; reflexivity.
Qed.

Lemma es_US_FmtCurrency_ok (l : locale_struct) (num : float64) (v : N)
    (c : nat) :
  symbols_set l -> (v < 2 ^ 63)%N -> (c < length (currencies l))%nat ->
  exists symbol, index_list (currencies l) c = Ok symbol /\
  exists out,
    es_US.FmtCurrency l num v c = Ok out
    /\ ((v < 2)%N ->
        two_fraction_digits (decimal l)
          (bytes (currencyPositiveSuffix l) ++ bytes symbol) out).
Proof.
  intros (d & g & m & Hdec & Hgrp & Hm) Hv Hc. unfold es_US.FmtCurrency.
  run_currency l d g num Hdec Hgrp Hv Hc Hd Hg.
  destruct (not_below_two v) as [Hlt | Hge].
  - pad_case l d g num v Hdec Hg Hlt. settle_sign Hm; finish_pad Hpad.
  - plain_case l d g Hd Hg. settle_sign Hm; finish_plain.
Qed.

Lemma es_US_FmtAccounting_ok (l : locale_struct) (num : float64) (v : N)
    (c : nat) :
  symbols_set l ->
  (v < 2 ^ 63)%N -> (c < length (currencies l))%nat ->
  exists symbol, index_list (currencies l) c = Ok symbol /\
  exists out,
    es_US.FmtAccounting l num v c = Ok out
    /\ ((v < 2)%N ->
        two_fraction_digits (decimal l)
          (if ltb0 num
           then bytes (currencyNegativeSuffix l) ++ bytes symbol
           else bytes (currencyPositiveSuffix l) ++ bytes symbol) out).
Proof.
  intros (d & g & m & Hdec & Hgrp & Hm) Hv Hc.
  unfold es_US.FmtAccounting.
  run_currency l d g num Hdec Hgrp Hv Hc Hd Hg.
  destruct (not_below_two v) as [Hlt | Hge].
  - pad_case l d g num v Hdec Hg Hlt. settle_sign Hm; finish_pad Hpad.
  - plain_case l d g Hd Hg. settle_sign Hm; finish_plain.
Qed.

Lemma ca_IT_FmtNumber_returns (l : locale_struct) (num : float64) (v : N) :
  symbols_set l -> (v < 2 ^ 63)%N -> returns (ca_IT.FmtNumber l num v).
Proof.
  intros (d & g & m & Hdec & Hgrp & Hm) Hv. unfold ca_IT.FmtNumber.
  assert (Hd : index (decimal l) 0 = Ok d) by (rewrite Hdec; reflexivity).
  assert (Hg : index (group l) 0 = Ok g) by (rewrite Hgrp; reflexivity).
  destruct (capacity_slice_returns num _ Hv) as [x ->]; cbn [bind].
  plain_case l d g Hd Hg. settle_sign Hm; eexists; reflexivity.
Qed.

Lemma ca_IT_FmtCurrency_ok (l : locale_struct) (num : float64) (v : N)
    (c : nat) :
  symbols_set l -> (v < 2 ^ 63)%N -> (c < length (currencies l))%nat ->
  exists symbol, index_list (currencies l) c = Ok symbol /\
  exists out,
    ca_IT.FmtCurrency l num v c = Ok out
    /\ ((v < 2)%N ->
        two_fraction_digits (decimal l)
          (bytes (currencyPositiveSuffix l) ++ bytes symbol) out).
Proof.
  intros (d & g & m & Hdec & Hgrp & Hm) Hv Hc. unfold ca_IT.FmtCurrency.
  run_currency l d g num Hdec Hgrp Hv Hc Hd Hg.
  destruct (not_below_two v) as [Hlt | Hge].
  - pad_case l d g num v Hdec Hg Hlt. settle_sign Hm; finish_pad Hpad.
  - plain_case l d g Hd Hg. settle_sign Hm; finish_plain.
Qed.

Lemma ca_IT_FmtAccounting_ok (l : locale_struct) (num : float64) (v : N)
    (c : nat) :
  symbols_set l ->
  (exists p, currencyNegativePrefix l = String p EmptyString) ->
  (v < 2 ^ 63)%N -> (c < length (currencies l))%nat ->
  exists symbol, index_list (currencies l) c = Ok symbol /\
  exists out,
    ca_IT.FmtAccounting l num v c = Ok out
    /\ ((v < 2)%N ->
        two_fraction_digits (decimal l)
          (if ltb0 num
           then bytes (currencyNegativeSuffix l) ++ bytes symbol
           else bytes (currencyPositiveSuffix l) ++ bytes symbol) out).
Proof.
  intros (d & g & m & Hdec & Hgrp & Hm) [p Hp] Hv Hc.
  unfold ca_IT.FmtAccounting.
  run_currency l d g num Hdec Hgrp Hv Hc Hd Hg.
  destruct (not_below_two v) as [Hlt | Hge].
  - pad_case l d g num v Hdec Hg Hlt. settle_sign Hp; finish_pad Hpad.
  - plain_case l d g Hd Hg. settle_sign Hp; finish_plain.
Qed.

Lemma chr_FmtNumber_returns (l : locale_struct) (num : float64) (v : N) :
  symbols_set l -> (v < 2 ^ 63)%N -> returns (chr.FmtNumber l num v).
Proof.
  intros (d & g & m & Hdec & Hgrp & Hm) Hv. unfold chr.FmtNumber.
  assert (Hd : index (decimal l) 0 = Ok d) by (rewrite Hdec; reflexivity).
  assert (Hg : index (group l) 0 = Ok g) by (rewrite Hgrp; reflexivity).
  destruct (capacity_slice_returns num _ Hv) as [x ->]; cbn [bind].
  plain_case l d g Hd Hg. settle_sign Hm; eexists; reflexivity.
Qed.

Lemma chr_FmtCurrency_ok (l : locale_struct) (num : float64) (v : N)
    (c : nat) :
  symbols_set l -> (v < 2 ^ 63)%N -> (c < length (currencies l))%nat ->
  exists symbol, index_list (currencies l) c = Ok symbol /\
  exists out,
    chr.FmtCurrency l num v c = Ok out
    /\ ((v < 2)%N -> two_fraction_digits (decimal l) [] out).
Proof.
  intros (d & g & m & Hdec & Hgrp & Hm) Hv Hc. unfold chr.FmtCurrency.
  run_currency l d g num Hdec Hgrp Hv Hc Hd Hg.
  destruct (not_below_two v) as [Hlt | Hge].
  - pad_case l d g num v Hdec Hg Hlt. settle_sign Hm; finish_pad Hpad.
  - plain_case l d g Hd Hg. settle_sign Hm; finish_plain.
Qed.

Lemma chr_FmtAccounting_ok (l : locale_struct) (num : float64) (v : N)
    (c : nat) :
  symbols_set l ->
  (exists p, currencyNegativePrefix l = String p EmptyString) ->
  (v < 2 ^ 63)%N -> (c < length (currencies l))%nat ->
  exists symbol, index_list (currencies l) c = Ok symbol /\
  exists out,
    chr.FmtAccounting l num v c = Ok out
    /\ ((v < 2)%N ->
        two_fraction_digits (decimal l)
          (if ltb0 num then bytes (currencyNegativeSuffix l) else []) out).
Proof.
  intros (d & g & m & Hdec & Hgrp & Hm) [p Hp] Hv Hc.
  unfold chr.FmtAccounting.
  run_currency l d g num Hdec Hgrp Hv Hc Hd Hg.
  destruct (not_below_two v) as [Hlt | Hge].
  - pad_case l d g num v Hdec Hg Hlt. settle_sign Hp; finish_pad Hpad.
  - plain_case l d g Hd Hg. settle_sign Hp; finish_plain.
Qed.

Lemma en_NU_FmtNumber_returns (l : locale_struct) (num : float64) (v : N) :
  symbols_set l -> (v < 2 ^ 63)%N -> returns (en_NU.FmtNumber l num v).
Proof.
  intros (d & g & m & Hdec & Hgrp & Hm) Hv. unfold en_NU.FmtNumber.
  assert (Hd : index (decimal l) 0 = Ok d) by (rewrite Hdec; reflexivity).
  assert (Hg : index (group l) 0 = Ok g) by (rewrite Hgrp; reflexivity).
  destruct (capacity_slice_returns num _ Hv) as [x ->]; cbn [bind].
  plain_case l d g Hd Hg. settle_sign Hm; eexists; reflexivity.
Qed.

Lemma en_NU_FmtCurrency_ok (l : locale_struct) (num : float64) (v : N)
    (c : nat) :
  symbols_set l -> (v < 2 ^ 63)%N -> (c < length (currencies l))%nat ->
  exists symbol, index_list (currencies l) c = Ok symbol /\
  exists out,
    en_NU.FmtCurrency l num v c = Ok out
    /\ ((v < 2)%N -> two_fraction_digits (decimal l) [] out).
Proof.
  intros (d & g & m & Hdec & Hgrp & Hm) Hv Hc. unfold en_NU.FmtCurrency.
  run_currency l d g num Hdec Hgrp Hv Hc Hd Hg.
  destruct (not_below_two v) as [Hlt | Hge].
  - pad_case l d g num v Hdec Hg Hlt. settle_sign Hm; finish_pad Hpad.
  - plain_case l d g Hd Hg. settle_sign Hm; finish_plain.
Qed.

Lemma en_NU_FmtAccounting_ok (l : locale_struct) (num : float64) (v : N)
    (c : nat) :
  symbols_set l ->
  (exists p, currencyNegativePrefix l = String p EmptyString) ->
  (v < 2 ^ 63)%N -> (c < length (currencies l))%nat ->
  exists symbol, index_list (currencies l) c = Ok symbol /\
  exists out,
    en_NU.FmtAccounting l num v c = Ok out
    /\ ((v < 2)%N ->
        two_fraction_digits (decimal l)
          (if ltb0 num then bytes (currencyNegativeSuffix l) else []) out).
Proof.
  intros (d & g & m & Hdec & Hgrp & Hm) [p Hp] Hv Hc.
  unfold en_NU.FmtAccounting.
  run_currency l d g num Hdec Hgrp Hv Hc Hd Hg.
  destruct (not_below_two v) as [Hlt | Hge].
  - pad_case l d g num v Hdec Hg Hlt. settle_sign Hp; finish_pad Hpad.
  - plain_case l d g Hd Hg. settle_sign Hp; finish_plain.
Qed.

Lemma bs_symbols_set : symbols_set bs.New.
Proof. do 3 eexists. repeat split; reflexivity. Qed.

Lemma es_US_symbols_set : symbols_set es_US.New.
Proof. do 3 eexists. repeat split; reflexivity. Qed.

Lemma ca_IT_symbols_set : symbols_set ca_IT.New.
Proof. do 3 eexists. repeat split; reflexivity. Qed.

Lemma chr_symbols_set : symbols_set chr.New.
Proof. do 3 eexists. repeat split; reflexivity. Qed.

Lemma en_NU_symbols_set : symbols_set en_NU.New.
Proof. do 3 eexists. repeat split; reflexivity. Qed.

Lemma returns_of_eq {A : Type} (m : result A) (a : A) : m = Ok a -> returns m.
Proof. intros ->. exists a. reflexivity. Qed.

Section WithSymbols.

Variable F : float64 -> N -> Z.

(** Where the symbols are set (bs, ca_IT, chr, en_NU, es_US), the four
    formatters return a string for every value, every precision below 2^63
    and every currency index of the table. *)
Theorem formatters_return_where_symbols_set
    (tr : Translator) (num : float64) (v : N) (c : nat) :
  In tr (translators_with_symbols F) ->
  (v < 2 ^ 63)%N ->
  (c < length (currencies (self tr)))%nat ->
  returns (FmtNumber tr num v) /\ returns (FmtPercent tr num v)
  /\ returns (FmtCurrency tr num v c)
  /\ returns (FmtAccounting tr num v c).
Proof.
  intros Htr Hv Hc. unfold translators_with_symbols in Htr. cbn [In] in Htr.
  repeat (destruct Htr as [<- | Htr]); try contradiction;
    cbn [self FmtNumber FmtPercent FmtCurrency FmtAccounting
         bs.translator ca_IT.translator chr.translator es_US.translator
         en_NU.translator] in *.
  - split; [apply bs_FmtNumber_returns; [apply bs_symbols_set | exact Hv] |].
    split; [eapply returns_of_eq, bs_FmtPercent_spec; reflexivity |].
    split.
    + destruct (bs_FmtCurrency_ok bs.New num v c bs_symbols_set Hv Hc)
        as (? & _ & out & H & _). exact (returns_of_eq _ _ H).
    + destruct (bs_FmtAccounting_ok bs.New num v c bs_symbols_set Hv Hc)
        as (? & _ & out & H & _). exact (returns_of_eq _ _ H).
  - split; [apply ca_IT_FmtNumber_returns;
            [apply ca_IT_symbols_set | exact Hv] |].
    split; [eapply returns_of_eq, ca_IT_FmtPercent_spec; reflexivity |].
    split.
    + destruct (ca_IT_FmtCurrency_ok ca_IT.New num v c ca_IT_symbols_set
                  Hv Hc) as (? & _ & out & H & _).
      exact (returns_of_eq _ _ H).
    + destruct (ca_IT_FmtAccounting_ok ca_IT.New num v c ca_IT_symbols_set
                  (ex_intro _ "("%char eq_refl) Hv Hc)
        as (? & _ & out & H & _).
      exact (returns_of_eq _ _ H).
  - split; [apply chr_FmtNumber_returns; [apply chr_symbols_set | exact Hv] |].
    split; [eapply returns_of_eq, chr_FmtPercent_spec; reflexivity |].
    split.
    + destruct (chr_FmtCurrency_ok chr.New num v c chr_symbols_set Hv Hc)
        as (? & _ & out & H & _). exact (returns_of_eq _ _ H).
    + destruct (chr_FmtAccounting_ok chr.New num v c chr_symbols_set
                  (ex_intro _ "("%char eq_refl) Hv Hc)
        as (? & _ & out & H & _).
      exact (returns_of_eq _ _ H).
  - split; [apply es_US_FmtNumber_returns;
            [apply es_US_symbols_set | exact Hv] |].
    split; [eapply returns_of_eq, es_US_FmtPercent_spec; reflexivity |].
    split.
    + destruct (es_US_FmtCurrency_ok es_US.New num v c es_US_symbols_set
                  Hv Hc) as (? & _ & out & H & _).
      exact (returns_of_eq _ _ H).
    + destruct (es_US_FmtAccounting_ok es_US.New num v c es_US_symbols_set
                  Hv Hc) as (? & _ & out & H & _).
      exact (returns_of_eq _ _ H).
  - split; [apply en_NU_FmtNumber_returns;
            [apply en_NU_symbols_set | exact Hv] |].
    split; [eapply returns_of_eq, en_NU_FmtPercent_spec; reflexivity |].
    split.
    + destruct (en_NU_FmtCurrency_ok en_NU.New num v c en_NU_symbols_set
                  Hv Hc) as (? & _ & out & H & _).
      exact (returns_of_eq _ _ H).
    + destruct (en_NU_FmtAccounting_ok en_NU.New num v c en_NU_symbols_set
                  (ex_intro _ "("%char eq_refl) Hv Hc)
        as (? & _ & out & H & _).
      exact (returns_of_eq _ _ H).
Qed.

End WithSymbols.

Section Padding.

Variable F : float64 -> N -> Z.

(** Where the symbols are set, the currency formatters called with a
    precision below 2 return a string with exactly two fraction digits
    after the decimal symbol. *)
Theorem padding_where_symbols_set
    (tr : Translator) (num : float64) (v : N) (c : nat) :
  In tr (translators_with_symbols F) ->
  (v < 2)%N ->
  (c < length (currencies (self tr)))%nat ->
  (exists out, FmtCurrency tr num v c = Ok out
               /\ exactly_two_fraction_digits (decimal (self tr)) out)
  /\ (exists out, FmtAccounting tr num v c = Ok out
                  /\ exactly_two_fraction_digits (decimal (self tr)) out).
Proof.
  intros Htr Hv Hc. unfold translators_with_symbols in Htr. cbn [In] in Htr.
  assert (Hv' : (v < 2 ^ 63)%N).
  { apply (N.lt_trans _ 2); [exact Hv | vm_compute; reflexivity]. }
  unfold exactly_two_fraction_digits.
  repeat (destruct Htr as [<- | Htr]); try contradiction;
    cbn [self FmtCurrency FmtAccounting
         bs.translator ca_IT.translator chr.translator es_US.translator
         en_NU.translator] in *.
  - split.
    + destruct (bs_FmtCurrency_ok bs.New num v c bs_symbols_set Hv' Hc)
        as (symbol & _ & out & H & Hpad).
      exists out. split; [exact H |]. eexists. split; [| exact (Hpad Hv)].
      vm_compute. exact I || reflexivity.
    + destruct (bs_FmtAccounting_ok bs.New num v c bs_symbols_set
                  Hv' Hc) as (symbol & _ & out & H & Hpad).
      exists out. split; [exact H |]. eexists. split; [| exact (Hpad Hv)].
      destruct (ltb0 num); vm_compute; exact I || reflexivity.
  - split.
    + destruct (ca_IT_FmtCurrency_ok ca_IT.New num v c ca_IT_symbols_set Hv' Hc)
        as (symbol & _ & out & H & Hpad).
      exists out. split; [exact H |]. eexists. split; [| exact (Hpad Hv)].
      vm_compute. exact I || reflexivity.
    + destruct (ca_IT_FmtAccounting_ok ca_IT.New num v c ca_IT_symbols_set
                  (ex_intro _ "("%char eq_refl)
                  Hv' Hc) as (symbol & _ & out & H & Hpad).
      exists out. split; [exact H |]. eexists. split; [| exact (Hpad Hv)].
      destruct (ltb0 num); vm_compute; exact I || reflexivity.
  - split.
    + destruct (chr_FmtCurrency_ok chr.New num v c chr_symbols_set Hv' Hc)
        as (symbol & _ & out & H & Hpad).
      exists out. split; [exact H |]. eexists. split; [| exact (Hpad Hv)].
      vm_compute. exact I || reflexivity.
    + destruct (chr_FmtAccounting_ok chr.New num v c chr_symbols_set
                  (ex_intro _ "("%char eq_refl)
                  Hv' Hc) as (symbol & _ & out & H & Hpad).
      exists out. split; [exact H |]. eexists. split; [| exact (Hpad Hv)].
      destruct (ltb0 num); vm_compute; exact I || reflexivity.
  - split.
    + destruct (es_US_FmtCurrency_ok es_US.New num v c es_US_symbols_set Hv' Hc)
        as (symbol & _ & out & H & Hpad).
      exists out. split; [exact H |]. eexists. split; [| exact (Hpad Hv)].
      vm_compute. exact I || reflexivity.
    + destruct (es_US_FmtAccounting_ok es_US.New num v c es_US_symbols_set
                  Hv' Hc) as (symbol & _ & out & H & Hpad).
      exists out. split; [exact H |]. eexists. split; [| exact (Hpad Hv)].
      destruct (ltb0 num); vm_compute; exact I || reflexivity.
  - split.
    + destruct (en_NU_FmtCurrency_ok en_NU.New num v c en_NU_symbols_set Hv' Hc)
        as (symbol & _ & out & H & Hpad).
      exists out. split; [exact H |]. eexists. split; [| exact (Hpad Hv)].
      vm_compute. exact I || reflexivity.
    + destruct (en_NU_FmtAccounting_ok en_NU.New num v c en_NU_symbols_set
                  (ex_intro _ "("%char eq_refl)
                  Hv' Hc) as (symbol & _ & out & H & Hpad).
      exists out. split; [exact H |]. eexists. split; [| exact (Hpad Hv)].
      destruct (ltb0 num); vm_compute; exact I || reflexivity.
Qed.

End Padding.

(** ** Dates and times *)

Lemma slice_from_in_range (s : string) (k : nat) :
  (k <= String.length s)%nat ->
  slice_from s (Z.of_nat k) = Ok (string_of_list_ascii (skipn k (bytes s))).
Proof.
  intros H. unfold slice_from.
  replace ((0 <=? Z.of_nat k)%Z && (Z.of_nat k <=? Z.of_nat (String.length s))%Z)
    with true.
  - rewrite Nat2Z.id. reflexivity.
  - symmetry. apply andb_true_iff. split; apply Z.leb_le; lia.
Qed.

(** A numeral of fewer than two digits denotes a number below ten. *)
Lemma short_numeral_small (u : Decimal.uint) :
  (String.length (NilEmpty.string_of_uint u) < 2)%nat ->
  (N.of_uint u <= 9)%N.
Proof.
  destruct u as [| u | u | u | u | u | u | u | u | u | u];
    try (intros _; vm_compute; discriminate);
    destruct u; simpl; intros H; try lia; vm_compute; discriminate.
Qed.

Lemma decimal_digits_nonempty (n : N) : (1 <= length (decimal_digits n))%nat.
Proof.
  unfold decimal_digits. rewrite length_bytes.
  destruct (N.to_uint n) eqn:E; simpl; try lia.
  pose proof (DecimalN.Unsigned.of_to n) as H. rewrite E in H.
  simpl in H. subst n. vm_compute in E. discriminate E.
Qed.

Lemma decimal_digits_two (n : N) :
  (10 <= n)%N -> (2 <= length (decimal_digits n))%nat.
Proof.
  intros Hn. unfold decimal_digits. rewrite length_bytes.
  destruct (Nat.lt_ge_cases (String.length (NilEmpty.string_of_uint (N.to_uint n))) 2)
    as [Hlt | Hge]; [| exact Hge].
  apply short_numeral_small in Hlt.
  rewrite DecimalN.Unsigned.of_to in Hlt. lia.
Qed.

Lemma Itoa_length (y : Z) : (1 <= String.length (Itoa y))%nat.
Proof.
  unfold Itoa. rewrite <- length_bytes, bytes_string_of_list.
  destruct (y <? 0)%Z; simpl; [lia | apply decimal_digits_nonempty].
Qed.

Lemma Itoa_length_two (y : Z) : (9 < y)%Z -> (2 <= String.length (Itoa y))%nat.
Proof.
  intros Hy. unfold Itoa. rewrite <- length_bytes, bytes_string_of_list.
  destruct (y <? 0)%Z eqn:E; [apply Z.ltb_lt in E; lia |].
  apply decimal_digits_two. lia.
Qed.

(** The year slice of the short date never panics. *)
Lemma year_slice (y : Z) (b : list ascii) :
  (if (9 <? y)%Z
   then let* f := slice_from (Itoa y) 2 in Ok (b ++ bytes f)
   else let* f := slice_from (Itoa y) 1 in Ok (b ++ bytes f))
  = Ok (b ++ year_field y).
Proof.
  unfold year_field. destruct (9 <? y)%Z eqn:E.
  - apply Z.ltb_lt in E. change 2%Z with (Z.of_nat 2).
    rewrite (slice_from_in_range (Itoa y) 2 (Itoa_length_two y E)).
    simpl. rewrite bytes_string_of_list. reflexivity.
  - change 1%Z with (Z.of_nat 1).
    rewrite (slice_from_in_range (Itoa y) 1 (Itoa_length y)).
    simpl. rewrite bytes_string_of_list. reflexivity.
Qed.

Lemma year_field_empty (y : Z) : (1 <= y <= 99)%Z -> year_field y = [].
Proof.
  intros Hy.
  assert (Hall : forallb (fun k : nat =>
                            match year_field (Z.of_nat k) with
                            | [] => true
                            | _ :: _ => false
                            end) (seq 1 99) = true)
    by (vm_compute; reflexivity).
  rewrite forallb_forall in Hall.
  specialize (Hall (Z.to_nat y)).
  rewrite Z2Nat.id in Hall by lia.
  destruct (year_field y); [reflexivity |].
  assert (Hin : In (Z.to_nat y) (seq 1 99)) by (apply in_seq; lia).
  specialize (Hall Hin). discriminate Hall.
Qed.

(** C10.  In bs and chr [FmtDateShort] returns for every timestamp: the
    year field is what remains of the decimal digits of the year after
    index 2 (after index 1 for years 9 and below), and for the years 1 to
    99 nothing remains, so the year field is empty. *)
Theorem C10_short_date_year_field (t : Time) :
  bs.FmtDateShort bs.New t
  = Ok (string_of_list_ascii
          (bytes (Itoa (Day t)) ++ ["."%char] ++ bytes (Itoa (Month t))
           ++ ["."%char] ++ year_field (Year t) ++ ["."%char]))
  /\ chr.FmtDateShort chr.New t
     = Ok (string_of_list_ascii
             (bytes (Itoa (Month t)) ++ ["/"%char] ++ bytes (Itoa (Day t))
              ++ ["/"%char] ++ year_field (Year t)))
  /\ ((1 <= Year t <= 99)%Z -> year_field (Year t) = []).
Proof.
  split; [| split].
  - unfold bs.FmtDateShort, AppendInt. rewrite year_slice. cbn [bind app].
    repeat rewrite <- app_assoc. reflexivity.
  - unfold chr.FmtDateShort, AppendInt. rewrite year_slice. cbn [bind app].
    repeat rewrite <- app_assoc. reflexivity.
  - apply year_field_empty.
Qed.

(** A use of C10: the second of January of the year 24. *)
Lemma C10_witness :
  bs.FmtDateShort bs.New (mkTime 24 1 2 13 5 7 "CET") = Ok "2.1.."
  /\ chr.FmtDateShort chr.New (mkTime 24 1 2 13 5 7 "CET") = Ok "1/2/"
  /\ year_field 24 = [].
Proof.
  pose proof (C10_short_date_year_field (mkTime 24 1 2 13 5 7 "CET"))
    as [Hbs [Hchr Hyear]].
  assert (Hy : year_field 24 = []) by (apply Hyear; simpl; lia).
  simpl Year in Hbs, Hchr. rewrite Hy in Hbs, Hchr.
  split; [exact Hbs | split; [exact Hchr | exact Hy]].
Defined.












Section TimeFull.

Variable F : float64 -> N -> Z.












End TimeFull.


(** ** The 12-hour clock of chr *)

(** The four time formatters of chr print [printed_hour] of the hour of
    day, and the first period name before noon, the second from noon on. *)
Lemma chr_FmtTimeShort_spec (l : locale_struct) (p0 p1 : string) (t : Time) :
  periodsAbbreviated l = [p0; p1] ->
  chr.FmtTimeShort l t
  = Ok (string_of_list_ascii
          ((append_padded
              (AppendInt [] (printed_hour (Hour t)) ++ bytes (timeSeparator l))
              (Minute t) ++ [" "%char])
           ++ bytes (if (Hour t <? 12)%Z then p0 else p1))).
Proof.
  intros Hp. unfold chr.FmtTimeShort, printed_hour. rewrite Hp.
  destruct (Hour t <? 12)%Z; reflexivity.
Qed.

Lemma chr_FmtTimeMedium_spec (l : locale_struct) (p0 p1 : string) (t : Time) :
  periodsAbbreviated l = [p0; p1] ->
  chr.FmtTimeMedium l t
  = Ok (string_of_list_ascii
          ((append_padded
              (append_padded
                 (AppendInt [] (printed_hour (Hour t))
                  ++ bytes (timeSeparator l)) (Minute t)
               ++ bytes (timeSeparator l)) (Second t) ++ [" "%char])
           ++ bytes (if (Hour t <? 12)%Z then p0 else p1))).
Proof.
  intros Hp. unfold chr.FmtTimeMedium, printed_hour. rewrite Hp.
  destruct (Hour t <? 12)%Z; reflexivity.
Qed.

Lemma chr_FmtTimeLong_spec (l : locale_struct) (p0 p1 : string) (t : Time) :
  periodsAbbreviated l = [p0; p1] ->
  chr.FmtTimeLong l t
  = Ok (string_of_list_ascii
          (period_clock (timeSeparator l) p0 p1 (Hour t) (Minute t) (Second t)
           ++ bytes (Zone t))).
Proof.
  intros Hp. unfold chr.FmtTimeLong, period_clock, printed_hour. rewrite Hp.
  destruct (Hour t <? 12)%Z; reflexivity.
Qed.

(** From one o'clock on the printed hour is within the 12-hour range. *)
Lemma printed_hour_in_range (h : Z) :
  (1 <= h <= 23)%Z -> hour12 (printed_hour h).
Proof.
  intros Hh. unfold hour12, printed_hour.
  destruct (12 <? h)%Z eqn:E;
    [apply Z.ltb_lt in E | apply Z.ltb_ge in E]; lia.
Qed.

(** C8.  The code breaks the claim that chr prints the hour within 1 to
    12: hours above 12 are reduced by 12, but the hour 0 is left as it is,
    and five past midnight is printed with the hour 0, outside the 12-hour
    range, by each of the four time formatters.  The period name is the
    first one, as claimed. *)
Theorem C8_chr_midnight_prints_hour_zero :
  Hour midnight = 0%Z
  /\ printed_hour (Hour midnight) = 0%Z
  /\ ~ hour12 (printed_hour (Hour midnight))
  /\ chr.FmtTimeShort chr.New midnight = Ok "0:05 ᏌᎾᎴ"
  /\ chr.FmtTimeMedium chr.New midnight = Ok "0:05:07 ᏌᎾᎴ"
  /\ chr.FmtTimeLong chr.New midnight = Ok "0:05:07 ᏌᎾᎴ EST"
  /\ chr.FmtTimeFull chr.New midnight
     = Ok "0:05:07 ᏌᎾᎴ ᏗᎧᎸᎬ ᏗᏜ ᎠᏟᎶᏍᏗ ᎠᏟᎢᎵᏒ".
Proof.
  split; [reflexivity |]. split; [reflexivity |].
  split; [unfold hour12; vm_compute; intros [H _]; apply H; reflexivity |].
  repeat split; vm_compute; reflexivity.
Qed.

(** ** The concrete scenarios of the specification *)

(** en_NU (group ",", decimal ".", minus "-"): 1234.5 at precision 2. *)
Example en_NU_FmtNumber_1234_5 :
  en_NU.FmtNumber en_NU.New (mkFloat false 2469 (-1)) 2 = Ok "1,234.50".
Proof. vm_compute. reflexivity. Qed.

(** ca_IT: the cardinal rule at 1 and at 2. *)
Example ca_IT_cardinal_1_2 :
  ca_IT.CardinalPluralRule ca_IT.New (float_of_Z 1) 0 = PluralRuleOne
  /\ ca_IT.CardinalPluralRule ca_IT.New (float_of_Z 2) 0 = PluralRuleOther.
Proof. split; reflexivity. Qed.

(** bs: a negative amount in currency and in accounting notation, and a
    whole amount padded to two fraction digits. *)
Example bs_currency_samples :
  bs.FmtCurrency bs.New (mkFloat true 2469 (-1)) 2 USD
  = Ok ("-1.234,50" +:+ nbsp +:+ "USD")
  /\ bs.FmtAccounting bs.New (mkFloat true 2469 (-1)) 2 USD
     = Ok ("-1.234,50" +:+ nbsp +:+ "USD")
  /\ bs.FmtCurrency bs.New (float_of_Z 12) 0 USD
     = Ok ("12,00" +:+ nbsp +:+ "USD").
Proof. repeat split; vm_compute; reflexivity. Qed.

(** en_NU: the accounting notation wraps a negative amount in parentheses. *)
Example en_NU_accounting_negative :
  en_NU.FmtAccounting en_NU.New (mkFloat true 2469 (-1)) 1 USD
  = Ok "(USD1,234.50)"
  /\ en_NU.FmtCurrency en_NU.New (mkFloat true 2469 (-1)) 1 USD
     = Ok "-USD1,234.50".
Proof. split; vm_compute; reflexivity. Qed.

(** * Further properties of the code *)

(** ** The digit loop groups by three *)

Lemma group3_snoc_count (n : nat) :
  ((if (n =? 0)%nat then 0 else (n - 1) mod 3 + 1) =? 3)%nat
  = ((0 <? n)%nat && (n mod 3 =? 0)%nat).
Proof.
  destruct n as [| n]; [reflexivity |].
  replace (S n - 1)%nat with n by lia. cbn [Nat.eqb Nat.ltb Nat.leb andb].
  pose proof (Nat.mod_upper_bound n 3 ltac:(lia)) as Hn.
  pose proof (Nat.mod_upper_bound (S n) 3 ltac:(lia)) as HSn.
  pose proof (Nat.div_mod_eq n 3) as En.
  pose proof (Nat.div_mod_eq (S n) 3) as ESn.
  destruct (Nat.eqb_spec (n mod 3 + 1) 3) as [E | E];
    destruct (Nat.eqb_spec (S n mod 3) 0) as [E' | E'];
    try reflexivity; exfalso; lia.
Qed.

Lemma group3_next_count (n : nat) :
  (if ((if (n =? 0)%nat then 0 else (n - 1) mod 3 + 1) =? 3)%nat
   then 1%nat
   else S (if (n =? 0)%nat then 0 else (n - 1) mod 3 + 1))
  = (S n - 1) mod 3 + 1.
Proof.
  destruct n as [| n]; [reflexivity |].
  replace (S (S n) - 1)%nat with (S n) by lia.
  replace (S n - 1)%nat with n by lia. cbn [Nat.eqb].
  pose proof (Nat.mod_upper_bound n 3 ltac:(lia)) as Hn.
  pose proof (Nat.mod_upper_bound (S n) 3 ltac:(lia)) as HSn.
  pose proof (Nat.div_mod_eq n 3) as En.
  pose proof (Nat.div_mod_eq (S n) 3) as ESn.
  destruct (Nat.eqb_spec (n mod 3 + 1) 3) as [E | E]; lia.
Qed.

(** In the whole part the buffer is, at every turn of the loop, the
    reversed grouping of the digits visited so far. *)
Lemma whole_loop_groups (l : locale_struct) (g : ascii) :
  index (group l) 0 = Ok g ->
  forall ds zs b,
    Forall (fun c => is_digit c = true) ds ->
    whole_loop l (rev ds) true
      (if (length zs =? 0)%nat then 0 else (length zs - 1) mod 3 + 1)
      (b ++ rev (group3 [g] zs))
    = Ok (b ++ rev (group3 [g] (ds ++ zs))).
Proof.
  intros Hg ds. induction ds as [| x ds IH] using rev_ind; intros zs b Hds.
  - reflexivity.
  - apply Forall_app in Hds. destruct Hds as [Hds Hx].
    apply Forall_inv in Hx.
    rewrite rev_app_distr. cbn [rev app whole_loop].
    replace ((ds ++ [x]) ++ zs) with (ds ++ x :: zs)
      by (rewrite <- app_assoc; reflexivity).
    rewrite <- (IH (x :: zs) b Hds).
    rewrite (digit_not_point x Hx), group3_snoc_count.
    cbn [length]. rewrite <- group3_next_count, group3_snoc_count.
    cbn [group3 rev Nat.eqb].
    destruct ((0 <? length zs)%nat && (length zs mod 3 =? 0)%nat).
    + rewrite Hg. cbn [bind]. f_equal.
      rewrite rev_app_distr. cbn [rev app].
      rewrite <- !app_assoc. reflexivity.
    + f_equal. rewrite <- !app_assoc. reflexivity.
Qed.

(** Before the radix point the loop copies the fraction digits. *)
Lemma whole_loop_fraction (l : locale_struct) (cs rest : list ascii)
    (count : nat) (b : list ascii) :
  Forall (fun c => is_digit c = true) cs ->
  whole_loop l (cs ++ rest) false count b
  = whole_loop l rest false count (b ++ cs).
Proof.
  revert b. induction cs as [| c cs IH]; intros b Hcs.
  - rewrite app_nil_r. reflexivity.
  - cbn [app whole_loop]. rewrite (digit_not_point c (Forall_inv Hcs)).
    rewrite (IH _ (Forall_inv_tail Hcs)), <- app_assoc. reflexivity.
Qed.

Lemma Forall_rev_digits (cs : list ascii) :
  Forall (fun c => is_digit c = true) cs ->
  Forall (fun c => is_digit c = true) (rev cs).
Proof.
  intros H. apply List.Forall_forall. intros c Hc.
  apply in_rev in Hc. rewrite List.Forall_forall in H. exact (H c Hc).
Qed.

(** The loop on a whole rendering: the grouped digits, reversed. *)
Lemma whole_loop_on_rendering (l : locale_struct) (d g : ascii)
    (whole frac : list ascii) :
  index (decimal l) 0 = Ok d ->
  index (group l) 0 = Ok g ->
  Forall (fun c => is_digit c = true) whole ->
  Forall (fun c => is_digit c = true) frac ->
  whole_loop l (rev (fixed_point whole frac))
    (match frac with [] => true | _ :: _ => false end) 0 []
  = Ok (rev (group3 [g] whole
             ++ match frac with [] => [] | _ :: _ => d :: frac end)).
Proof.
  intros Hd Hg Hw Hf. unfold fixed_point.
  pose proof (whole_loop_groups l g Hg whole [] ) as Hloop.
  cbn [length Nat.eqb group3 rev] in Hloop. rewrite app_nil_r in Hloop.
  destruct frac as [| f frac].
  - rewrite !app_nil_r. specialize (Hloop [] Hw).
    cbn [app] in Hloop. exact Hloop.
  - rewrite rev_app_distr.
    change (rev ("."%char :: f :: frac)) with (rev (f :: frac) ++ ["."%char]).
    rewrite <- app_assoc.
    rewrite (whole_loop_fraction l _ _ 0 [] (Forall_rev_digits _ Hf)).
    cbn [app whole_loop Ascii.eqb Bool.eqb]. rewrite Hd. cbn [bind].
    specialize (Hloop (rev (f :: frac) ++ [d]) Hw).
    rewrite app_nil_r in Hloop. rewrite Hloop.
    f_equal. rewrite rev_app_distr.
    change (d :: f :: frac) with ([d] ++ f :: frac).
    rewrite (rev_app_distr [d]). cbn [rev app]. reflexivity.
Qed.

Lemma fmtF_fixed_point (x : float64) (p : N) :
  exists whole frac : list ascii,
    fmtF x p = fixed_point whole frac
    /\ (1 <= length whole)%nat
    /\ length frac = N.to_nat p
    /\ Forall (fun c => is_digit c = true) whole
    /\ Forall (fun c => is_digit c = true) frac.
Proof.
  destruct (fmtF_shape x p) as (w & f & E & Hw & Hf & Dw & Df).
  destruct (N.eqb_spec p 0) as [-> | Hp].
  - exists w, []. unfold fixed_point. repeat split; auto.
  - exists w, f. unfold fixed_point.
    destruct f as [| c f]; [simpl in Hf; lia |]. repeat split; auto.
Qed.

Lemma whole_flag (frac : list ascii) (v : N) :
  length frac = N.to_nat v ->
  (v =? 0)%N = match frac with [] => true | _ :: _ => false end.
Proof.
  intros H. destruct frac; simpl in H.
  - replace v with 0%N by lia. reflexivity.
  - apply N.eqb_neq. lia.
Qed.

(** The steps that [FmtNumber], [FmtCurrency] and [FmtAccounting] share:
    the rendering, the capacity slice and the digit loop. *)
Lemma number_pipeline (l : locale_struct) (d g : ascii) (num : float64)
    (v : N) :
  decimal l = String d EmptyString ->
  group l = String g EmptyString ->
  (v < 2 ^ 63)%N ->
  exists whole frac : list ascii,
    bytes (FormatFloat (Abs num) (int_of_uint64 v)) = fixed_point whole frac
    /\ (1 <= length whole)%nat
    /\ length frac = N.to_nat v
    /\ Forall (fun c => is_digit c = true) whole
    /\ Forall (fun c => is_digit c = true) frac
    /\ returns (capacity_slice (FormatFloat (Abs num) (int_of_uint64 v)) v)
    /\ whole_loop l (rev (bytes (FormatFloat (Abs num) (int_of_uint64 v))))
         (v =? 0)%N 0 []
       = Ok (rev (grouped_number l false whole frac)).
Proof.
  intros Hdec Hgrp Hv.
  destruct (fmtF_fixed_point (Abs num) v) as (w & f & E & Hw & Hf & Dw & Df).
  exists w, f. rewrite (FormatFloat_Abs num v Hv), E.
  split; [reflexivity |]. repeat (split; [assumption |]).
  split; [apply capacity_slice_returns, Hv |].
  rewrite (whole_flag f v Hf).
  rewrite (whole_loop_on_rendering l d g w f); try assumption.
  - unfold grouped_number. rewrite Hdec, Hgrp. cbn [app bytes list_ascii_of_string].
    destruct f; reflexivity.
  - rewrite Hdec. reflexivity.
  - rewrite Hgrp. reflexivity.
Qed.

Lemma grouped_number_sign (l : locale_struct) (neg : bool)
    (whole frac : list ascii) :
  grouped_number l neg whole frac
  = (if neg then bytes (minus l) else []) ++ grouped_number l false whole frac.
Proof. reflexivity. Qed.

Ltac run_pipeline l d g num v Hdec Hgrp Hv w f :=
  let E := fresh "E" in
  let Hw := fresh "Hw" in
  let Hf := fresh "Hf" in
  let Dw := fresh "Dw" in
  let Df := fresh "Df" in
  let x := fresh "x" in
  let Hloop := fresh "Hloop" in
  destruct (number_pipeline l d g num v Hdec Hgrp Hv)
    as (w & f & E & Hw & Hf & Dw & Df & [x ->] & Hloop);
  rewrite ?Hloop; cbn [bind];
  exists w, f; repeat (split; [assumption |]).

Ltac number_closed_form name :=
  intros l num v (d & g & m & Hdec & Hgrp & Hm) Hv; unfold name;
  let w := fresh "w" in
  let f := fresh "f" in
  run_pipeline l d g num v Hdec Hgrp Hv w f;
  rewrite (grouped_number_sign l (ltb0 num)), Hm;
  unfold append_sign; destruct (ltb0 num); rewrite ?Hm;
  cbn [index String.get bind bytes list_ascii_of_string];
  rewrite ?rev_app_distr, rev_involutive; reflexivity.

Lemma bs_FmtNumber_closed_form : number_closed_form_statement bs.FmtNumber.
Proof. number_closed_form bs.FmtNumber. Qed.

Lemma es_US_FmtNumber_closed_form :
  number_closed_form_statement es_US.FmtNumber.
Proof. number_closed_form es_US.FmtNumber. Qed.

Lemma ca_IT_FmtNumber_closed_form :
  number_closed_form_statement ca_IT.FmtNumber.
Proof. number_closed_form ca_IT.FmtNumber. Qed.

Lemma chr_FmtNumber_closed_form : number_closed_form_statement chr.FmtNumber.
Proof. number_closed_form chr.FmtNumber. Qed.

Lemma en_NU_FmtNumber_closed_form :
  number_closed_form_statement en_NU.FmtNumber.
Proof. number_closed_form en_NU.FmtNumber. Qed.

Section NumberClosedForm.

Variable F : float64 -> N -> Z.

Lemma number_grouped_where_symbols_set
    (tr : Translator) (num : float64) (v : N) :
  In tr (translators_with_symbols F) ->
  (v < 2 ^ 63)%N ->
  exists whole frac : list ascii,
    bytes (FormatFloat (Abs num) (int_of_uint64 v)) = fixed_point whole frac
    /\ (1 <= length whole)%nat
    /\ length frac = N.to_nat v
    /\ Forall (fun c => is_digit c = true) whole
    /\ Forall (fun c => is_digit c = true) frac
    /\ FmtNumber tr num v
       = Ok (string_of_list_ascii
               (grouped_number (self tr) (ltb0 num) whole frac)).
Proof.
  intros Htr Hv. unfold translators_with_symbols in Htr. cbn [In] in Htr.
  repeat (destruct Htr as [<- | Htr]); try contradiction.
  - apply (bs_FmtNumber_closed_form bs.New num v bs_symbols_set Hv).
  - apply (ca_IT_FmtNumber_closed_form ca_IT.New num v ca_IT_symbols_set Hv).
  - apply (chr_FmtNumber_closed_form chr.New num v chr_symbols_set Hv).
  - apply (es_US_FmtNumber_closed_form es_US.New num v es_US_symbols_set Hv).
  - apply (en_NU_FmtNumber_closed_form en_NU.New num v en_NU_symbols_set Hv).
Qed.


(** X1.  Where the symbols are set (bs, ca_IT, chr, en_NU, es_US),
    [FmtNumber] writes the minus sign of a negative value, the whole digits
    of the fixed-point rendering of the absolute value with the group
    symbol between groups of three counted from the right, and the
    fraction digits, ungrouped, after the decimal symbol. *)
Theorem FmtNumber_groups_by_three
    (tr : Translator) (num : float64) (v : N) :
  In tr (translators_with_symbols F) ->
  (v < 2 ^ 63)%N ->
  exists whole frac : list ascii,
    bytes (FormatFloat (Abs num) (int_of_uint64 v)) = fixed_point whole frac
    /\ (1 <= length whole)%nat
    /\ length frac = N.to_nat v
    /\ Forall (fun c => is_digit c = true) whole
    /\ Forall (fun c => is_digit c = true) frac
    /\ FmtNumber tr num v
       = Ok (string_of_list_ascii
               (grouped_number (self tr) (ltb0 num) whole frac)).
Proof. apply number_grouped_where_symbols_set. Qed.

End NumberClosedForm.

(** A use of X1 in en_NU at 1234567.5 with one fraction digit. *)
Lemma FmtNumber_groups_by_three_witness :
  In en_NU.translator (translators_with_symbols (fun _ _ => 0%Z))
  /\ (1 < 2 ^ 63)%N
  /\ exists whole frac : list ascii,
       fixed_point whole frac = bytes "1234567.5"
       /\ FmtNumber en_NU.translator (mkFloat false 2469135 (-1)) 1
          = Ok (string_of_list_ascii
                  (grouped_number en_NU.New false whole frac)).
Proof.
  assert (Hin : In en_NU.translator
                   (translators_with_symbols (fun _ _ => 0%Z)))
    by (unfold translators_with_symbols; cbn [In]; tauto).
  assert (Hv : (1 < 2 ^ 63)%N) by (vm_compute; reflexivity).
  split; [exact Hin | split; [exact Hv |]].
  destruct (FmtNumber_groups_by_three (fun _ _ => 0%Z) en_NU.translator
              (mkFloat false 2469135 (-1)) 1 Hin Hv)
    as (w & f & E & _ & _ & _ & _ & H).
  exists w, f. split; [| exact H].
  rewrite <- E. vm_compute. reflexivity.
Defined.

(** ** Reading a formatted number back *)

Lemma parse_number_app (l : locale_struct) (xs ys : list ascii) :
  parse_number l (xs ++ ys) = parse_number l xs ++ parse_number l ys.
Proof. unfold parse_number. apply flat_map_app. Qed.

Section Parse.

Variables (l : locale_struct) (d g : ascii).
Hypothesis Hdec : decimal l = String d EmptyString.
Hypothesis Hgrp : group l = String g EmptyString.
Hypothesis Hdg : Ascii.eqb d g = false.
Hypothesis Hd_digit : is_digit d = false.
Hypothesis Hg_digit : is_digit g = false.

Lemma parse_digit (c : ascii) :
  is_digit c = true -> parse_number l [c] = [c].
Proof.
  intros Hc. unfold parse_number. rewrite Hdec, Hgrp. cbn.
  destruct (Ascii.eqb_spec c g) as [-> | _]; [congruence |].
  destruct (Ascii.eqb_spec c d) as [-> | _]; [congruence |]. reflexivity.
Qed.

Lemma parse_digits (cs : list ascii) :
  Forall (fun c => is_digit c = true) cs -> parse_number l cs = cs.
Proof.
  induction cs as [| c cs IH]; intros H; [reflexivity |].
  change (c :: cs) with ([c] ++ cs).
  rewrite parse_number_app, (parse_digit c (Forall_inv H)),
    (IH (Forall_inv_tail H)). reflexivity.
Qed.

Lemma parse_group : parse_number l [g] = [].
Proof.
  unfold parse_number. rewrite Hgrp. cbn. rewrite Ascii.eqb_refl.
  reflexivity.
Qed.

Lemma parse_decimal : parse_number l [d] = ["."%char].
Proof.
  unfold parse_number. rewrite Hdec, Hgrp. cbn.
  rewrite Hdg, Ascii.eqb_refl. reflexivity.
Qed.

Lemma parse_group3 (cs : list ascii) :
  Forall (fun c => is_digit c = true) cs ->
  parse_number l (group3 [g] cs) = cs.
Proof.
  induction cs as [| c cs IH]; intros H; [reflexivity |].
  cbn [group3]. change (c :: ?x) with ([c] ++ x).
  rewrite parse_number_app, (parse_digit c (Forall_inv H)).
  destruct ((0 <? length cs)%nat && (length cs mod 3 =? 0)%nat).
  - rewrite parse_number_app, parse_group, (IH (Forall_inv_tail H)).
    reflexivity.
  - rewrite (IH (Forall_inv_tail H)). reflexivity.
Qed.

Lemma parse_grouped_number (whole frac : list ascii) :
  Forall (fun c => is_digit c = true) whole ->
  Forall (fun c => is_digit c = true) frac ->
  parse_number l (grouped_number l false whole frac)
  = fixed_point whole frac.
Proof.
  intros Hw Hf. unfold grouped_number, fixed_point. cbn [app].
  rewrite parse_number_app, Hgrp. cbn [bytes list_ascii_of_string].
  rewrite (parse_group3 whole Hw). f_equal.
  destruct frac as [| c frac]; [reflexivity |].
  rewrite Hdec. cbn [bytes list_ascii_of_string].
  rewrite parse_number_app, parse_decimal, (parse_digits _ Hf). reflexivity.
Qed.

End Parse.

Lemma parse_signed_number (l : locale_struct) (d g m : ascii) (neg : bool)
    (whole frac : list ascii) :
  decimal l = String d EmptyString ->
  group l = String g EmptyString ->
  minus l = String m EmptyString ->
  Ascii.eqb d g = false -> is_digit d = false -> is_digit g = false ->
  Ascii.eqb m g = false -> Ascii.eqb m d = false ->
  Forall (fun c => is_digit c = true) whole ->
  Forall (fun c => is_digit c = true) frac ->
  parse_number l (grouped_number l neg whole frac)
  = (if neg then bytes (minus l) else []) ++ fixed_point whole frac.
Proof.
  intros Hdec Hgrp Hm Hdg Hd Hg Hmg Hmd Hw Hf.
  rewrite grouped_number_sign, parse_number_app.
  rewrite (parse_grouped_number l d g Hdec Hgrp Hdg Hd Hg whole frac Hw Hf).
  f_equal. destruct neg; [| reflexivity].
  unfold parse_number. rewrite Hm, Hdec, Hgrp. cbn. rewrite Hmg, Hmd.
  reflexivity.
Qed.

Section RoundTrip.

Variable F : float64 -> N -> Z.

(** X2.  Where the symbols are set, a formatted number reads back as the
    value it was made from: stripping the group symbol from the output of
    [FmtNumber] and writing the radix point for the decimal symbol gives
    the minus sign of a negative value followed by the fixed-point
    rendering of the absolute value. *)
Theorem FmtNumber_reads_back (tr : Translator) (num : float64) (v : N) :
  In tr (translators_with_symbols F) ->
  (v < 2 ^ 63)%N ->
  exists out : string,
    FmtNumber tr num v = Ok out
    /\ parse_number (self tr) (bytes out)
       = (if ltb0 num then bytes (minus (self tr)) else [])
         ++ bytes (FormatFloat (Abs num) (int_of_uint64 v)).
Proof.
  intros Htr Hv.
  destruct (number_grouped_where_symbols_set F tr num v Htr Hv)
    as (w & f & E & _ & _ & Dw & Df & H).
  eexists. split; [exact H |]. rewrite bytes_string_of_list, E.
  unfold translators_with_symbols in Htr. cbn [In] in Htr.
  repeat (destruct Htr as [<- | Htr]); try contradiction;
    cbn [self bs.translator ca_IT.translator chr.translator
         es_US.translator en_NU.translator].
  - apply (parse_signed_number bs.New ","%char "."%char "-"%char);
      solve [reflexivity | assumption].
  - apply (parse_signed_number ca_IT.New ","%char "."%char "-"%char);
      solve [reflexivity | assumption].
  - apply (parse_signed_number chr.New "."%char ","%char "-"%char);
      solve [reflexivity | assumption].
  - apply (parse_signed_number es_US.New ","%char "."%char "-"%char);
      solve [reflexivity | assumption].
  - apply (parse_signed_number en_NU.New "."%char ","%char "-"%char);
      solve [reflexivity | assumption].
Qed.

End RoundTrip.

(** A use of X2 in bs at -1234567.5 with one fraction digit. *)
Lemma FmtNumber_reads_back_witness :
  In (bs.translator (fun _ _ => 0%Z))
     (translators_with_symbols (fun _ _ => 0%Z))
  /\ (1 < 2 ^ 63)%N
  /\ exists out : string,
       FmtNumber (bs.translator (fun _ _ => 0%Z))
         (mkFloat true 2469135 (-1)) 1 = Ok out
       /\ parse_number bs.New (bytes out) = bytes "-1234567.5".
Proof.
  assert (Hin : In (bs.translator (fun _ _ => 0%Z))
                   (translators_with_symbols (fun _ _ => 0%Z)))
    by (unfold translators_with_symbols; cbn [In]; tauto).
  assert (Hv : (1 < 2 ^ 63)%N) by (vm_compute; reflexivity).
  split; [exact Hin | split; [exact Hv |]].
  destruct (FmtNumber_reads_back (fun _ _ => 0%Z) _
              (mkFloat true 2469135 (-1)) 1 Hin Hv) as (out & H & P).
  exists out. split; [exact H |].
  etransitivity; [exact P | vm_compute; reflexivity].
Defined.

(** ** Currency formatting composes with number formatting *)

Lemma pad_fraction_appends (l : locale_struct) (v : N) (b : list ascii) :
  pad_fraction l v b = b ++ padding l v.
Proof.
  unfold padding, pad_fraction.
  destruct (int_of_uint64 v <? 2)%Z; [| rewrite app_nil_r; reflexivity].
  destruct (v =? 0)%N; cbn [app]; rewrite <- ?app_assoc; reflexivity.
Qed.

Ltac split_outcomes :=
  repeat match goal with
         | |- context [bind ?m _] =>
             match m with
             | context [bind _ _] => fail 1
             | _ => destruct m; cbn [bind]; try reflexivity
             end
         end.

Lemma bs_currency_after_number (l : locale_struct) (num : float64) (v : N)
    (c : nat) :
  bs.FmtCurrency l num v c
  = (let* symbol := index_list (currencies l) c in
     let* n := bs.FmtNumber l num v in
     Ok (string_of_list_ascii
           (bytes n ++ padding l v ++ bytes (currencyPositiveSuffix l)
            ++ bytes symbol))).
Proof.
  unfold bs.FmtCurrency, bs.FmtNumber. split_outcomes.
  rewrite bytes_string_of_list, pad_fraction_appends, <- !app_assoc.
  reflexivity.
Qed.

Lemma ksf_CM_currency_after_number (l : locale_struct) (num : float64) (v : N)
    (c : nat) :
  ksf_CM.FmtCurrency l num v c
  = (let* symbol := index_list (currencies l) c in
     let* n := ksf_CM.FmtNumber l num v in
     Ok (string_of_list_ascii
           (bytes n ++ padding l v ++ bytes (currencyPositiveSuffix l)
            ++ bytes symbol))).
Proof.
  unfold ksf_CM.FmtCurrency, ksf_CM.FmtNumber. split_outcomes.
  rewrite bytes_string_of_list, pad_fraction_appends, <- !app_assoc.
  reflexivity.
Qed.

Lemma ca_IT_currency_after_number (l : locale_struct) (num : float64) (v : N)
    (c : nat) :
  ca_IT.FmtCurrency l num v c
  = (let* symbol := index_list (currencies l) c in
     let* n := ca_IT.FmtNumber l num v in
     Ok (string_of_list_ascii
           (bytes n ++ padding l v ++ bytes (currencyPositiveSuffix l)
            ++ bytes symbol))).
Proof.
  unfold ca_IT.FmtCurrency, ca_IT.FmtNumber. split_outcomes.
  rewrite bytes_string_of_list, pad_fraction_appends, <- !app_assoc.
  reflexivity.
Qed.

Lemma es_US_currency_after_number (l : locale_struct) (num : float64) (v : N)
    (c : nat) :
  es_US.FmtCurrency l num v c
  = (let* symbol := index_list (currencies l) c in
     let* n := es_US.FmtNumber l num v in
     Ok (string_of_list_ascii
           (bytes n ++ padding l v ++ bytes (currencyPositiveSuffix l)
            ++ bytes symbol))).
Proof.
  unfold es_US.FmtCurrency, es_US.FmtNumber. split_outcomes.
  rewrite bytes_string_of_list, pad_fraction_appends, <- !app_assoc.
  reflexivity.
Qed.

Lemma chr_currency_before_number (l : locale_struct) (num : float64)
    (v : N) (c : nat) :
  chr.FmtCurrency l num v c
  = (let* symbol := index_list (currencies l) c in
     let* n := chr.FmtNumber l (Abs num) v in
     let* sign := (if ltb0 num
                   then let* m := index (minus l) 0 in Ok [m]
                   else Ok []) in
     Ok (string_of_list_ascii
           (sign ++ bytes symbol ++ bytes n ++ padding l v))).
Proof.
  unfold chr.FmtCurrency, chr.FmtNumber, append_sign.
  change (ltb0 (Abs num)) with false. change (Abs (Abs num)) with (Abs num).
  destruct (index_list (currencies l) c); cbn [bind]; [| reflexivity].
  destruct (capacity_slice _ v); cbn [bind]; [| reflexivity].
  destruct (whole_loop l _ _ _ _); cbn [bind]; [| reflexivity].
  destruct (ltb0 num); [destruct (index (minus l) 0) |]; cbn [bind];
    try reflexivity;
    rewrite bytes_string_of_list, pad_fraction_appends, !rev_app_distr,
      !rev_involutive; cbn [rev app]; rewrite <- ?app_assoc; reflexivity.
Qed.

Lemma chr_accounting_before_number (l : locale_struct) (num : float64)
    (v : N) (c : nat) :
  chr.FmtAccounting l num v c
  = (let* symbol := index_list (currencies l) c in
     let* n := chr.FmtNumber l (Abs num) v in
     if ltb0 num
     then let* p := index (currencyNegativePrefix l) 0 in
          Ok (string_of_list_ascii
                ([p] ++ bytes symbol ++ bytes n ++ padding l v
                 ++ bytes (currencyNegativeSuffix l)))
     else Ok (string_of_list_ascii
                (bytes symbol ++ bytes n ++ padding l v))).
Proof.
  unfold chr.FmtAccounting, chr.FmtNumber, append_sign.
  change (ltb0 (Abs num)) with false. change (Abs (Abs num)) with (Abs num).
  destruct (index_list (currencies l) c); cbn [bind]; [| reflexivity].
  destruct (capacity_slice _ v); cbn [bind]; [| reflexivity].
  destruct (whole_loop l _ _ _ _); cbn [bind]; [| reflexivity].
  destruct (ltb0 num); [destruct (index (currencyNegativePrefix l) 0) |];
    cbn [bind]; try reflexivity;
    rewrite bytes_string_of_list, pad_fraction_appends, !rev_app_distr,
      !rev_involutive; cbn [rev app]; rewrite <- ?app_assoc; reflexivity.
Qed.

Lemma en_NU_currency_before_number (l : locale_struct) (num : float64)
    (v : N) (c : nat) :
  en_NU.FmtCurrency l num v c
  = (let* symbol := index_list (currencies l) c in
     let* n := en_NU.FmtNumber l (Abs num) v in
     let* sign := (if ltb0 num
                   then let* m := index (minus l) 0 in Ok [m]
                   else Ok []) in
     Ok (string_of_list_ascii
           (sign ++ bytes symbol ++ bytes n ++ padding l v))).
Proof.
  unfold en_NU.FmtCurrency, en_NU.FmtNumber, append_sign.
  change (ltb0 (Abs num)) with false. change (Abs (Abs num)) with (Abs num).
  destruct (index_list (currencies l) c); cbn [bind]; [| reflexivity].
  destruct (capacity_slice _ v); cbn [bind]; [| reflexivity].
  destruct (whole_loop l _ _ _ _); cbn [bind]; [| reflexivity].
  destruct (ltb0 num); [destruct (index (minus l) 0) |]; cbn [bind];
    try reflexivity;
    rewrite bytes_string_of_list, pad_fraction_appends, !rev_app_distr,
      !rev_involutive; cbn [rev app]; rewrite <- ?app_assoc; reflexivity.
Qed.

Lemma en_NU_accounting_before_number (l : locale_struct) (num : float64)
    (v : N) (c : nat) :
  en_NU.FmtAccounting l num v c
  = (let* symbol := index_list (currencies l) c in
     let* n := en_NU.FmtNumber l (Abs num) v in
     if ltb0 num
     then let* p := index (currencyNegativePrefix l) 0 in
          Ok (string_of_list_ascii
                ([p] ++ bytes symbol ++ bytes n ++ padding l v
                 ++ bytes (currencyNegativeSuffix l)))
     else Ok (string_of_list_ascii
                (bytes symbol ++ bytes n ++ padding l v))).
Proof.
  unfold en_NU.FmtAccounting, en_NU.FmtNumber, append_sign.
  change (ltb0 (Abs num)) with false. change (Abs (Abs num)) with (Abs num).
  destruct (index_list (currencies l) c); cbn [bind]; [| reflexivity].
  destruct (capacity_slice _ v); cbn [bind]; [| reflexivity].
  destruct (whole_loop l _ _ _ _); cbn [bind]; [| reflexivity].
  destruct (ltb0 num); [destruct (index (currencyNegativePrefix l) 0) |];
    cbn [bind]; try reflexivity;
    rewrite bytes_string_of_list, pad_fraction_appends, !rev_app_distr,
      !rev_involutive; cbn [rev app]; rewrite <- ?app_assoc; reflexivity.
Qed.

Section Composition.

Variable F : float64 -> N -> Z.

(** X3.  In bs, ca_IT, es_US and ksf_CM the currency formatter is the
    number formatter followed by text: for every value, precision and
    currency index, [FmtCurrency] has the outcome of looking up the symbol,
    formatting the number with [FmtNumber], and appending the padding to
    two fraction digits, the positive currency suffix and the symbol. *)
Theorem FmtCurrency_is_number_then_symbol :
  Forall (fun tr : Translator =>
            forall (num : float64) (v : N) (c : nat),
              FmtCurrency tr num v c = currency_after_number tr num v c)
         (number_then_symbol_translators F).
Proof.
  unfold number_then_symbol_translators, currency_after_number.
  repeat (apply List.Forall_cons); try apply List.Forall_nil; intros num v c.
  - apply bs_currency_after_number.
  - apply ksf_CM_currency_after_number.
  - apply ca_IT_currency_after_number.
  - apply es_US_currency_after_number.
Qed.

(** X4.  In chr and en_NU, which write the symbol first, the currency and
    the accounting formatter wrap the same text, the symbol, the formatted
    absolute value and the padding: [FmtCurrency] puts the minus sign
    before it for a negative amount, [FmtAccounting] puts it between the
    first byte of the negative prefix and the negative suffix.  The two
    agree in the digits and their grouping. *)
Theorem prefix_currency_and_accounting_wrap_the_number :
  Forall (fun tr : Translator =>
            forall (num : float64) (v : N) (c : nat),
              FmtCurrency tr num v c = currency_before_number tr num v c
              /\ FmtAccounting tr num v c
                 = accounting_before_number tr num v c)
         prefix_translators.
Proof.
  unfold prefix_translators, currency_before_number,
    accounting_before_number.
  repeat (apply List.Forall_cons); try apply List.Forall_nil;
    intros num v c; split.
  - apply chr_currency_before_number.
  - apply chr_accounting_before_number.
  - apply en_NU_currency_before_number.
  - apply en_NU_accounting_before_number.
Qed.

End Composition.

(** ** Accounting without a notation of its own *)

Ltac same_accounting H :=
  unfold append_sign; destruct (ltb0 _); rewrite ?H; reflexivity.

Lemma bs_accounting_is_currency (l : locale_struct) (num : float64) (v : N)
    (c : nat) :
  currencyNegativeSuffix l = currencyPositiveSuffix l ->
  bs.FmtAccounting l num v c = bs.FmtCurrency l num v c.
Proof.
  intros H. unfold bs.FmtAccounting, bs.FmtCurrency. same_accounting H.
Qed.

Lemma ksf_CM_accounting_is_currency (l : locale_struct) (num : float64)
    (v : N) (c : nat) :
  currencyNegativeSuffix l = currencyPositiveSuffix l ->
  ksf_CM.FmtAccounting l num v c = ksf_CM.FmtCurrency l num v c.
Proof.
  intros H. unfold ksf_CM.FmtAccounting, ksf_CM.FmtCurrency.
  same_accounting H.
Qed.

Lemma es_US_accounting_is_currency (l : locale_struct) (num : float64)
    (v : N) (c : nat) :
  currencyNegativeSuffix l = currencyPositiveSuffix l ->
  es_US.FmtAccounting l num v c = es_US.FmtCurrency l num v c.
Proof.
  intros H. unfold es_US.FmtAccounting, es_US.FmtCurrency.
  same_accounting H.
Qed.

Lemma kw_accounting_is_currency (l : locale_struct) (num : float64) (v : N)
    (c : nat) :
  kw.FmtAccounting l num v c = kw.FmtCurrency l num v c.
Proof.
  unfold kw.FmtAccounting, kw.FmtCurrency. same_accounting (eq_refl 0).
Qed.

Lemma rwk_accounting_is_currency (l : locale_struct) (num : float64)
    (v : N) (c : nat) :
  rwk.FmtAccounting l num v c = rwk.FmtCurrency l num v c.
Proof.
  unfold rwk.FmtAccounting, rwk.FmtCurrency. same_accounting (eq_refl 0).
Qed.

Section PlainAccounting.

Variable F : float64 -> N -> Z.

(** X5.  In bs, es_US, ksf_CM, kw and rwk the accounting notation is the
    currency notation: [FmtAccounting] and [FmtCurrency] have the same
    outcome for every value, negative ones included, every precision and
    every currency index. *)
Theorem FmtAccounting_is_FmtCurrency_everywhere :
  Forall (fun tr : Translator =>
            forall (num : float64) (v : N) (c : nat),
              FmtAccounting tr num v c = FmtCurrency tr num v c)
         (plain_accounting_translators F).
Proof.
  unfold plain_accounting_translators.
  repeat (apply List.Forall_cons); try apply List.Forall_nil; intros num v c.
  - apply bs_accounting_is_currency. reflexivity.
  - apply ksf_CM_accounting_is_currency. reflexivity.
  - apply es_US_accounting_is_currency. reflexivity.
  - apply kw_accounting_is_currency.
  - apply rwk_accounting_is_currency.
Qed.

End PlainAccounting.

(** ** The bare rendering *)




(** ** A currency that the table does not hold *)

Lemma index_list_out_of_range {A : Type} (xs : list A) (i : nat) :
  (length xs <= i)%nat -> index_list xs i = Panic IndexOutOfRange.
Proof.
  intros H. unfold index_list. rewrite (lookup_ge_None_2 xs i H).
  reflexivity.
Qed.

Lemma bs_currency_out_of_range (l : locale_struct) (num : float64) (v : N)
    (c : nat) :
  (length (currencies l) <= c)%nat ->
  bs.FmtCurrency l num v c = Panic IndexOutOfRange
  /\ bs.FmtAccounting l num v c = Panic IndexOutOfRange.
Proof.
  intros H. unfold bs.FmtCurrency, bs.FmtAccounting.
  rewrite (index_list_out_of_range _ _ H). split; reflexivity.
Qed.

Lemma ksf_CM_currency_out_of_range (l : locale_struct) (num : float64) (v : N)
    (c : nat) :
  (length (currencies l) <= c)%nat ->
  ksf_CM.FmtCurrency l num v c = Panic IndexOutOfRange
  /\ ksf_CM.FmtAccounting l num v c = Panic IndexOutOfRange.
Proof.
  intros H. unfold ksf_CM.FmtCurrency, ksf_CM.FmtAccounting.
  rewrite (index_list_out_of_range _ _ H). split; reflexivity.
Qed.

Lemma ca_IT_currency_out_of_range (l : locale_struct) (num : float64) (v : N)
    (c : nat) :
  (length (currencies l) <= c)%nat ->
  ca_IT.FmtCurrency l num v c = Panic IndexOutOfRange
  /\ ca_IT.FmtAccounting l num v c = Panic IndexOutOfRange.
Proof.
  intros H. unfold ca_IT.FmtCurrency, ca_IT.FmtAccounting.
  rewrite (index_list_out_of_range _ _ H). split; reflexivity.
Qed.

Lemma chr_currency_out_of_range (l : locale_struct) (num : float64) (v : N)
    (c : nat) :
  (length (currencies l) <= c)%nat ->
  chr.FmtCurrency l num v c = Panic IndexOutOfRange
  /\ chr.FmtAccounting l num v c = Panic IndexOutOfRange.
Proof.
  intros H. unfold chr.FmtCurrency, chr.FmtAccounting.
  rewrite (index_list_out_of_range _ _ H). split; reflexivity.
Qed.

Lemma es_US_currency_out_of_range (l : locale_struct) (num : float64) (v : N)
    (c : nat) :
  (length (currencies l) <= c)%nat ->
  es_US.FmtCurrency l num v c = Panic IndexOutOfRange
  /\ es_US.FmtAccounting l num v c = Panic IndexOutOfRange.
Proof.
  intros H. unfold es_US.FmtCurrency, es_US.FmtAccounting.
  rewrite (index_list_out_of_range _ _ H). split; reflexivity.
Qed.

Lemma saq_KE_currency_out_of_range (l : locale_struct) (num : float64) (v : N)
    (c : nat) :
  (length (currencies l) <= c)%nat ->
  saq_KE.FmtCurrency l num v c = Panic IndexOutOfRange
  /\ saq_KE.FmtAccounting l num v c = Panic IndexOutOfRange.
Proof.
  intros H. unfold saq_KE.FmtCurrency, saq_KE.FmtAccounting.
  rewrite (index_list_out_of_range _ _ H). split; reflexivity.
Qed.

Lemma kw_currency_out_of_range (l : locale_struct) (num : float64) (v : N)
    (c : nat) :
  (length (currencies l) <= c)%nat ->
  kw.FmtCurrency l num v c = Panic IndexOutOfRange
  /\ kw.FmtAccounting l num v c = Panic IndexOutOfRange.
Proof.
  intros H. unfold kw.FmtCurrency, kw.FmtAccounting.
  rewrite (index_list_out_of_range _ _ H). split; reflexivity.
Qed.

Lemma rwk_currency_out_of_range (l : locale_struct) (num : float64) (v : N)
    (c : nat) :
  (length (currencies l) <= c)%nat ->
  rwk.FmtCurrency l num v c = Panic IndexOutOfRange
  /\ rwk.FmtAccounting l num v c = Panic IndexOutOfRange.
Proof.
  intros H. unfold rwk.FmtCurrency, rwk.FmtAccounting.
  rewrite (index_list_out_of_range _ _ H). split; reflexivity.
Qed.

Lemma en_NU_currency_out_of_range (l : locale_struct) (num : float64) (v : N)
    (c : nat) :
  (length (currencies l) <= c)%nat ->
  en_NU.FmtCurrency l num v c = Panic IndexOutOfRange
  /\ en_NU.FmtAccounting l num v c = Panic IndexOutOfRange.
Proof.
  intros H. unfold en_NU.FmtCurrency, en_NU.FmtAccounting.
  rewrite (index_list_out_of_range _ _ H). split; reflexivity.
Qed.

Section CurrencyIndex.

Variable F : float64 -> N -> Z.

(** X21.  In each of the nine packages a currency index beyond the
    currency table makes [FmtCurrency] and [FmtAccounting] panic with an
    index out of range, for every value and every precision: the symbol is
    read before any digit is written. *)
Theorem currency_beyond_the_table_panics (tr : Translator) (num : float64)
    (v : N) (c : nat) :
  In tr (translators F) ->
  (length (currencies (self tr)) <= c)%nat ->
  FmtCurrency tr num v c = Panic IndexOutOfRange
  /\ FmtAccounting tr num v c = Panic IndexOutOfRange.
Proof.
  intros Htr. cbn [In translators] in Htr.
  repeat (destruct Htr as [<- | Htr]); try contradiction.
  - apply bs_currency_out_of_range.
  - apply ksf_CM_currency_out_of_range.
  - apply ca_IT_currency_out_of_range.
  - apply chr_currency_out_of_range.
  - apply es_US_currency_out_of_range.
  - apply saq_KE_currency_out_of_range.
  - apply kw_currency_out_of_range.
  - apply rwk_currency_out_of_range.
  - apply en_NU_currency_out_of_range.
Qed.

End CurrencyIndex.

(** A use of X21 in rwk: there is no currency 1000. *)
Lemma currency_beyond_the_table_witness :
  In rwk.translator (translators (fun _ _ => 0%Z))
  /\ (length (currencies (self rwk.translator)) <= 1000)%nat
  /\ FmtCurrency rwk.translator (float_of_Z 5) 2 1000
     = Panic IndexOutOfRange.
Proof.
  assert (Hin : In rwk.translator (translators (fun _ _ => 0%Z)))
    by (unfold translators; cbn [In]; tauto).
  assert (Hc : (length (currencies (self rwk.translator)) <= 1000)%nat)
    by (apply Nat.leb_le; lazy; reflexivity).
  split; [exact Hin | split; [exact Hc |]].
  exact (proj1 (currency_beyond_the_table_panics (fun _ _ => 0%Z)
                  rwk.translator (float_of_Z 5) 2 1000 Hin Hc)).
Defined.

(** ** Ordinal and range rules *)

Lemma bs_cardinal_cases (F : float64 -> N -> Z) (l : locale_struct)
    (num : float64) (v : N) :
  bs.CardinalPluralRule F l num v = PluralRuleOne
  \/ bs.CardinalPluralRule F l num v = PluralRuleFew
  \/ bs.CardinalPluralRule F l num v = PluralRuleOther.
Proof.
  unfold bs.CardinalPluralRule.
  repeat match goal with
         | |- context [if ?c then _ else _] => destruct c
         end; auto.
Qed.

Section OrdinalAndRange.

Variable F : float64 -> N -> Z.

Lemma bs_range_end (l : locale_struct) (num1 : float64) (v1 : N)
    (num2 : float64) (v2 : N) :
  bs.RangePluralRule F l num1 v1 num2 v2 = bs.CardinalPluralRule F l num2 v2.
Proof.
  unfold bs.RangePluralRule.
  destruct (bs_cardinal_cases F l num1 v1) as [-> | [-> | ->]];
    destruct (bs_cardinal_cases F l num2 v2) as [-> | [-> | ->]];
    reflexivity.
Qed.

(** X8.  In bs the range rule of two endpoints is the cardinal category of
    the end of the range: the start of the range has no influence. *)
Theorem bs_range_is_category_of_end (num1 : float64) (v1 : N)
    (num2 : float64) (v2 : N) :
  bs.RangePluralRule F bs.New num1 v1 num2 v2
  = bs.CardinalPluralRule F bs.New num2 v2.
Proof. apply bs_range_end. Qed.

Lemma ca_IT_ordinal_declared (num : float64) (v : N) :
  In (ca_IT_plural.OrdinalPluralRule ca_IT.New num v)
     (ca_IT_plural.PluralsOrdinal ca_IT.New).
Proof.
  unfold ca_IT_plural.OrdinalPluralRule, ca_IT_plural.PluralsOrdinal.
  change (pluralsOrdinal ca_IT.New)
    with [PluralRuleOne; PluralRuleTwo; PluralRuleFew; PluralRuleOther].
  repeat match goal with
         | |- context [if ?c then _ else _] => destruct c
         end; simpl; auto.
Qed.

Lemma en_NU_ordinal_declared (num : float64) (v : N) :
  In (en_NU_plural.OrdinalPluralRule en_NU.New num v)
     (en_NU_plural.PluralsOrdinal en_NU.New).
Proof.
  unfold en_NU_plural.OrdinalPluralRule, en_NU_plural.PluralsOrdinal.
  change (pluralsOrdinal en_NU.New)
    with [PluralRuleOne; PluralRuleTwo; PluralRuleFew; PluralRuleOther].
  repeat match goal with
         | |- context [if ?c then _ else _] => destruct c
         end; simpl; auto.
Qed.

Lemma bs_range_declared (num1 : float64) (v1 : N) (num2 : float64)
    (v2 : N) :
  In (bs.RangePluralRule F bs.New num1 v1 num2 v2)
     (bs_plural.PluralsRange bs.New).
Proof.
  rewrite bs_range_end.
  change (bs_plural.PluralsRange bs.New)
    with [PluralRuleOne; PluralRuleFew; PluralRuleOther].
  destruct (bs_cardinal_cases F bs.New num2 v2) as [-> | [-> | ->]];
    simpl; auto.
Qed.

(** X7.  In each of the nine packages the ordinal rule and the range rule
    answer with a category of the list the package declares for them
    ([PluralsOrdinal], [PluralsRange]), for every value and every count of
    fraction digits; the packages that declare no ordinal or range
    category (ksf_CM, chr, saq_KE, kw, rwk) answer unknown. *)
Theorem ordinal_and_range_declared_or_unknown :
  Forall (fun r : PluralRules =>
            (forall (num : float64) (v : N),
                declared_or_unknown (PluralsOrdinal r)
                  (OrdinalPluralRule r num v))
            /\ (forall (num1 : float64) (v1 : N) (num2 : float64) (v2 : N),
                   declared_or_unknown (PluralsRange r)
                     (RangePluralRule r num1 v1 num2 v2)))
         (plural_rules F).
Proof.
  unfold plural_rules, declared_or_unknown.
  repeat (apply List.Forall_cons); try apply List.Forall_nil;
    (split; [intros num v | intros num1 v1 num2 v2]);
    try (right; split; reflexivity);
    try (left; simpl; auto; fail).
  - left. apply bs_range_declared.
  - left. apply ca_IT_ordinal_declared.
  - left. apply en_NU_ordinal_declared.
Qed.

End OrdinalAndRange.

(** ** The English ordinal rule *)

Lemma pow2_pos (e : N) : (0 < 2 ^ e)%N.
Proof. apply N.neq_0_lt_0, N.pow_nonzero. discriminate. Qed.

Lemma eqb_int_Mod (x : float64) (k m r : N) :
  (0 < m)%N ->
  eqb_int x k = true ->
  eqb_int (Mod x m) r = (k mod m =? r)%N.
Proof.
  intros Hm. unfold eqb_int, Mod.
  destruct (0 <=? f_exp x)%Z eqn:He; cbn [f_exp f_mant]; intros H.
  - apply N.eqb_eq in H. rewrite H. cbn. rewrite N.mul_1_r. reflexivity.
  - rewrite He. apply N.eqb_eq in H. rewrite H.
    set (P := (2 ^ Z.to_N (- f_exp x))%N).
    assert (HP : (0 < P)%N) by apply pow2_pos.
    rewrite N.Div0.mul_mod_distr_r.
    destruct (N.eqb_spec (k mod m) r) as [-> | Hne].
    + apply N.eqb_refl.
    + apply N.eqb_neq. intros E. apply Hne.
      apply N.mul_cancel_r in E; [exact E | lia].
Qed.

Lemma Mod_of_fraction (x : float64) (m r : N) :
  (0 < m)%N ->
  (forall k : N, eqb_int x k = false) ->
  eqb_int (Mod x m) r = false.
Proof.
  intros Hm Hx. unfold eqb_int, Mod.
  destruct (0 <=? f_exp x)%Z eqn:He; cbn [f_exp f_mant].
  - exfalso. specialize (Hx (f_mant x * 2 ^ Z.to_N (f_exp x))%N).
    unfold eqb_int in Hx. rewrite He, N.eqb_refl in Hx. discriminate.
  - rewrite He. set (P := (2 ^ Z.to_N (- f_exp x))%N).
    assert (HP : (0 < P)%N) by apply pow2_pos.
    apply N.eqb_neq. intros E.
    specialize (Hx (f_mant x / (m * P) * m + r)%N).
    unfold eqb_int in Hx. rewrite He in Hx. fold P in Hx.
    apply N.eqb_neq in Hx. apply Hx.
    rewrite (N.div_mod (f_mant x) (m * P)) at 1 by lia.
    rewrite E. lia.
Qed.

(** X9.  The ordinal rule of en_NU reads the value, not its sign or its
    count of fraction digits.  On a value that is the integer [k] (1.0 as
    well as 1) it is decided by the last two digits of [k]: one for 1, 21,
    31, ..., two for 2, 22, ..., few for 3, 23, ..., other for the rest, the
    teens 11, 12, 13 included.  A value with a fraction is other. *)
Theorem en_NU_ordinal_follows_last_digits (num : float64) (v : N) :
  (forall k : N,
      eqb_int (Abs num) k = true ->
      en_NU_plural.OrdinalPluralRule en_NU.New num v = english_ordinal k)
  /\ ((forall k : N, eqb_int (Abs num) k = false) ->
      en_NU_plural.OrdinalPluralRule en_NU.New num v = PluralRuleOther).
Proof.
  split.
  - intros k Hk. unfold en_NU_plural.OrdinalPluralRule, english_ordinal.
    cbv zeta.
    rewrite !(eqb_int_Mod (Abs num) k 10) by (assumption || reflexivity).
    rewrite !(eqb_int_Mod (Abs num) k 100) by (assumption || reflexivity).
    reflexivity.
  - intros Hx. unfold en_NU_plural.OrdinalPluralRule. cbv zeta.
    rewrite !(Mod_of_fraction (Abs num) 10) by (assumption || reflexivity).
    reflexivity.
Qed.

(** A use of X9: minus 22 is two, 12 is other, 2.5 is other. *)
Lemma en_NU_ordinal_witness :
  en_NU_plural.OrdinalPluralRule en_NU.New (float_of_Z (-22)) 0
  = PluralRuleTwo
  /\ en_NU_plural.OrdinalPluralRule en_NU.New (float_of_Z 12) 0
     = PluralRuleOther
  /\ en_NU_plural.OrdinalPluralRule en_NU.New (mkFloat false 5 (-1)) 1
     = PluralRuleOther.
Proof.
  split; [| split].
  - apply (proj1 (en_NU_ordinal_follows_last_digits (float_of_Z (-22)) 0)
             22%N).
    reflexivity.
  - apply (proj1 (en_NU_ordinal_follows_last_digits (float_of_Z 12) 0)
             12%N).
    reflexivity.
  - apply (proj2 (en_NU_ordinal_follows_last_digits
                    (mkFloat false 5 (-1)) 1)).
    intros k. change ((5 =? k * 2)%N = false). apply N.eqb_neq. lia.
Defined.

(** ** The time formats of a package against one another *)

Ltac medium_then_zone l t :=
  unfold medium_then, timezone_name; cbn [FmtTimeMedium bind];
  repeat match goal with
         | |- context [if ?c then _ else _] => destruct c
         end;
  repeat match goal with
         | |- context [index_list ?ps ?i] => destruct (index_list ps i)
         end;
  cbn [bind]; rewrite ?bytes_string_of_list;
  try destruct (timezones l !! Zone t);
  rewrite <- ?app_assoc; reflexivity.

Lemma bs_long_and_full (F : float64 -> N -> Z) (l : locale_struct)
    (t : Time) :
  let c := mkClock (bs.translator F) (bs_clock.FmtTimeShort l)
             (bs_clock.FmtTimeMedium l) (bs_clock.FmtTimeLong l) in
  bs_clock.FmtTimeLong l t = medium_then c t (Zone t)
  /\ bs.FmtTimeFull l t = medium_then c t (timezone_name l (Zone t)).
Proof.
  split; unfold bs_clock.FmtTimeLong, bs.FmtTimeFull;
    unfold bs_clock.FmtTimeMedium; medium_then_zone l t.
Qed.

Lemma ksf_CM_long_and_full (l : locale_struct) (t : Time) :
  let c := mkClock ksf_CM.translator (ksf_CM_clock.FmtTimeShort l)
             (ksf_CM_clock.FmtTimeMedium l) (ksf_CM_clock.FmtTimeLong l) in
  ksf_CM_clock.FmtTimeLong l t = medium_then c t (Zone t)
  /\ ksf_CM.FmtTimeFull l t = medium_then c t (timezone_name l (Zone t)).
Proof.
  split; unfold ksf_CM_clock.FmtTimeLong, ksf_CM.FmtTimeFull;
    unfold ksf_CM_clock.FmtTimeMedium; medium_then_zone l t.
Qed.

Lemma ca_IT_long_and_full (l : locale_struct) (t : Time) :
  let c := mkClock ca_IT.translator (ca_IT_clock.FmtTimeShort l)
             (ca_IT_clock.FmtTimeMedium l) (ca_IT_clock.FmtTimeLong l) in
  ca_IT_clock.FmtTimeLong l t = medium_then c t (Zone t)
  /\ ca_IT.FmtTimeFull l t = medium_then c t (timezone_name l (Zone t)).
Proof.
  split; unfold ca_IT_clock.FmtTimeLong, ca_IT.FmtTimeFull;
    unfold ca_IT_clock.FmtTimeMedium; medium_then_zone l t.
Qed.

Lemma chr_long_and_full (l : locale_struct) (t : Time) :
  let c := mkClock chr.translator (chr.FmtTimeShort l)
             (chr.FmtTimeMedium l) (chr.FmtTimeLong l) in
  chr.FmtTimeLong l t = medium_then c t (Zone t)
  /\ chr.FmtTimeFull l t = medium_then c t (timezone_name l (Zone t)).
Proof.
  split; unfold chr.FmtTimeLong, chr.FmtTimeFull;
    unfold chr.FmtTimeMedium; medium_then_zone l t.
Qed.

Lemma es_US_long_and_full (l : locale_struct) (t : Time) :
  let c := mkClock es_US.translator (es_US_clock.FmtTimeShort l)
             (es_US_clock.FmtTimeMedium l) (es_US_clock.FmtTimeLong l) in
  es_US_clock.FmtTimeLong l t = medium_then c t (Zone t)
  /\ es_US.FmtTimeFull l t = medium_then c t (timezone_name l (Zone t)).
Proof.
  split; unfold es_US_clock.FmtTimeLong, es_US.FmtTimeFull;
    unfold es_US_clock.FmtTimeMedium; medium_then_zone l t.
Qed.

Lemma saq_KE_long_and_full (l : locale_struct) (t : Time) :
  let c := mkClock saq_KE.translator (saq_KE_clock.FmtTimeShort l)
             (saq_KE_clock.FmtTimeMedium l) (saq_KE_clock.FmtTimeLong l) in
  saq_KE_clock.FmtTimeLong l t = medium_then c t (Zone t)
  /\ saq_KE.FmtTimeFull l t = medium_then c t (timezone_name l (Zone t)).
Proof.
  split; unfold saq_KE_clock.FmtTimeLong, saq_KE.FmtTimeFull;
    unfold saq_KE_clock.FmtTimeMedium; medium_then_zone l t.
Qed.

Lemma kw_long_and_full (l : locale_struct) (t : Time) :
  let c := mkClock kw.translator (kw_clock.FmtTimeShort l)
             (kw_clock.FmtTimeMedium l) (kw_clock.FmtTimeLong l) in
  kw_clock.FmtTimeLong l t = medium_then c t (Zone t)
  /\ kw.FmtTimeFull l t = medium_then c t (timezone_name l (Zone t)).
Proof.
  split; unfold kw_clock.FmtTimeLong, kw.FmtTimeFull;
    unfold kw_clock.FmtTimeMedium; medium_then_zone l t.
Qed.

Lemma rwk_long_and_full (l : locale_struct) (t : Time) :
  let c := mkClock rwk.translator (rwk_clock.FmtTimeShort l)
             (rwk_clock.FmtTimeMedium l) (rwk_clock.FmtTimeLong l) in
  rwk_clock.FmtTimeLong l t = medium_then c t (Zone t)
  /\ rwk.FmtTimeFull l t = medium_then c t (timezone_name l (Zone t)).
Proof.
  split; unfold rwk_clock.FmtTimeLong, rwk.FmtTimeFull;
    unfold rwk_clock.FmtTimeMedium; medium_then_zone l t.
Qed.

Lemma en_NU_long_and_full (l : locale_struct) (t : Time) :
  let c := mkClock en_NU.translator (en_NU_clock.FmtTimeShort l)
             (en_NU_clock.FmtTimeMedium l) (en_NU_clock.FmtTimeLong l) in
  en_NU_clock.FmtTimeLong l t = medium_then c t (Zone t)
  /\ en_NU.FmtTimeFull l t = medium_then c t (timezone_name l (Zone t)).
Proof.
  split; unfold en_NU_clock.FmtTimeLong, en_NU.FmtTimeFull;
    unfold en_NU_clock.FmtTimeMedium; medium_then_zone l t.
Qed.

Section Clocks.

Variable F : float64 -> N -> Z.

(** X10.  In each of the nine packages the long time format is the medium
    format followed by a space and the zone abbreviation of the time, and
    the full format is the medium format followed by a space and the full
    zone name of the package's table, or the abbreviation when the table
    has no entry for it.  The three formats fail together. *)
Theorem long_and_full_time_extend_medium :
  Forall (fun c : Clock =>
            forall t : Time,
              FmtTimeLong c t = medium_then c t (Zone t)
              /\ FmtTimeFull (clock_translator c) t
                 = medium_then c t
                     (timezone_name (self (clock_translator c)) (Zone t)))
         (clocks F).
Proof.
  unfold clocks.
  repeat (apply List.Forall_cons); try apply List.Forall_nil; intros t.
  - exact (bs_long_and_full F bs.New t).
  - exact (ksf_CM_long_and_full ksf_CM.New t).
  - exact (ca_IT_long_and_full ca_IT.New t).
  - exact (chr_long_and_full chr.New t).
  - exact (es_US_long_and_full es_US.New t).
  - exact (saq_KE_long_and_full saq_KE.New t).
  - exact (kw_long_and_full kw.New t).
  - exact (rwk_long_and_full rwk.New t).
  - exact (en_NU_long_and_full en_NU.New t).
Qed.

End Clocks.

(** ** Two digits a field *)

Lemma append_padded_app (b : list ascii) (n : Z) :
  append_padded b n = b ++ append_padded [] n.
Proof.
  unfold append_padded, AppendInt. destruct (n <? 10)%Z.
  - rewrite <- app_assoc. reflexivity.
  - reflexivity.
Qed.

Lemma below_100_cases (P : Z -> Prop) :
  (forall k : nat, (k < 100)%nat -> P (Z.of_nat k)) ->
  forall n : Z, (0 <= n < 100)%Z -> P n.
Proof.
  intros H n Hn. replace n with (Z.of_nat (Z.to_nat n)) by lia.
  apply H. lia.
Qed.

Lemma append_padded_two_digits (b : list ascii) (n : Z) :
  (0 <= n < 100)%Z -> append_padded b n = b ++ two_digits n.
Proof.
  intros Hn. rewrite append_padded_app. f_equal. revert n Hn.
  apply below_100_cases. intros k Hk.
  do 100 (destruct k as [| k]; [vm_compute; reflexivity |]).
  lia.
Qed.

Ltac two_digit_fields Hsep H :=
  rewrite Hsep; destruct H as (Hh & Hm & Hs);
  rewrite !(append_padded_two_digits _ (Second _)) by lia;
  rewrite ?(append_padded_two_digits _ (Minute _)) by lia;
  rewrite ?(append_padded_two_digits _ (Hour _)) by lia;
  cbn [app bytes list_ascii_of_string]; rewrite <- ?app_assoc;
  cbn [app]; rewrite ?app_nil_r.

Lemma bs_padded_fields (l : locale_struct) (t : Time) :
  timeSeparator l = ":" -> valid_clock t ->
  bs_clock.FmtTimeShort l t
  = Ok (string_of_list_ascii
          (two_digits (Hour t) ++ ":"%char :: two_digits (Minute t)))
  /\ bs_clock.FmtTimeMedium l t
     = Ok (string_of_list_ascii (clock_text two_digits (fun _ => []) t)).
Proof.
  intros Hsep H.
  unfold bs_clock.FmtTimeShort, bs_clock.FmtTimeMedium, clock_text.
  two_digit_fields Hsep H. split; reflexivity.
Qed.

Lemma ksf_CM_padded_fields (l : locale_struct) (t : Time) :
  timeSeparator l = ":" -> valid_clock t ->
  ksf_CM_clock.FmtTimeShort l t
  = Ok (string_of_list_ascii
          (two_digits (Hour t) ++ ":"%char :: two_digits (Minute t)))
  /\ ksf_CM_clock.FmtTimeMedium l t
     = Ok (string_of_list_ascii (clock_text two_digits (fun _ => []) t)).
Proof.
  intros Hsep H.
  unfold ksf_CM_clock.FmtTimeShort, ksf_CM_clock.FmtTimeMedium, clock_text.
  two_digit_fields Hsep H. split; reflexivity.
Qed.

Lemma saq_KE_padded_fields (l : locale_struct) (t : Time) :
  timeSeparator l = ":" -> valid_clock t ->
  saq_KE_clock.FmtTimeShort l t
  = Ok (string_of_list_ascii
          (two_digits (Hour t) ++ ":"%char :: two_digits (Minute t)))
  /\ saq_KE_clock.FmtTimeMedium l t
     = Ok (string_of_list_ascii (clock_text two_digits (fun _ => []) t)).
Proof.
  intros Hsep H.
  unfold saq_KE_clock.FmtTimeShort, saq_KE_clock.FmtTimeMedium, clock_text.
  two_digit_fields Hsep H. split; reflexivity.
Qed.

Lemma kw_padded_fields (l : locale_struct) (t : Time) :
  timeSeparator l = ":" -> valid_clock t ->
  kw_clock.FmtTimeShort l t
  = Ok (string_of_list_ascii
          (two_digits (Hour t) ++ ":"%char :: two_digits (Minute t)))
  /\ kw_clock.FmtTimeMedium l t
     = Ok (string_of_list_ascii (clock_text two_digits (fun _ => []) t)).
Proof.
  intros Hsep H.
  unfold kw_clock.FmtTimeShort, kw_clock.FmtTimeMedium, clock_text.
  two_digit_fields Hsep H. split; reflexivity.
Qed.

Lemma rwk_padded_fields (l : locale_struct) (t : Time) :
  timeSeparator l = ":" -> valid_clock t ->
  rwk_clock.FmtTimeShort l t
  = Ok (string_of_list_ascii
          (two_digits (Hour t) ++ ":"%char :: two_digits (Minute t)))
  /\ rwk_clock.FmtTimeMedium l t
     = Ok (string_of_list_ascii (clock_text two_digits (fun _ => []) t)).
Proof.
  intros Hsep H.
  unfold rwk_clock.FmtTimeShort, rwk_clock.FmtTimeMedium, clock_text.
  two_digit_fields Hsep H. split; reflexivity.
Qed.

Lemma en_NU_padded_fields (l : locale_struct) (t : Time) :
  timeSeparator l = ":" -> valid_clock t ->
  en_NU_clock.FmtTimeShort l t
  = Ok (string_of_list_ascii
          (two_digits (Hour t) ++ ":"%char :: two_digits (Minute t)))
  /\ en_NU_clock.FmtTimeMedium l t
     = Ok (string_of_list_ascii (clock_text two_digits (fun _ => []) t)).
Proof.
  intros Hsep H.
  unfold en_NU_clock.FmtTimeShort, en_NU_clock.FmtTimeMedium, clock_text.
  two_digit_fields Hsep H. split; reflexivity.
Qed.

Lemma ca_IT_clock_text (l : locale_struct) (t : Time) :
  timeSeparator l = ":" -> valid_clock t ->
  ca_IT_clock.FmtTimeMedium l t
  = Ok (string_of_list_ascii
          (clock_text (fun h => bytes (Itoa h)) (fun _ => []) t)).
Proof.
  intros Hsep H. unfold ca_IT_clock.FmtTimeMedium, clock_text, AppendInt.
  two_digit_fields Hsep H. reflexivity.
Qed.

Lemma chr_clock_text (l : locale_struct) (p0 p1 : string) (t : Time) :
  timeSeparator l = ":" -> periodsAbbreviated l = [p0; p1] ->
  valid_clock t ->
  chr.FmtTimeMedium l t
  = Ok (string_of_list_ascii
          (clock_text (fun h => bytes (Itoa (printed_hour h)))
             (fun h => " "%char :: bytes (if (h <? 12)%Z then p0 else p1))
             t)).
Proof.
  intros Hsep Hp H. unfold chr.FmtTimeMedium, clock_text, AppendInt,
    printed_hour. rewrite Hp. two_digit_fields Hsep H.
  destruct (Hour t <? 12)%Z; cbn; rewrite <- ?app_assoc; reflexivity.
Qed.

Lemma es_US_clock_text (l : locale_struct) (p0 p1 : string) (t : Time) :
  timeSeparator l = ":" -> periodsAbbreviated l = [p0; p1] ->
  valid_clock t ->
  es_US_clock.FmtTimeMedium l t
  = Ok (string_of_list_ascii
          (clock_text (fun h => bytes (Itoa (printed_hour h)))
             (fun h => " "%char :: bytes (if (h <? 12)%Z then p0 else p1))
             t)).
Proof.
  intros Hsep Hp H. unfold es_US_clock.FmtTimeMedium, clock_text, AppendInt,
    printed_hour. rewrite Hp. two_digit_fields Hsep H.
  destruct (Hour t <? 12)%Z; cbn; rewrite <- ?app_assoc; reflexivity.
Qed.

(** *** Reading the fields back *)

Lemma digit_inj (a b : Z) :
  (0 <= a < 10)%Z -> (0 <= b < 10)%Z -> digit a = digit b -> a = b.
Proof.
  intros Ha Hb E. unfold digit in E.
  apply (f_equal N_of_ascii) in E.
  rewrite !N_ascii_embedding in E by lia. lia.
Qed.

Lemma two_digits_inj (a b : Z) :
  (0 <= a < 100)%Z -> (0 <= b < 100)%Z -> two_digits a = two_digits b ->
  a = b.
Proof.
  intros Ha Hb E. unfold two_digits in E. injection E as E1 E2.
  apply digit_inj in E1;
    [| split; [apply Z.div_pos | apply Z.div_lt_upper_bound]; lia ..].
  apply digit_inj in E2; [| apply Z.mod_pos_bound; lia ..].
  rewrite (Z.div_mod a 10), (Z.div_mod b 10) by lia. lia.
Qed.

Lemma digit_is_digit (d : Z) : (0 <= d < 10)%Z -> is_digit (digit d) = true.
Proof.
  intros H. unfold is_digit, digit. rewrite N_ascii_embedding by lia.
  apply andb_true_intro. split; apply N.leb_le; lia.
Qed.

Lemma two_digits_are_digits (n : Z) :
  (0 <= n < 100)%Z -> Forall (fun c => is_digit c = true) (two_digits n).
Proof.
  intros H. unfold two_digits.
  repeat apply List.Forall_cons; try apply List.Forall_nil;
    apply digit_is_digit.
  - split; [apply Z.div_pos | apply Z.div_lt_upper_bound]; lia.
  - apply Z.mod_pos_bound. lia.
Qed.

Lemma Itoa_digits (n : Z) :
  (0 <= n)%Z -> Forall (fun c => is_digit c = true) (bytes (Itoa n)).
Proof.
  intros H. unfold Itoa. rewrite bytes_string_of_list.
  destruct (n <? 0)%Z eqn:E; [apply Z.ltb_lt in E; lia |].
  apply decimal_digits_are_digits.
Qed.

Lemma decimal_digits_inj (a b : N) :
  decimal_digits a = decimal_digits b -> a = b.
Proof.
  unfold decimal_digits. intros E.
  apply (f_equal string_of_list_ascii) in E.
  rewrite !string_of_list_ascii_of_string in E.
  apply (f_equal NilEmpty.uint_of_string) in E.
  rewrite !NilEmpty.usu in E. injection E as E.
  apply (f_equal N.of_uint) in E.
  rewrite !DecimalN.Unsigned.of_to in E. exact E.
Qed.

Lemma Itoa_inj (a b : Z) :
  (0 <= a)%Z -> (0 <= b)%Z -> Itoa a = Itoa b -> a = b.
Proof.
  intros Ha Hb E. unfold Itoa in E.
  destruct (a <? 0)%Z eqn:Ea; [apply Z.ltb_lt in Ea; lia |].
  destruct (b <? 0)%Z eqn:Eb; [apply Z.ltb_lt in Eb; lia |].
  apply (f_equal bytes) in E. rewrite !bytes_string_of_list in E.
  apply decimal_digits_inj in E. lia.
Qed.

Lemma digits_then_colon (xs ys r1 r2 : list ascii) :
  Forall (fun c => is_digit c = true) xs ->
  Forall (fun c => is_digit c = true) ys ->
  xs ++ ":"%char :: r1 = ys ++ ":"%char :: r2 ->
  xs = ys /\ r1 = r2.
Proof.
  revert ys. induction xs as [| x xs IH]; intros [| y ys] Hx Hy E.
  - injection E as E. split; [reflexivity | exact E].
  - exfalso. injection E as E _. subst y.
    apply List.Forall_inv in Hy. discriminate Hy.
  - exfalso. injection E as E _. subst x.
    apply List.Forall_inv in Hx. discriminate Hx.
  - injection E as E1 E2. subst y.
    destruct (IH ys (List.Forall_inv_tail Hx) (List.Forall_inv_tail Hy) E2)
      as [-> ->].
    split; reflexivity.
Qed.

Lemma clock_text_fields (hour tail : Z -> list ascii) (t1 t2 : Time) :
  (forall h, (0 <= h < 24)%Z ->
             Forall (fun c => is_digit c = true) (hour h)) ->
  valid_clock t1 -> valid_clock t2 ->
  clock_text hour tail t1 = clock_text hour tail t2 ->
  hour (Hour t1) = hour (Hour t2)
  /\ tail (Hour t1) = tail (Hour t2)
  /\ Minute t1 = Minute t2 /\ Second t1 = Second t2.
Proof.
  intros Hd (Hh1 & Hm1 & Hs1) (Hh2 & Hm2 & Hs2) E. unfold clock_text in E.
  apply digits_then_colon in E; [| apply Hd; assumption ..].
  destruct E as [E1 E].
  apply (digits_then_colon (two_digits _) (two_digits _)) in E;
    [| apply two_digits_are_digits; lia ..].
  destruct E as [E2 E].
  assert (E3 : two_digits (Second t1) = two_digits (Second t2)
               /\ tail (Hour t1) = tail (Hour t2)).
  { unfold two_digits in E |- *. cbn [app] in E.
    injection E as -> -> E. split; [reflexivity | exact E]. }
  destruct E3 as [E3 E4].
  apply two_digits_inj in E2; [| lia ..].
  apply two_digits_inj in E3; [| lia ..].
  auto.
Qed.

Lemma Ok_text_inj (xs ys : list ascii) :
  Ok (string_of_list_ascii xs) = Ok (string_of_list_ascii ys) -> xs = ys.
Proof.
  intros E. injection E as E. apply (f_equal bytes) in E.
  now rewrite !bytes_string_of_list in E.
Qed.

Lemma padded_clock_inj (t1 t2 : Time) :
  valid_clock t1 -> valid_clock t2 ->
  clock_text two_digits (fun _ => []) t1
  = clock_text two_digits (fun _ => []) t2 ->
  clock_fields t1 = clock_fields t2.
Proof.
  intros H1 H2 E.
  apply clock_text_fields in E; try assumption;
    [| intros h Hh; apply two_digits_are_digits; lia].
  destruct E as (Eh & _ & Em & Es).
  destruct H1 as (Hh1 & _), H2 as (Hh2 & _).
  apply two_digits_inj in Eh; [| lia ..].
  unfold clock_fields. congruence.
Qed.

Lemma plain_clock_inj (t1 t2 : Time) :
  valid_clock t1 -> valid_clock t2 ->
  clock_text (fun h => bytes (Itoa h)) (fun _ => []) t1
  = clock_text (fun h => bytes (Itoa h)) (fun _ => []) t2 ->
  clock_fields t1 = clock_fields t2.
Proof.
  intros H1 H2 E.
  apply clock_text_fields in E; try assumption;
    [| intros h Hh; apply Itoa_digits; lia].
  destruct E as (Eh & _ & Em & Es).
  destruct H1 as (Hh1 & _), H2 as (Hh2 & _).
  apply (f_equal string_of_list_ascii) in Eh.
  rewrite !string_of_bytes in Eh. apply Itoa_inj in Eh; [| lia ..].
  unfold clock_fields. congruence.
Qed.

Lemma period_clock_inj (p0 p1 : string) (t1 t2 : Time) :
  p0 <> p1 ->
  valid_clock t1 -> valid_clock t2 ->
  clock_text (fun h => bytes (Itoa (printed_hour h)))
    (fun h => " "%char :: bytes (if (h <? 12)%Z then p0 else p1)) t1
  = clock_text (fun h => bytes (Itoa (printed_hour h)))
      (fun h => " "%char :: bytes (if (h <? 12)%Z then p0 else p1)) t2 ->
  clock_fields t1 = clock_fields t2.
Proof.
  intros Hp H1 H2 E.
  apply clock_text_fields in E; try assumption.
  2: { intros h Hh. apply Itoa_digits. unfold printed_hour.
       destruct (Z.ltb_spec 12 h); lia. }
  destruct E as (Eh & Et & Em & Es).
  destruct H1 as (Hh1 & _), H2 as (Hh2 & _).
  apply (f_equal string_of_list_ascii) in Eh.
  rewrite !string_of_bytes in Eh.
  apply Itoa_inj in Eh;
    [| unfold printed_hour;
       match goal with
       | |- context [(12 <? ?h)%Z] => destruct (Z.ltb_spec 12 h); lia
       end ..].
  injection Et as Et. apply (f_equal string_of_list_ascii) in Et.
  rewrite !string_of_bytes in Et.
  assert (Eh' : Hour t1 = Hour t2).
  { unfold printed_hour in Eh.
    destruct (Z.ltb_spec (Hour t1) 12), (Z.ltb_spec (Hour t2) 12);
      try (exfalso; apply Hp; congruence);
      destruct (Z.ltb_spec 12 (Hour t1)), (Z.ltb_spec 12 (Hour t2));
      lia. }
  unfold clock_fields. congruence.
Qed.

Section ClockFields.

Variable F : float64 -> N -> Z.

(** X11.  In bs, ksf_CM, saq_KE, kw, rwk and en_NU the short and the
    medium time format of a time of day are two digits for each field
    with a colon between them: HH:MM and HH:MM:SS, zero-padded. *)
Theorem padded_clocks_write_two_digits (c : Clock) (t : Time) :
  In c (padded_clocks F) ->
  valid_clock t ->
  FmtTimeShort c t
  = Ok (string_of_list_ascii
          (two_digits (Hour t) ++ ":"%char :: two_digits (Minute t)))
  /\ FmtTimeMedium c t
     = Ok (string_of_list_ascii
             (two_digits (Hour t) ++ ":"%char :: two_digits (Minute t)
              ++ ":"%char :: two_digits (Second t))).
Proof.
  intros Hc H. cbn [In padded_clocks] in Hc.
  assert (E : clock_text two_digits (fun _ => []) t
              = two_digits (Hour t) ++ ":"%char :: two_digits (Minute t)
                ++ ":"%char :: two_digits (Second t)).
  { unfold clock_text. rewrite app_nil_r. reflexivity. }
  rewrite <- E.
  repeat (destruct Hc as [<- | Hc]); try contradiction.
  - apply (bs_padded_fields bs.New t); [reflexivity | exact H].
  - apply (ksf_CM_padded_fields ksf_CM.New t); [reflexivity | exact H].
  - apply (saq_KE_padded_fields saq_KE.New t); [reflexivity | exact H].
  - apply (kw_padded_fields kw.New t); [reflexivity | exact H].
  - apply (rwk_padded_fields rwk.New t); [reflexivity | exact H].
  - apply (en_NU_padded_fields en_NU.New t); [reflexivity | exact H].
Qed.

(** X12.  In each of the nine packages the medium time format tells the
    time: two times of day with the same medium text have the same hour,
    minute and second.  This holds for the 12-hour clocks of chr and es_US
    too, where the period name tells the halves of the day apart. *)
Theorem medium_time_tells_the_time (c : Clock) (t1 t2 : Time) :
  In c (clocks F) ->
  valid_clock t1 -> valid_clock t2 ->
  FmtTimeMedium c t1 = FmtTimeMedium c t2 ->
  clock_fields t1 = clock_fields t2.
Proof.
  intros Hc H1 H2. cbn [In clocks] in Hc.
  repeat (destruct Hc as [<- | Hc]); try contradiction;
    cbn [FmtTimeMedium bs_clock.clock ksf_CM_clock.clock ca_IT_clock.clock
         chr_clock es_US_clock.clock saq_KE_clock.clock kw_clock.clock
         rwk_clock.clock en_NU_clock.clock]; intros E.
  - rewrite (proj2 (bs_padded_fields bs.New t1 eq_refl H1)),
      (proj2 (bs_padded_fields bs.New t2 eq_refl H2)) in E.
    apply Ok_text_inj in E. now apply padded_clock_inj.
  - rewrite (proj2 (ksf_CM_padded_fields ksf_CM.New t1 eq_refl H1)),
      (proj2 (ksf_CM_padded_fields ksf_CM.New t2 eq_refl H2)) in E.
    apply Ok_text_inj in E. now apply padded_clock_inj.
  - rewrite (ca_IT_clock_text ca_IT.New t1 eq_refl H1),
      (ca_IT_clock_text ca_IT.New t2 eq_refl H2) in E.
    apply Ok_text_inj in E. now apply plain_clock_inj.
  - rewrite (chr_clock_text chr.New _ _ t1 eq_refl eq_refl H1),
      (chr_clock_text chr.New _ _ t2 eq_refl eq_refl H2) in E.
    apply Ok_text_inj in E. apply period_clock_inj in E; try assumption.
    discriminate.
  - rewrite (es_US_clock_text es_US.New _ _ t1 eq_refl eq_refl H1),
      (es_US_clock_text es_US.New _ _ t2 eq_refl eq_refl H2) in E.
    apply Ok_text_inj in E. apply period_clock_inj in E; try assumption.
    discriminate.
  - rewrite (proj2 (saq_KE_padded_fields saq_KE.New t1 eq_refl H1)),
      (proj2 (saq_KE_padded_fields saq_KE.New t2 eq_refl H2)) in E.
    apply Ok_text_inj in E. now apply padded_clock_inj.
  - rewrite (proj2 (kw_padded_fields kw.New t1 eq_refl H1)),
      (proj2 (kw_padded_fields kw.New t2 eq_refl H2)) in E.
    apply Ok_text_inj in E. now apply padded_clock_inj.
  - rewrite (proj2 (rwk_padded_fields rwk.New t1 eq_refl H1)),
      (proj2 (rwk_padded_fields rwk.New t2 eq_refl H2)) in E.
    apply Ok_text_inj in E. now apply padded_clock_inj.
  - rewrite (proj2 (en_NU_padded_fields en_NU.New t1 eq_refl H1)),
      (proj2 (en_NU_padded_fields en_NU.New t2 eq_refl H2)) in E.
    apply Ok_text_inj in E. now apply padded_clock_inj.
Qed.

End ClockFields.

(** A use of X11 in en_NU: five minutes and seven seconds past nine. *)
Lemma padded_clocks_witness :
  In en_NU_clock.clock (padded_clocks (fun _ _ => 0%Z))
  /\ valid_clock (mkTime 2024 1 2 9 5 7 "EST")
  /\ FmtTimeMedium en_NU_clock.clock (mkTime 2024 1 2 9 5 7 "EST")
     = Ok "09:05:07".
Proof.
  assert (Hin : In en_NU_clock.clock (padded_clocks (fun _ _ => 0%Z)))
    by (unfold padded_clocks; cbn [In]; tauto).
  assert (Hv : valid_clock (mkTime 2024 1 2 9 5 7 "EST"))
    by (unfold valid_clock; cbn; lia).
  split; [exact Hin | split; [exact Hv |]].
  etransitivity;
    [exact (proj2 (padded_clocks_write_two_digits (fun _ _ => 0%Z)
                     en_NU_clock.clock (mkTime 2024 1 2 9 5 7 "EST")
                     Hin Hv))
    | vm_compute; reflexivity].
Defined.

(** A use of X12 in chr: two days, the same time of the afternoon. *)
Lemma medium_time_witness :
  In chr_clock (clocks (fun _ _ => 0%Z))
  /\ valid_clock (mkTime 2024 1 2 13 5 7 "EST")
  /\ valid_clock (mkTime 1999 12 31 13 5 7 "UTC")
  /\ FmtTimeMedium chr_clock (mkTime 2024 1 2 13 5 7 "EST")
     = FmtTimeMedium chr_clock (mkTime 1999 12 31 13 5 7 "UTC")
  /\ clock_fields (mkTime 2024 1 2 13 5 7 "EST")
     = clock_fields (mkTime 1999 12 31 13 5 7 "UTC").
Proof.
  assert (Hin : In chr_clock (clocks (fun _ _ => 0%Z)))
    by (unfold clocks; cbn [In]; tauto).
  assert (Hv1 : valid_clock (mkTime 2024 1 2 13 5 7 "EST"))
    by (unfold valid_clock; cbn; lia).
  assert (Hv2 : valid_clock (mkTime 1999 12 31 13 5 7 "UTC"))
    by (unfold valid_clock; cbn; lia).
  assert (E : FmtTimeMedium chr_clock (mkTime 2024 1 2 13 5 7 "EST")
              = FmtTimeMedium chr_clock (mkTime 1999 12 31 13 5 7 "UTC"))
    by (vm_compute; reflexivity).
  repeat (split; [assumption |]).
  exact (medium_time_tells_the_time (fun _ _ => 0%Z) chr_clock _ _
           Hin Hv1 Hv2 E).
Defined.

(** ** Calendar names *)

Ltac names_agree_on_table :=
  eexists; split; [reflexivity | split; [reflexivity |]];
  let i := fresh "i" in
  let Hi := fresh "Hi" in
  intros i Hi;
  repeat (destruct i as [| i];
          [solve [eexists; split;
                  [reflexivity | split; [discriminate | reflexivity]]]
          |]);
  lia.

(** X13.  In each of the nine packages the month methods and the weekday
    methods agree: [MonthsAbbreviated()] and [MonthsWide()] list twelve
    names, none empty, and [MonthAbbreviated(m)], [MonthWide(m)] return
    the name at position [m - 1] for the months 1 to 12; the weekday lists
    hold seven names, and [WeekdayAbbreviated(d)], [WeekdayWide(d)] return
    the name at position [d] for the weekdays 0 to 6. *)
Theorem month_and_weekday_names_agree :
  Forall (fun c : Calendar =>
            names_agree (MonthAbbreviated (names c))
              (MonthsAbbreviated (names c)) 1 12
            /\ names_agree (MonthWide (names c)) (MonthsWide (names c)) 1 12
            /\ names_agree (WeekdayAbbreviated (names c))
                 (Ok (WeekdaysAbbreviated (names c))) 0 7
            /\ names_agree (WeekdayWide (names c))
                 (Ok (WeekdaysWide (names c))) 0 7)
         calendars.
Proof.
  unfold calendars.
  repeat (apply List.Forall_cons); try apply List.Forall_nil;
    repeat split; names_agree_on_table.
Qed.

Lemma index_int_nil {A : Type} (i : Z) :
  index_int (@nil A) i = Panic IndexOutOfRange.
Proof.
  unfold index_int, index_list. destruct (0 <=? i)%Z; reflexivity.
Qed.

(** X14.  The packages that set no table of narrow month names (ksf_CM,
    kw) panic in [MonthNarrow] for every month, while their
    [MonthsNarrow()] returns the empty list; the packages that set no
    table of short weekday names (ksf_CM, saq_KE, kw, rwk) panic in
    [WeekdayShort] for every weekday, and kw, which sets no narrow
    weekday names either, panics in [WeekdayNarrow]. *)
Theorem missing_name_tables_panic :
  Forall (fun c : Calendar =>
            MonthsNarrow c = Ok []
            /\ forall month : Z,
                 MonthNarrow (names c) month = Panic IndexOutOfRange)
         calendars_without_narrow_months
  /\ Forall (fun c : Calendar =>
               WeekdaysShort (names c) = []
               /\ forall weekday : Z,
                    WeekdayShort (names c) weekday = Panic IndexOutOfRange)
            calendars_without_short_weekdays
  /\ WeekdaysNarrow (names kw_date.calendar) = []
  /\ (forall weekday : Z,
         WeekdayNarrow (names kw_date.calendar) weekday
         = Panic IndexOutOfRange).
Proof.
  split; [| split; [| split; [reflexivity |]]].
  - unfold calendars_without_narrow_months.
    repeat (apply List.Forall_cons); try apply List.Forall_nil;
      (split; [reflexivity | intros month; apply index_int_nil]).
  - unfold calendars_without_short_weekdays.
    repeat (apply List.Forall_cons); try apply List.Forall_nil;
      (split; [reflexivity | intros weekday; apply index_int_nil]).
  - intros weekday. apply (@index_int_nil string).
Qed.

(** ** The date formats of a package against one another *)

Ltac full_after_long l t weekday :=
  destruct (index_int (daysWide l) weekday); [| reflexivity];
  destruct (index_int (monthsWide l) (Month t)); [| reflexivity];
  cbn [bind]; rewrite bytes_string_of_list; unfold AppendInt;
  destruct (0 <? Year t)%Z; cbn [app]; rewrite <- ?app_assoc; cbn [app];
  reflexivity.

Lemma bs_full_after_long (l : calendar_struct) (t : Time) (weekday : Z) :
  bs_date.FmtDateFull l t weekday
  = let* d := WeekdayWide l weekday in
    let* long := bs_date.FmtDateLong l t in
    Ok (string_of_list_ascii (bytes d ++ [","%char; " "%char] ++ bytes long)).
Proof.
  unfold bs_date.FmtDateFull, bs_date.FmtDateLong, WeekdayWide.
  full_after_long l t weekday.
Qed.

Lemma ksf_CM_full_after_long (l : calendar_struct) (t : Time) (weekday : Z) :
  ksf_CM_date.FmtDateFull l t weekday
  = let* d := WeekdayWide l weekday in
    let* long := ksf_CM_date.FmtDateLong l t in
    Ok (string_of_list_ascii (bytes d ++ [" "%char] ++ bytes long)).
Proof.
  unfold ksf_CM_date.FmtDateFull, ksf_CM_date.FmtDateLong, WeekdayWide.
  full_after_long l t weekday.
Qed.

Lemma ca_IT_full_after_long (l : calendar_struct) (t : Time) (weekday : Z) :
  ca_IT_date.FmtDateFull l t weekday
  = let* d := WeekdayWide l weekday in
    let* long := ca_IT_date.FmtDateLong l t in
    Ok (string_of_list_ascii (bytes d ++ [","%char; " "%char] ++ bytes long)).
Proof.
  unfold ca_IT_date.FmtDateFull, ca_IT_date.FmtDateLong, WeekdayWide.
  full_after_long l t weekday.
Qed.

Lemma chr_full_after_long (l : calendar_struct) (t : Time) (weekday : Z) :
  chr_date.FmtDateFull l t weekday
  = let* d := WeekdayWide l weekday in
    let* long := chr_date.FmtDateLong l t in
    Ok (string_of_list_ascii (bytes d ++ [","%char; " "%char] ++ bytes long)).
Proof.
  unfold chr_date.FmtDateFull, chr_date.FmtDateLong, WeekdayWide.
  full_after_long l t weekday.
Qed.

Lemma es_US_full_after_long (l : calendar_struct) (t : Time) (weekday : Z) :
  es_US_date.FmtDateFull l t weekday
  = let* d := WeekdayWide l weekday in
    let* long := es_US_date.FmtDateLong l t in
    Ok (string_of_list_ascii (bytes d ++ [","%char; " "%char] ++ bytes long)).
Proof.
  unfold es_US_date.FmtDateFull, es_US_date.FmtDateLong, WeekdayWide.
  full_after_long l t weekday.
Qed.

Lemma saq_KE_full_after_long (l : calendar_struct) (t : Time) (weekday : Z) :
  saq_KE_date.FmtDateFull l t weekday
  = let* d := WeekdayWide l weekday in
    let* long := saq_KE_date.FmtDateLong l t in
    Ok (string_of_list_ascii (bytes d ++ [","%char; " "%char] ++ bytes long)).
Proof.
  unfold saq_KE_date.FmtDateFull, saq_KE_date.FmtDateLong, WeekdayWide.
  full_after_long l t weekday.
Qed.

Lemma kw_full_after_long (l : calendar_struct) (t : Time) (weekday : Z) :
  kw_date.FmtDateFull l t weekday
  = let* d := WeekdayWide l weekday in
    let* long := kw_date.FmtDateLong l t in
    Ok (string_of_list_ascii (bytes d ++ [" "%char] ++ bytes long)).
Proof.
  unfold kw_date.FmtDateFull, kw_date.FmtDateLong, WeekdayWide.
  full_after_long l t weekday.
Qed.

Lemma rwk_full_after_long (l : calendar_struct) (t : Time) (weekday : Z) :
  rwk_date.FmtDateFull l t weekday
  = let* d := WeekdayWide l weekday in
    let* long := rwk_date.FmtDateLong l t in
    Ok (string_of_list_ascii (bytes d ++ [","%char; " "%char] ++ bytes long)).
Proof.
  unfold rwk_date.FmtDateFull, rwk_date.FmtDateLong, WeekdayWide.
  full_after_long l t weekday.
Qed.

Lemma en_NU_full_after_long (l : calendar_struct) (t : Time) (weekday : Z) :
  en_NU_date.FmtDateFull l t weekday
  = let* d := WeekdayWide l weekday in
    let* long := en_NU_date.FmtDateLong l t in
    Ok (string_of_list_ascii (bytes d ++ [","%char; " "%char] ++ bytes long)).
Proof.
  unfold en_NU_date.FmtDateFull, en_NU_date.FmtDateLong, WeekdayWide.
  full_after_long l t weekday.
Qed.

(** X15.  In each of the nine packages the full date is the wide name of
    the weekday, a separator and the long date; the separator is a comma
    and a space, but in ksf_CM and kw, where it is a space.  The full
    format fails when the weekday has no name or the long format fails. *)
Theorem full_date_is_weekday_then_long_date :
  Forall (fun c : Calendar =>
            forall (t : Time) (weekday : Z),
              FmtDateFull c t weekday
              = weekday_then_long c [","%char; " "%char] t weekday)
         comma_calendars
  /\ Forall (fun c : Calendar =>
               forall (t : Time) (weekday : Z),
                 FmtDateFull c t weekday
                 = weekday_then_long c [" "%char] t weekday)
            space_calendars.
Proof.
  split.
  - unfold comma_calendars.
    repeat (apply List.Forall_cons); try apply List.Forall_nil;
      intros t weekday.
    + apply bs_full_after_long.
    + apply ca_IT_full_after_long.
    + apply chr_full_after_long.
    + apply es_US_full_after_long.
    + apply saq_KE_full_after_long.
    + apply rwk_full_after_long.
    + apply en_NU_full_after_long.
  - unfold space_calendars.
    repeat (apply List.Forall_cons); try apply List.Forall_nil;
      intros t weekday.
    + apply ksf_CM_full_after_long.
    + apply kw_full_after_long.
Qed.

(** ** Dates that format *)

Lemma index_int_in_range {A : Type} (xs : list A) (i : Z) :
  (0 <= i < Z.of_nat (length xs))%Z -> exists x, index_int xs i = Ok x.
Proof.
  intros H. unfold index_int.
  destruct (Z.leb_spec 0 i); [| lia].
  apply index_list_in_range. lia.
Qed.

Lemma short_date_year_returns (y : Z) (b : list ascii)
    (k : list ascii -> result string) :
  (forall b', returns (k b')) ->
  returns (let* b := (if (9 <? y)%Z
                      then let* f := slice_from (Itoa y) 2 in
                           Ok (b ++ bytes f)
                      else let* f := slice_from (Itoa y) 1 in
                           Ok (b ++ bytes f)) in
           k b).
Proof. intros Hk. rewrite year_slice. apply Hk. Qed.

Ltac date_returns l t weekday H :=
  destruct H as (Hm & Hd);
  try (destruct (index_int_in_range (daysWide l) weekday) as [d ->];
       [lia |]);
  try (destruct (index_int_in_range (monthsAbbreviated l) (Month t))
         as [m ->]; [lia |]);
  try (destruct (index_int_in_range (monthsWide l) (Month t)) as [m' ->];
       [lia |]);
  cbn [bind]; eexists; reflexivity.

Lemma bs_dates_return (l : calendar_struct) (t : Time) (weekday : Z) :
  length (monthsAbbreviated l) = 13%nat ->
  length (monthsWide l) = 13%nat ->
  length (daysWide l) = 7%nat ->
  valid_date t weekday ->
  returns (bs_date.FmtDateMedium l t)
  /\ returns (bs_date.FmtDateLong l t)
  /\ returns (bs_date.FmtDateFull l t weekday).
Proof.
  intros La Lw Ld H.
  unfold bs_date.FmtDateMedium, bs_date.FmtDateLong,
    bs_date.FmtDateFull.
  repeat split; date_returns l t weekday H.
Qed.

Lemma ksf_CM_dates_return (l : calendar_struct) (t : Time) (weekday : Z) :
  length (monthsAbbreviated l) = 13%nat ->
  length (monthsWide l) = 13%nat ->
  length (daysWide l) = 7%nat ->
  valid_date t weekday ->
  returns (ksf_CM_date.FmtDateMedium l t)
  /\ returns (ksf_CM_date.FmtDateLong l t)
  /\ returns (ksf_CM_date.FmtDateFull l t weekday).
Proof.
  intros La Lw Ld H.
  unfold ksf_CM_date.FmtDateMedium, ksf_CM_date.FmtDateLong,
    ksf_CM_date.FmtDateFull.
  repeat split; date_returns l t weekday H.
Qed.

Lemma ca_IT_dates_return (l : calendar_struct) (t : Time) (weekday : Z) :
  length (monthsAbbreviated l) = 13%nat ->
  length (monthsWide l) = 13%nat ->
  length (daysWide l) = 7%nat ->
  valid_date t weekday ->
  returns (ca_IT_date.FmtDateMedium l t)
  /\ returns (ca_IT_date.FmtDateLong l t)
  /\ returns (ca_IT_date.FmtDateFull l t weekday).
Proof.
  intros La Lw Ld H.
  unfold ca_IT_date.FmtDateMedium, ca_IT_date.FmtDateLong,
    ca_IT_date.FmtDateFull.
  repeat split; date_returns l t weekday H.
Qed.

Lemma chr_dates_return (l : calendar_struct) (t : Time) (weekday : Z) :
  length (monthsAbbreviated l) = 13%nat ->
  length (monthsWide l) = 13%nat ->
  length (daysWide l) = 7%nat ->
  valid_date t weekday ->
  returns (chr_date.FmtDateMedium l t)
  /\ returns (chr_date.FmtDateLong l t)
  /\ returns (chr_date.FmtDateFull l t weekday).
Proof.
  intros La Lw Ld H.
  unfold chr_date.FmtDateMedium, chr_date.FmtDateLong,
    chr_date.FmtDateFull.
  repeat split; date_returns l t weekday H.
Qed.

Lemma es_US_dates_return (l : calendar_struct) (t : Time) (weekday : Z) :
  length (monthsAbbreviated l) = 13%nat ->
  length (monthsWide l) = 13%nat ->
  length (daysWide l) = 7%nat ->
  valid_date t weekday ->
  returns (es_US_date.FmtDateMedium l t)
  /\ returns (es_US_date.FmtDateLong l t)
  /\ returns (es_US_date.FmtDateFull l t weekday).
Proof.
  intros La Lw Ld H.
  unfold es_US_date.FmtDateMedium, es_US_date.FmtDateLong,
    es_US_date.FmtDateFull.
  repeat split; date_returns l t weekday H.
Qed.

Lemma saq_KE_dates_return (l : calendar_struct) (t : Time) (weekday : Z) :
  length (monthsAbbreviated l) = 13%nat ->
  length (monthsWide l) = 13%nat ->
  length (daysWide l) = 7%nat ->
  valid_date t weekday ->
  returns (saq_KE_date.FmtDateMedium l t)
  /\ returns (saq_KE_date.FmtDateLong l t)
  /\ returns (saq_KE_date.FmtDateFull l t weekday).
Proof.
  intros La Lw Ld H.
  unfold saq_KE_date.FmtDateMedium, saq_KE_date.FmtDateLong,
    saq_KE_date.FmtDateFull.
  repeat split; date_returns l t weekday H.
Qed.

Lemma kw_dates_return (l : calendar_struct) (t : Time) (weekday : Z) :
  length (monthsAbbreviated l) = 13%nat ->
  length (monthsWide l) = 13%nat ->
  length (daysWide l) = 7%nat ->
  valid_date t weekday ->
  returns (kw_date.FmtDateMedium l t)
  /\ returns (kw_date.FmtDateLong l t)
  /\ returns (kw_date.FmtDateFull l t weekday).
Proof.
  intros La Lw Ld H.
  unfold kw_date.FmtDateMedium, kw_date.FmtDateLong,
    kw_date.FmtDateFull.
  repeat split; date_returns l t weekday H.
Qed.

Lemma rwk_dates_return (l : calendar_struct) (t : Time) (weekday : Z) :
  length (monthsAbbreviated l) = 13%nat ->
  length (monthsWide l) = 13%nat ->
  length (daysWide l) = 7%nat ->
  valid_date t weekday ->
  returns (rwk_date.FmtDateMedium l t)
  /\ returns (rwk_date.FmtDateLong l t)
  /\ returns (rwk_date.FmtDateFull l t weekday).
Proof.
  intros La Lw Ld H.
  unfold rwk_date.FmtDateMedium, rwk_date.FmtDateLong,
    rwk_date.FmtDateFull.
  repeat split; date_returns l t weekday H.
Qed.

Lemma en_NU_dates_return (l : calendar_struct) (t : Time) (weekday : Z) :
  length (monthsAbbreviated l) = 13%nat ->
  length (monthsWide l) = 13%nat ->
  length (daysWide l) = 7%nat ->
  valid_date t weekday ->
  returns (en_NU_date.FmtDateMedium l t)
  /\ returns (en_NU_date.FmtDateLong l t)
  /\ returns (en_NU_date.FmtDateFull l t weekday).
Proof.
  intros La Lw Ld H.
  unfold en_NU_date.FmtDateMedium, en_NU_date.FmtDateLong,
    en_NU_date.FmtDateFull.
  repeat split; date_returns l t weekday H.
Qed.

Lemma ca_IT_short_date_returns (l : calendar_struct) (t : Time) :
  returns (ca_IT_date.FmtDateShort l t).
Proof.
  unfold ca_IT_date.FmtDateShort. cbv zeta.
  apply short_date_year_returns. intros b'. eexists. reflexivity.
Qed.

Lemma es_US_short_date_returns (l : calendar_struct) (t : Time) :
  returns (es_US_date.FmtDateShort l t).
Proof.
  unfold es_US_date.FmtDateShort. cbv zeta.
  apply short_date_year_returns. intros b'. eexists. reflexivity.
Qed.

Lemma bs_short_date_returns (l : locale_struct) (t : Time) :
  returns (bs.FmtDateShort l t).
Proof.
  unfold bs.FmtDateShort. cbv zeta.
  apply short_date_year_returns. intros b'. eexists. reflexivity.
Qed.

Lemma chr_short_date_returns (l : locale_struct) (t : Time) :
  returns (chr.FmtDateShort l t).
Proof.
  unfold chr.FmtDateShort. cbv zeta.
  apply short_date_year_returns. intros b'. eexists. reflexivity.
Qed.

Lemma ksf_CM_short_date_returns (l : calendar_struct) (t : Time) :
  returns (ksf_CM_date.FmtDateShort l t).
Proof. unfold ksf_CM_date.FmtDateShort. eexists. reflexivity. Qed.

Lemma saq_KE_short_date_returns (l : calendar_struct) (t : Time) :
  returns (saq_KE_date.FmtDateShort l t).
Proof. unfold saq_KE_date.FmtDateShort. eexists. reflexivity. Qed.

Lemma kw_short_date_returns (l : calendar_struct) (t : Time) :
  returns (kw_date.FmtDateShort l t).
Proof. unfold kw_date.FmtDateShort. eexists. reflexivity. Qed.

Lemma rwk_short_date_returns (l : calendar_struct) (t : Time) :
  returns (rwk_date.FmtDateShort l t).
Proof. unfold rwk_date.FmtDateShort. eexists. reflexivity. Qed.

Lemma en_NU_short_date_returns (l : calendar_struct) (t : Time) :
  returns (en_NU_date.FmtDateShort l t).
Proof. unfold en_NU_date.FmtDateShort. eexists. reflexivity. Qed.

(** X16.  In each of the nine packages the four date formats return for
    every date: the short format always, the medium, long and full
    formats for a month from 1 to 12 and a weekday from 0 to 6, whatever
    the day and the year. *)
Theorem date_formats_return (c : Calendar) (t : Time) (weekday : Z) :
  In c calendars ->
  valid_date t weekday ->
  returns (FmtDateShort c t)
  /\ returns (FmtDateMedium c t)
  /\ returns (FmtDateLong c t)
  /\ returns (FmtDateFull c t weekday).
Proof.
  intros Hc H. cbn [In calendars] in Hc.
  repeat (destruct Hc as [<- | Hc]); try contradiction; split.
  - apply (bs_short_date_returns bs.New).
  - apply (bs_dates_return bs_date.New t weekday); auto.
  - apply (ksf_CM_short_date_returns ksf_CM_date.New).
  - apply (ksf_CM_dates_return ksf_CM_date.New t weekday); auto.
  - apply (ca_IT_short_date_returns ca_IT_date.New).
  - apply (ca_IT_dates_return ca_IT_date.New t weekday); auto.
  - apply (chr_short_date_returns chr.New).
  - apply (chr_dates_return chr_date.New t weekday); auto.
  - apply (es_US_short_date_returns es_US_date.New).
  - apply (es_US_dates_return es_US_date.New t weekday); auto.
  - apply (saq_KE_short_date_returns saq_KE_date.New).
  - apply (saq_KE_dates_return saq_KE_date.New t weekday); auto.
  - apply (kw_short_date_returns kw_date.New).
  - apply (kw_dates_return kw_date.New t weekday); auto.
  - apply (rwk_short_date_returns rwk_date.New).
  - apply (rwk_dates_return rwk_date.New t weekday); auto.
  - apply (en_NU_short_date_returns en_NU_date.New).
  - apply (en_NU_dates_return en_NU_date.New t weekday); auto.
Qed.

(** A use of X16 in kw: Tuesday, 2 January 2024. *)
Lemma date_formats_witness :
  In kw_date.calendar calendars
  /\ valid_date (mkTime 2024 1 2 9 5 7 "GMT") 2
  /\ returns (FmtDateFull kw_date.calendar (mkTime 2024 1 2 9 5 7 "GMT") 2).
Proof.
  assert (Hin : In kw_date.calendar calendars)
    by (unfold calendars; cbn [In]; tauto).
  assert (Hv : valid_date (mkTime 2024 1 2 9 5 7 "GMT") 2)
    by (unfold valid_date; cbn; lia).
  split; [exact Hin | split; [exact Hv |]].
  exact (proj2 (proj2 (proj2 (date_formats_return kw_date.calendar
                                (mkTime 2024 1 2 9 5 7 "GMT") 2 Hin Hv)))).
Defined.

(** ** Years before the era *)

Lemma wrap_int_small (z : Z) :
  (- 2 ^ 63 <= z < 2 ^ 63)%Z -> wrap_int z = z.
Proof.
  intros H. unfold wrap_int. rewrite Z.mod_small by lia. lia.
Qed.

Lemma year_text_drops_sign (y : Z) (b : list ascii) :
  (0 < y < 2 ^ 63)%Z ->
  (if (0 <? - y)%Z then AppendInt b (- y)
   else AppendInt b (wrap_int (- y * -1)))
  = (if (0 <? y)%Z then AppendInt b y
     else AppendInt b (wrap_int (y * -1))).
Proof.
  intros H.
  destruct (Z.ltb_spec 0 (- y)); [lia |].
  destruct (Z.ltb_spec 0 y); [| lia].
  rewrite wrap_int_small by lia. f_equal. lia.
Qed.

Ltac same_year_text l t weekday H :=
  cbn [with_year Year Month Day];
  try (destruct (index_int (daysWide l) weekday); [| reflexivity ]);
  try (destruct (index_int (monthsAbbreviated l) (Month t));
       [| reflexivity ]);
  try (destruct (index_int (monthsWide l) (Month t)); [| reflexivity ]);
  cbn [bind]; cbv zeta; rewrite (year_text_drops_sign _ _ H); reflexivity.

Lemma bs_year_sign (l : calendar_struct) (t : Time) (y weekday : Z) :
  (0 < y < 2 ^ 63)%Z ->
  bs_date.FmtDateMedium l (with_year t (- y))
  = bs_date.FmtDateMedium l (with_year t y)
  /\ bs_date.FmtDateLong l (with_year t (- y))
     = bs_date.FmtDateLong l (with_year t y)
  /\ bs_date.FmtDateFull l (with_year t (- y)) weekday
     = bs_date.FmtDateFull l (with_year t y) weekday.
Proof.
  intros H.
  unfold bs_date.FmtDateMedium, bs_date.FmtDateLong,
    bs_date.FmtDateFull.
  repeat split; same_year_text l t weekday H.
Qed.

Lemma ksf_CM_year_sign (l : calendar_struct) (t : Time) (y weekday : Z) :
  (0 < y < 2 ^ 63)%Z ->
  ksf_CM_date.FmtDateMedium l (with_year t (- y))
  = ksf_CM_date.FmtDateMedium l (with_year t y)
  /\ ksf_CM_date.FmtDateLong l (with_year t (- y))
     = ksf_CM_date.FmtDateLong l (with_year t y)
  /\ ksf_CM_date.FmtDateFull l (with_year t (- y)) weekday
     = ksf_CM_date.FmtDateFull l (with_year t y) weekday.
Proof.
  intros H.
  unfold ksf_CM_date.FmtDateMedium, ksf_CM_date.FmtDateLong,
    ksf_CM_date.FmtDateFull.
  repeat split; same_year_text l t weekday H.
Qed.

Lemma ca_IT_year_sign (l : calendar_struct) (t : Time) (y weekday : Z) :
  (0 < y < 2 ^ 63)%Z ->
  ca_IT_date.FmtDateMedium l (with_year t (- y))
  = ca_IT_date.FmtDateMedium l (with_year t y)
  /\ ca_IT_date.FmtDateLong l (with_year t (- y))
     = ca_IT_date.FmtDateLong l (with_year t y)
  /\ ca_IT_date.FmtDateFull l (with_year t (- y)) weekday
     = ca_IT_date.FmtDateFull l (with_year t y) weekday.
Proof.
  intros H.
  unfold ca_IT_date.FmtDateMedium, ca_IT_date.FmtDateLong,
    ca_IT_date.FmtDateFull.
  repeat split; same_year_text l t weekday H.
Qed.

Lemma chr_year_sign (l : calendar_struct) (t : Time) (y weekday : Z) :
  (0 < y < 2 ^ 63)%Z ->
  chr_date.FmtDateMedium l (with_year t (- y))
  = chr_date.FmtDateMedium l (with_year t y)
  /\ chr_date.FmtDateLong l (with_year t (- y))
     = chr_date.FmtDateLong l (with_year t y)
  /\ chr_date.FmtDateFull l (with_year t (- y)) weekday
     = chr_date.FmtDateFull l (with_year t y) weekday.
Proof.
  intros H.
  unfold chr_date.FmtDateMedium, chr_date.FmtDateLong,
    chr_date.FmtDateFull.
  repeat split; same_year_text l t weekday H.
Qed.

Lemma es_US_year_sign (l : calendar_struct) (t : Time) (y weekday : Z) :
  (0 < y < 2 ^ 63)%Z ->
  es_US_date.FmtDateMedium l (with_year t (- y))
  = es_US_date.FmtDateMedium l (with_year t y)
  /\ es_US_date.FmtDateLong l (with_year t (- y))
     = es_US_date.FmtDateLong l (with_year t y)
  /\ es_US_date.FmtDateFull l (with_year t (- y)) weekday
     = es_US_date.FmtDateFull l (with_year t y) weekday.
Proof.
  intros H.
  unfold es_US_date.FmtDateMedium, es_US_date.FmtDateLong,
    es_US_date.FmtDateFull.
  repeat split; same_year_text l t weekday H.
Qed.

Lemma saq_KE_year_sign (l : calendar_struct) (t : Time) (y weekday : Z) :
  (0 < y < 2 ^ 63)%Z ->
  saq_KE_date.FmtDateMedium l (with_year t (- y))
  = saq_KE_date.FmtDateMedium l (with_year t y)
  /\ saq_KE_date.FmtDateLong l (with_year t (- y))
     = saq_KE_date.FmtDateLong l (with_year t y)
  /\ saq_KE_date.FmtDateFull l (with_year t (- y)) weekday
     = saq_KE_date.FmtDateFull l (with_year t y) weekday.
Proof.
  intros H.
  unfold saq_KE_date.FmtDateMedium, saq_KE_date.FmtDateLong,
    saq_KE_date.FmtDateFull.
  repeat split; same_year_text l t weekday H.
Qed.

Lemma kw_year_sign (l : calendar_struct) (t : Time) (y weekday : Z) :
  (0 < y < 2 ^ 63)%Z ->
  kw_date.FmtDateMedium l (with_year t (- y))
  = kw_date.FmtDateMedium l (with_year t y)
  /\ kw_date.FmtDateLong l (with_year t (- y))
     = kw_date.FmtDateLong l (with_year t y)
  /\ kw_date.FmtDateFull l (with_year t (- y)) weekday
     = kw_date.FmtDateFull l (with_year t y) weekday.
Proof.
  intros H.
  unfold kw_date.FmtDateMedium, kw_date.FmtDateLong,
    kw_date.FmtDateFull.
  repeat split; same_year_text l t weekday H.
Qed.

Lemma rwk_year_sign (l : calendar_struct) (t : Time) (y weekday : Z) :
  (0 < y < 2 ^ 63)%Z ->
  rwk_date.FmtDateMedium l (with_year t (- y))
  = rwk_date.FmtDateMedium l (with_year t y)
  /\ rwk_date.FmtDateLong l (with_year t (- y))
     = rwk_date.FmtDateLong l (with_year t y)
  /\ rwk_date.FmtDateFull l (with_year t (- y)) weekday
     = rwk_date.FmtDateFull l (with_year t y) weekday.
Proof.
  intros H.
  unfold rwk_date.FmtDateMedium, rwk_date.FmtDateLong,
    rwk_date.FmtDateFull.
  repeat split; same_year_text l t weekday H.
Qed.

Lemma en_NU_year_sign (l : calendar_struct) (t : Time) (y weekday : Z) :
  (0 < y < 2 ^ 63)%Z ->
  en_NU_date.FmtDateMedium l (with_year t (- y))
  = en_NU_date.FmtDateMedium l (with_year t y)
  /\ en_NU_date.FmtDateLong l (with_year t (- y))
     = en_NU_date.FmtDateLong l (with_year t y)
  /\ en_NU_date.FmtDateFull l (with_year t (- y)) weekday
     = en_NU_date.FmtDateFull l (with_year t y) weekday.
Proof.
  intros H.
  unfold en_NU_date.FmtDateMedium, en_NU_date.FmtDateLong,
    en_NU_date.FmtDateFull.
  repeat split; same_year_text l t weekday H.
Qed.

(** X17.  In each of the nine packages the medium, long and full date
    formats print the year without its sign: the year [-y] of the
    proleptic calendar prints like the year [y], and no format names the
    era. *)
Theorem dates_print_year_without_sign (c : Calendar) (t : Time)
    (y weekday : Z) :
  In c calendars ->
  (0 < y < 2 ^ 63)%Z ->
  FmtDateMedium c (with_year t (- y)) = FmtDateMedium c (with_year t y)
  /\ FmtDateLong c (with_year t (- y)) = FmtDateLong c (with_year t y)
  /\ FmtDateFull c (with_year t (- y)) weekday
     = FmtDateFull c (with_year t y) weekday.
Proof.
  intros Hc H. cbn [In calendars] in Hc.
  repeat (destruct Hc as [<- | Hc]); try contradiction.
  - apply (bs_year_sign bs_date.New t y weekday H).
  - apply (ksf_CM_year_sign ksf_CM_date.New t y weekday H).
  - apply (ca_IT_year_sign ca_IT_date.New t y weekday H).
  - apply (chr_year_sign chr_date.New t y weekday H).
  - apply (es_US_year_sign es_US_date.New t y weekday H).
  - apply (saq_KE_year_sign saq_KE_date.New t y weekday H).
  - apply (kw_year_sign kw_date.New t y weekday H).
  - apply (rwk_year_sign rwk_date.New t y weekday H).
  - apply (en_NU_year_sign en_NU_date.New t y weekday H).
Qed.

(** A use of X17 in en_NU: 15 March of the year -43 prints like 15 March
    of the year 43. *)
Lemma dates_year_sign_witness :
  In en_NU_date.calendar calendars
  /\ (0 < 43 < 2 ^ 63)%Z
  /\ FmtDateLong en_NU_date.calendar
       (with_year (mkTime 0 3 15 0 0 0 "UTC") (- 43))
     = Ok "15 March 43".
Proof.
  assert (Hin : In en_NU_date.calendar calendars)
    by (unfold calendars; cbn [In]; tauto).
  assert (Hy : (0 < 43 < 2 ^ 63)%Z) by lia.
  split; [exact Hin | split; [exact Hy |]].
  etransitivity;
    [exact (proj1 (proj2 (dates_print_year_without_sign
                            en_NU_date.calendar
                            (mkTime 0 3 15 0 0 0 "UTC") 43 0 Hin Hy)))
    | vm_compute; reflexivity].
Defined.

(** ** Narrow and short names *)

Ltac table_complete_or_missing :=
  first [ left; names_agree_on_table
        | right; split; [reflexivity | intros i; apply index_int_nil] ].

(** X20.  No package fills a table of narrow month names, narrow weekday
    names or short weekday names in part: in each of the nine packages
    the table is complete, and the method that names an item agrees with
    the method that lists them, or the table is missing, the list is
    empty and naming an item panics. *)
Theorem narrow_and_short_names_complete_or_missing :
  Forall (fun c : Calendar =>
            complete_or_missing (MonthNarrow (names c)) (MonthsNarrow c) 1 12
            /\ complete_or_missing (WeekdayNarrow (names c))
                 (Ok (WeekdaysNarrow (names c))) 0 7
            /\ complete_or_missing (WeekdayShort (names c))
                 (Ok (WeekdaysShort (names c))) 0 7)
         calendars.
Proof.
  unfold calendars.
  repeat (apply List.Forall_cons); try apply List.Forall_nil;
    repeat split; table_complete_or_missing.
Qed.

(** ** The stack trace of zap *)

Lemma join_lines_cons (line : list ascii) (rest : list (list ascii)) :
  zap.join_lines (line :: rest)
  = line ++ concat (map (fun l => zap.newline :: l) rest).
Proof.
  revert line. induction rest as [| r rest IH]; intros line.
  - simpl. rewrite app_nil_r. reflexivity.
  - change (zap.join_lines (line :: r :: rest))
      with (line ++ zap.newline :: zap.join_lines (r :: rest)).
    rewrite IH. reflexivity.
Qed.

Lemma frames_loop_step (f g : zap.Frame) (rest : list zap.Frame) (i : nat)
    (buffer : list ascii) :
  zap.frames_loop (f :: g :: rest) i buffer
  = if zap.shouldIgnoreStacktraceFunction (zap.Function f)
    then zap.frames_loop (g :: rest) i buffer
    else zap.frames_loop (g :: rest) (S i)
           (AppendInt
              ((if (i =? 0)%nat then buffer else buffer ++ [zap.newline])
               ++ bytes (zap.Function f) ++ [zap.newline] ++ [zap.tab]
               ++ bytes (zap.File f) ++ [":"%char])
              (zap.Line f)).
Proof.
  cbn [zap.frames_loop].
  destruct (zap.shouldIgnoreStacktraceFunction (zap.Function f));
    [reflexivity |].
  rewrite <- !app_assoc. reflexivity.
Qed.

Lemma frames_loop_text (frames : list zap.Frame) (i : nat)
    (buffer : list ascii) :
  zap.frames_loop frames i buffer
  = buffer
    ++ concat
         (map (fun l => if (i =? 0)%nat then l else zap.newline :: l)
            (firstn 1
               (map zap.frame_text
                  (List.filter
                     (fun frame =>
                        negb (zap.shouldIgnoreStacktraceFunction
                                (zap.Function frame)))
                     (removelast frames)))))
    ++ concat
         (map (fun l => zap.newline :: l)
            (skipn 1
               (map zap.frame_text
                  (List.filter
                     (fun frame =>
                        negb (zap.shouldIgnoreStacktraceFunction
                                (zap.Function frame)))
                     (removelast frames))))).
Proof.
  revert i buffer. induction frames as [| f rest IH]; intros i buffer.
  - simpl. rewrite app_nil_r. reflexivity.
  - destruct rest as [| g rest].
    + simpl. rewrite app_nil_r. reflexivity.
    + change (removelast (f :: g :: rest))
        with (f :: removelast (g :: rest)).
      rewrite frames_loop_step.
      cbn [List.filter].
      destruct (zap.shouldIgnoreStacktraceFunction (zap.Function f)).
      * cbn [negb]. apply IH.
      * cbn [negb map firstn skipn concat]. rewrite IH.
        set (tail := List.filter _ (removelast (g :: rest))).
        destruct (map zap.frame_text tail) as [| l ls];
          cbn [firstn skipn map concat Nat.eqb];
          unfold AppendInt, zap.frame_text;
          destruct (i =? 0)%nat; rewrite ?app_nil_r;
          repeat first [rewrite <- app_assoc | progress cbn [app]];
          reflexivity.
Qed.

Lemma frames_loop_trace (frames : list zap.Frame) :
  string_of_list_ascii (zap.frames_loop frames 0 [])
  = zap.trace_text frames.
Proof.
  unfold zap.trace_text. rewrite frames_loop_text. cbn [app Nat.eqb].
  f_equal.
  destruct (map zap.frame_text _) as [| l ls].
  - reflexivity.
  - rewrite join_lines_cons. cbn [firstn skipn map concat].
    rewrite app_nil_r. reflexivity.
Qed.

Lemma capture_step (stack : list zap.Frame) (fuel : nat)
    (pc : zap.programCounters) :
  zap.capture stack (S fuel) pc
  = if (Nat.min (zap.pcs_len pc) (length stack) <? zap.pcs_cap pc)%nat
    then Some (zap.mkProgramCounters
                 (Nat.min (zap.pcs_len pc) (length stack)) (zap.pcs_cap pc))
    else zap.capture stack fuel
           (zap.newProgramCounters (zap.pcs_len pc * 2)).
Proof. reflexivity. Qed.

Lemma capture_fresh (stack : list zap.Frame) (fuel size : nat) :
  (0 < size)%nat ->
  (length stack < size + fuel)%nat ->
  exists cap : nat,
    zap.capture stack (S fuel) (zap.newProgramCounters size)
    = Some (zap.mkProgramCounters (length stack) cap).
Proof.
  revert size. induction fuel as [| fuel IH]; intros size Hs Hd.
  - exists size. rewrite capture_step.
    cbn [zap.newProgramCounters zap.pcs_len zap.pcs_cap].
    rewrite Nat.min_r by lia.
    destruct (Nat.ltb_spec (length stack) size); [reflexivity | lia].
  - rewrite capture_step.
    cbn [zap.newProgramCounters zap.pcs_len zap.pcs_cap].
    destruct (Nat.ltb_spec (Nat.min size (length stack)) size) as [H | H].
    + exists size. rewrite Nat.min_r by lia. reflexivity.
    + apply IH; lia.
Qed.

(** X18.  With counters fresh from [newProgramCounters] the capture loop
    ends, growing the slice until the stack fits, and [takeStacktrace]
    returns the trace of the whole stack: one text
    [function\n\tfile:line] for each frame but the last, the frames of
    the functions with an ignored prefix left out, the texts separated by
    newlines.  The last frame of the stack is never printed. *)
Theorem takeStacktrace_with_fresh_counters (stack : list zap.Frame)
    (fuel size : nat) :
  (0 < size)%nat ->
  (length stack < size + fuel)%nat ->
  exists put : zap.programCounters,
    zap.takeStacktrace stack (S fuel) (zap.newProgramCounters size)
    = Some (zap.trace_text stack, put).
Proof.
  intros Hs Hd. unfold zap.takeStacktrace.
  destruct (capture_fresh stack fuel size Hs Hd) as [cap ->].
  cbn [zap.pcs_len]. rewrite firstn_all, frames_loop_trace.
  eexists. reflexivity.
Qed.

(** X19.  Counters that come back from the pool shortened truncate the
    trace.  A first call on a stack of fewer than 64 frames puts its
    counters back with the slice cut to the depth of that stack; a later
    call that gets them from the pool reads at most that many frames,
    however deep its own stack is, and returns the trace of that prefix
    without growing the slice. *)
Theorem pooled_counters_truncate_the_next_trace (first later : list zap.Frame)
    (fuel fuel' : nat) :
  (length first < 64)%nat ->
  exists put put' : zap.programCounters,
    zap.takeStacktrace first (S fuel) (zap.newProgramCounters 64)
    = Some (zap.trace_text first, put)
    /\ zap.takeStacktrace later (S fuel') put
       = Some (zap.trace_text (firstn (length first) later), put').
Proof.
  intros H.
  exists (zap.mkProgramCounters (length first) 64).
  assert (E1 : zap.capture first (S fuel) (zap.newProgramCounters 64)
               = Some (zap.mkProgramCounters (length first) 64)).
  { rewrite capture_step.
    cbn [zap.newProgramCounters zap.pcs_len zap.pcs_cap].
    rewrite Nat.min_r by lia.
    destruct (Nat.ltb_spec (length first) 64); [reflexivity | lia]. }
  assert (E2 : zap.capture later (S fuel')
                 (zap.mkProgramCounters (length first) 64)
               = Some (zap.mkProgramCounters
                         (Nat.min (length first) (length later)) 64)).
  { rewrite capture_step. cbn [zap.pcs_len zap.pcs_cap].
    destruct (Nat.ltb_spec (Nat.min (length first) (length later)) 64);
      [reflexivity | lia]. }
  eexists. split.
  - unfold zap.takeStacktrace. rewrite E1.
    unfold zap.Callers.
    cbn [zap.pcs_len zap.pcs_cap zap.newProgramCounters].
    rewrite firstn_all, frames_loop_trace, Nat.min_r by lia.
    destruct (Nat.ltb_spec (length first) 64); [reflexivity | lia].
  - unfold zap.takeStacktrace. rewrite E2. cbn [zap.pcs_len].
    rewrite frames_loop_trace.
    assert (E3 : firstn (Nat.min (length first) (length later)) later
                 = firstn (length first) later).
    { destruct (Nat.le_ge_cases (length first) (length later)).
      - rewrite Nat.min_l by lia. reflexivity.
      - rewrite Nat.min_r by lia.
        rewrite firstn_all, firstn_all2 by lia. reflexivity. }
    rewrite E3. reflexivity.
Qed.

Lemma sample_stack_depth :
  (length [zap.mkFrame "main.handler" "/srv/main.go" 42;
           zap.mkFrame "main.main" "/srv/main.go" 17;
           zap.mkFrame "runtime.main" "/go/proc.go" 185;
           zap.mkFrame "runtime.goexit" "/go/asm.s" 2197] < 64 + 0)%nat.
Proof. cbn. lia. Defined.

(** A use of X18: a stack of four frames, the last two of the runtime. *)
Lemma takeStacktrace_fresh_witness :
  exists put : zap.programCounters,
    zap.takeStacktrace
      [zap.mkFrame "main.handler" "/srv/main.go" 42;
       zap.mkFrame "main.main" "/srv/main.go" 17;
       zap.mkFrame "runtime.main" "/go/proc.go" 185;
       zap.mkFrame "runtime.goexit" "/go/asm.s" 2197]
      1 (zap.newProgramCounters 64)
    = Some (zap.trace_text
              [zap.mkFrame "main.handler" "/srv/main.go" 42;
               zap.mkFrame "main.main" "/srv/main.go" 17;
               zap.mkFrame "runtime.main" "/go/proc.go" 185;
               zap.mkFrame "runtime.goexit" "/go/asm.s" 2197], put).
Proof.
  apply (takeStacktrace_with_fresh_counters _ 0 64).
  - lia.
  - exact sample_stack_depth.
Defined.

(** A use of X19: the counters of a call two frames deep cut the trace of
    a later call four frames deep to its first frame. *)
Lemma pooled_counters_witness :
  exists put put' : zap.programCounters,
    zap.takeStacktrace
      [zap.mkFrame "main.init" "/srv/main.go" 9;
       zap.mkFrame "runtime.main" "/go/proc.go" 185]
      1 (zap.newProgramCounters 64)
    = Some (zap.trace_text
              [zap.mkFrame "main.init" "/srv/main.go" 9;
               zap.mkFrame "runtime.main" "/go/proc.go" 185], put)
    /\ zap.takeStacktrace
         [zap.mkFrame "main.handler" "/srv/main.go" 42;
          zap.mkFrame "main.serve" "/srv/main.go" 30;
          zap.mkFrame "main.main" "/srv/main.go" 17;
          zap.mkFrame "runtime.main" "/go/proc.go" 185]
         1 put
       = Some (zap.trace_text
                 (firstn 2
                    [zap.mkFrame "main.handler" "/srv/main.go" 42;
                     zap.mkFrame "main.serve" "/srv/main.go" 30;
                     zap.mkFrame "main.main" "/srv/main.go" 17;
                     zap.mkFrame "runtime.main" "/go/proc.go" 185]), put').
Proof.
  apply (pooled_counters_truncate_the_next_trace
           [zap.mkFrame "main.init" "/srv/main.go" 9;
            zap.mkFrame "runtime.main" "/go/proc.go" 185]
           _ 0 0).
  cbn. lia.
Defined.
